(** * PDF4me AI node for n8n: a shallow embedding of the action modules
      and of the node dispatcher, with the properties of the specification.

    Sources embedded here:
    - [nodes/Pdf4me/actions/aiInvoiceParser.ts], [aiProcessContract.ts],
      [aiProcessMortgageDocument.ts] and the action modules for health card,
      bank cheque, credit card, pay stub and marriage certificate;
    - [Pdf4me.execute], the dispatch loop of the node class.

    [GenericFunctions.ts] (the table [ActionConstants] and the client
    [pdf4meAsyncRequest]) is not among the sources.  The actions take both
    as parts of the runtime they run in; the asynchronous client is
    modelled separately, from the specification, in [Module AsyncClient]. *)

From stdpp Require Import gmap strings list fin_maps pretty.
From Stdlib Require Import ZArith Ascii String Lia.

#[local] Open Scope string_scope.
#[local] Open Scope nat_scope.
#[local] Open Scope list_scope.
#[local] Open Scope stdpp_scope.
#[local] Set Warnings "-register-all".

(** ** JavaScript strings

    A string is a sequence of code units; the code units that matter to the
    actions (the comma, the base64 alphabet, white space) are all below 256,
    so [String.string] is used. *)

Module Js.

(** [s.includes(c)] for a one-character needle. *)
Fixpoint includes (s : string) (c : ascii) : bool :=
  match s with
  | EmptyString => false
  | String a s' => if Ascii.eqb a c then true else includes s' c
  end.

(** [s.split(c)] for a one-character separator: the pieces between the
    separators, of which there is always at least one. *)
Fixpoint split (s : string) (c : ascii) : list string :=
  match s with
  | EmptyString => [EmptyString]
  | String a s' =>
      if Ascii.eqb a c then EmptyString :: split s' c
      else match split s' c with
           | piece :: pieces => String a piece :: pieces
           | [] => [String a EmptyString]
           end
  end.

(** [s.startsWith(p)]. *)
Fixpoint startsWith (s p : string) : bool :=
  match p, s with
  | EmptyString, _ => true
  | String _ _, EmptyString => false
  | String b p', String a s' => if Ascii.eqb a b then startsWith s' p' else false
  end.

(** White space removed by [trim], among the code units below 256. *)
Definition isWhiteSpace (a : ascii) : bool :=
  let n := nat_of_ascii a in
  (Nat.leb 9 n && Nat.leb n 13) || Nat.eqb n 32 || Nat.eqb n 160.

Fixpoint trimStart (s : string) : string :=
  match s with
  | EmptyString => EmptyString
  | String a s' => if isWhiteSpace a then trimStart s' else s
  end.

Fixpoint trimEnd (s : string) : string :=
  match s with
  | EmptyString => EmptyString
  | String a s' =>
      match trimEnd s' with
      | EmptyString => if isWhiteSpace a then EmptyString else String a EmptyString
      | rest => String a rest
      end
  end.

Definition trim (s : string) : string := trimEnd (trimStart s).

(** [s.substring(0, n)]. *)
Definition substring0 (s : string) (n : nat) : string := String.substring 0 n s.

(** Truthiness of a string: every string but the empty one. *)
Definition truthyStr (s : string) : bool :=
  match s with EmptyString => false | _ => true end.

End Js.

(** ** Base64 input: removal of a data-URL prefix

    Lines 178-180 of [aiInvoiceParser.ts], repeated in every action:
<<
    if (docContent.includes(',')) {
        docContent = docContent.split(',')[1];
    }
>>
    An index outside the array reads [undefined] in JavaScript; it is mapped
    to the empty string, which the next statement of every action
    ([!docContent]) treats the same way.  [split_second_defined] shows that
    the case does not arise. *)
Definition stripDataUrlPrefix (docContent : string) : string :=
  if Js.includes docContent "," then
    default EmptyString (Js.split docContent "," !! 1%nat)
  else docContent.

(** The characters of the base64 alphabet, padding included. *)
Definition isBase64Char (a : ascii) : bool :=
  let n := nat_of_ascii a in
  (Nat.leb 65 n && Nat.leb n 90) || (Nat.leb 97 n && Nat.leb n 122)
  || (Nat.leb 48 n && Nat.leb n 57) || Nat.eqb n 43 || Nat.eqb n 47 || Nat.eqb n 61.

Fixpoint isBase64 (s : string) : bool :=
  match s with
  | EmptyString => true
  | String a s' => isBase64Char a && isBase64 s'
  end.

(** The text of [s] before its first comma (all of [s] when it has none). *)
Fixpoint untilComma (s : string) : string :=
  match s with
  | EmptyString => EmptyString
  | String a s' => if Ascii.eqb a "," then EmptyString else String a (untilComma s')
  end.

(** ** JavaScript values

    The values that travel through the actions are JSON values (a response
    body, a parsed response, a request payload), plus [undefined]. *)

(** A number: not-a-number, an infinity, or [mantissa * 10 ^ exponent]. *)
Inductive JsNumber :=
| NaN
| Infinity (negative : bool)
| Finite (mantissa exponent : Z).

Inductive JsVal :=
| VUndefined
| VNull
| VBool (b : bool)
| VNum (n : JsNumber)
| VStr (s : string)
| VArr (items : list JsVal)
| VObj (props : gmap string JsVal).

(** [IDataObject] of n8n-workflow: an object used as a string-keyed map. *)
Abbreviation IDataObject := (gmap string JsVal).

Definition numberOfNat (n : nat) : JsNumber := Finite (Z.of_nat n) 0.

Definition truthyNum (n : JsNumber) : bool :=
  match n with
  | NaN => false
  | Infinity _ => true
  | Finite m _ => negb (Z.eqb m 0)
  end.

(** [if (v)]: what JavaScript takes for true. *)
Definition truthy (v : JsVal) : bool :=
  match v with
  | VUndefined | VNull => false
  | VBool b => b
  | VNum n => truthyNum n
  | VStr s => Js.truthyStr s
  | VArr _ | VObj _ => true
  end.

(** The own enumerable properties of an array or of a string: its indices. *)
Definition indexed (items : list JsVal) : IDataObject :=
  list_to_map (imap (λ i v, (pretty i, v)) items).

Definition charsOf (s : string) : list JsVal :=
  (λ a, VStr (String a EmptyString)) <$> list_ascii_of_string s.

(** [{...v}]: the properties an object spread copies out of [v]. *)
Definition spread (v : JsVal) : IDataObject :=
  match v with
  | VObj props => props
  | VArr items => indexed items
  | VStr s => indexed (charsOf s)
  | VUndefined | VNull | VBool _ | VNum _ => ∅
  end.

(** ** Buffers and [buffer.toString('base64')] *)

Abbreviation Buffer := (list Byte.byte).

Definition base64Alphabet : string :=
  "ABCDEFGHIJKLMNOPQRSTUVWXYZabcdefghijklmnopqrstuvwxyz0123456789+/".

Definition base64Digit (n : N) : ascii :=
  default "A"%char (String.get (N.to_nat n) base64Alphabet).

Fixpoint toBase64 (bytes : Buffer) : string :=
  match bytes with
  | [] => EmptyString
  | [a] =>
      let n := N.shiftl (Byte.to_N a) 16 in
      String (base64Digit (N.shiftr n 18))
        (String (base64Digit (N.land (N.shiftr n 12) 63)) "==")
  | [a; b] =>
      let n := N.lor (N.shiftl (Byte.to_N a) 16) (N.shiftl (Byte.to_N b) 8) in
      String (base64Digit (N.shiftr n 18))
        (String (base64Digit (N.land (N.shiftr n 12) 63))
           (String (base64Digit (N.land (N.shiftr n 6) 63)) "="))
  | a :: b :: c :: rest =>
      let n := N.lor (N.lor (N.shiftl (Byte.to_N a) 16) (N.shiftl (Byte.to_N b) 8))
                 (Byte.to_N c) in
      String (base64Digit (N.shiftr n 18))
        (String (base64Digit (N.land (N.shiftr n 12) 63))
           (String (base64Digit (N.land (N.shiftr n 6) 63))
              (String (base64Digit (N.land n 63)) (toBase64 rest))))
  end.

Definition bytesOf (s : string) : Buffer := list_byte_of_string s.

(** ** Errors

    [ErrorObject] keeps the three properties that the handlers of the
    actions read from a caught value. *)
Record ErrorObject := {
  message : option string;
  code : option string;
  statusCode : option Z;
}.

Inductive JsError :=
| HostError (e : ErrorObject)
    (** a value thrown by the host runtime *)
| Error (msg : string)
    (** [new Error(msg)]: it has the message [msg] and neither [code] nor
        [statusCode] *)
| TypeError (msg : string)
    (** reading a property of [undefined] *)
| NodeOperationError (msg : string)
    (** [new NodeOperationError(this.getNode(), msg)]: [msg] is the text the
        error is built from.  The message a caller reads from the error is
        derived from [msg] by n8n-workflow, which is not among the sources,
        and need not be [msg] itself. *)
| NodeApiError (errorResponse : ErrorObject).
    (** [new NodeApiError(this.getNode(), error as JsonObject)]:
        [errorResponse] is the value the error is built from *)

(** The status code that can be recovered from what an action throws: the
    [statusCode] of a value of the host, and that of the failure a
    [NodeApiError] was built from.  An error built from a text carries none. *)
Definition statusCodeOf (e : JsError) : option Z :=
  match e with
  | HostError o => statusCode o
  | NodeApiError o => statusCode o
  | Error _ | TypeError _ | NodeOperationError _ => None
  end.

Inductive Completion (A : Type) :=
| Normal (a : A)
| Throw (e : JsError).
Arguments Normal {A} a.
Arguments Throw {A} e.

(** ** The data of the host runtime *)

Record IBinaryData := {
  data : string;
  mimeType : string;
}.

Record INodeExecutionData := {
  json : IDataObject;
  binary : option (gmap string IBinaryData);
  error : option JsError;
  pairedItem : option nat;
}.

(** The value of the [customFields] parameter, a fixed collection: its
    [field] property, when present, lists rows of string properties
    ([name] and [description], or [key]). *)
Record CustomFieldsData := {
  field : option (list (gmap string string));
}.

(** [ActionConstants] of [GenericFunctions.ts]: the eight operation names.
    The table is not among the sources, so its values stay open. *)
Record ActionConstantsTable := {
  AiInvoiceParser : string;
  AiProcessHealthCard : string;
  AiProcessContract : string;
  AiProcessMortgageDocument : string;
  AiProcessBankCheque : string;
  AiProcessCreditCard : string;
  AiProcessPayStub : string;
  AiProcessMarriageCertificate : string;
}.

(** What an action runs in: the host object [this : IExecuteFunctions], the
    imports from [GenericFunctions.ts], and the two built-ins the actions
    call ([JSON.parse], [new Date().toISOString()]).

    Parameters arrive resolved and typed, as the casts of the source assume.
    Every host call may throw. *)
Record Runtime := {
  getInputData : option nat → Completion (list INodeExecutionData);
  getNodeParameter : string → nat → option string → Completion string;
  getNodeParameterBoolean : string → nat → bool → Completion bool;
  getNodeParameterCustomFields : nat → Completion CustomFieldsData;
  continueOnFail : bool;
  getBinaryDataBuffer : nat → string → Completion Buffer;
  (** [helpers.httpRequestWithAuthentication] with credential [pdf4meApi],
      method GET and encoding [arraybuffer], followed by [Buffer.from] *)
  httpRequestWithAuthentication : string → Completion Buffer;
  (** [pdf4meAsyncRequest.call(this, path, payload)]: the result, or the
      value it throws *)
  pdf4meAsyncRequest : string → IDataObject → ErrorObject + JsVal;
  ActionConstants : ActionConstantsTable;
  (** [JSON.parse]: the value, or the message of the [SyntaxError] *)
  JSON_parse : string → string + JsVal;
  Date_toISOString : string;
}.

(** ** Effects: network calls and exceptions

    An action is a function from the network calls made so far to a
    completion and the calls made by the end, oldest first. *)
Inductive NetworkCall :=
| HttpGet (url : string)
| AsyncRequest (path : string) (payload : IDataObject).

Definition M (A : Type) : Type := list NetworkCall → Completion A * list NetworkCall.

Definition ret {A} (a : A) : M A := λ calls, (Normal a, calls).

Definition throw {A} (e : JsError) : M A := λ calls, (Throw e, calls).

Definition bind {A B} (m : M A) (k : A → M B) : M B :=
  λ calls,
    match m calls with
    | (Normal a, calls') => k a calls'
    | (Throw e, calls') => (Throw e, calls')
    end.

(** [try { m } catch (err) { handler err }] *)
Definition tryCatch {A} (m : M A) (handler : JsError → M A) : M A :=
  λ calls,
    match m calls with
    | (Normal a, calls') => (Normal a, calls')
    | (Throw e, calls') => handler e calls'
    end.

(** A host call that touches no network. *)
Definition host {A} (c : Completion A) : M A := λ calls, (c, calls).

(** A call that goes out on the network: it is recorded, whatever comes back. *)
Definition network {A} (call : NetworkCall) (c : Completion A) : M A :=
  λ calls, (c, calls ++ [call]).

Declare Scope action_scope.
Delimit Scope action_scope with action.
Notation "'let!' x := m 'in' k" := (bind m (λ x, k))
  (at level 10, x name, m at level 100, k at level 200) : action_scope.
#[local] Open Scope action_scope.

(** [items[0].property]: a [TypeError] when there is no item, with the text
    V8 gives it. *)
Definition first {A} (property : string) (items : list A) : M A :=
  match items with
  | x :: _ => ret x
  | [] =>
      throw (TypeError ("Cannot read properties of undefined (reading '"
                        +:+ property +:+ "')"))
  end.

(** The names every plain object inherits from [Object.prototype]; what an
    object holds under each of them is truthy. *)
Definition objectPrototypeNames : list string :=
  [ "constructor"; "__defineGetter__"; "__defineSetter__"; "hasOwnProperty";
    "__lookupGetter__"; "__lookupSetter__"; "isPrototypeOf"; "propertyIsEnumerable";
    "toString"; "valueOf"; "__proto__"; "toLocaleString" ].

Definition isInherited (name : string) : bool :=
  existsb (String.eqb name) objectPrototypeNames.

(** [!item.binary || !item.binary[name]], for [item.binary] a plain object:
    a name the object does not hold itself is still found when it is
    inherited. *)
Definition lacksBinary (item : INodeExecutionData) (name : string) : bool :=
  match binary item with
  | None => true
  | Some props =>
      match props !! name with
      | Some _ => false
      | None => negb (isInherited name)
      end
  end.

(** ** The action modules *)

Section Actions.

Variable this : Runtime.

(** [this.getNodeParameter(name, index, fallback) as string] *)
Definition parameter (name : string) (index : nat) (fallback : option string) : M string :=
  host (getNodeParameter this name index fallback).

(** An object literal with distinct keys. *)
Definition object (entries : list (string * JsVal)) : IDataObject := list_to_map entries.

Definition strings (l : list string) : JsVal := VArr (VStr <$> l).

(** [x || fallback] for a string that may be missing. *)
Definition orElse (x : option string) (fallback : string) : string :=
  match x with
  | Some s => if Js.truthyStr s then s else fallback
  | None => fallback
  end.

(** [`${x}`] for a string that may be missing. *)
Definition interpolate (x : option string) : string := default "undefined" x.

(** [if (error.statusCode)] *)
Definition hasStatusCode (error : ErrorObject) : bool :=
  match statusCode error with
  | Some n => negb (Z.eqb n 0)
  | None => false
  end.

(** *** The three input modes

    The [if] chain on [inputDataType] that opens every action (lines
    162-193 of [aiInvoiceParser.ts]).  Between the actions it differs in two
    places only: the class of the errors it raises ([Error] or
    [NodeOperationError]) and the name of the URL parameter. *)
Definition readDocContent (raise : string → JsError) (urlParameter : string)
    (inputDataType : string) (index : nat) : M string :=
  if String.eqb inputDataType "binaryData" then
    let! binaryPropertyName := parameter "binaryPropertyName" index (Some "data") in
    let! item := host (getInputData this (Some index)) in
    let! item0 := first "binary" item in
    if lacksBinary item0 binaryPropertyName then
      throw (raise ("No binary data found in property '" +:+ binaryPropertyName +:+ "'"))
    else
      let! buffer := host (getBinaryDataBuffer this index binaryPropertyName) in
      ret (toBase64 buffer)
  else if String.eqb inputDataType "base64" then
    let! docContent := parameter "base64Content" index None in
    ret (stripDataUrlPrefix docContent)
  else if String.eqb inputDataType "url" then
    let! url := parameter urlParameter index None in
    let! buffer := network (HttpGet url) (httpRequestWithAuthentication this url) in
    ret (toBase64 buffer)
  else
    throw (raise ("Unsupported input data type: " +:+ inputDataType)).

(** [!docContent || docContent.trim() === ''] *)
Definition isBlank (docContent : string) : bool :=
  negb (Js.truthyStr docContent) || String.eqb (Js.trim docContent) EmptyString.

Definition invalidPdfMessage (docContent : string) : string :=
  "Invalid PDF content. Base64 should start with 'JVBERi0x' (PDF header), but starts with: "
  +:+ Js.substring0 docContent 20.

(** *** Custom fields

    [customFieldsList.forEach((field) => { if (field.key) keys.push(field.key) })],
    run when the list is not empty. *)
Definition pushIfSet (property : string) (keys : list string) (row : gmap string string)
    : list string :=
  match row !! property with
  | Some v => if Js.truthyStr v then keys ++ [v] else keys
  | None => keys
  end.

Definition collect (property : string) (customFieldsList : list (gmap string string))
    : list string :=
  if Nat.ltb 0 (List.length customFieldsList)
  then fold_left (pushIfSet property) customFieldsList []
  else [].

(** [customFieldsList.map((f) => f.name)] *)
Definition namesOf (customFieldsList : list (gmap string string)) : JsVal :=
  VArr ((λ row, match row !! "name" with Some v => VStr v | None => VUndefined end)
        <$> customFieldsList).

(** *** Optional fields of the payload *)

(** [...(customFieldNames.length > 0 && { customFieldKeys: customFieldNames })],
    inside the object literal of the invoice action. *)
Definition customFieldKeysEntry (customFieldNames : list string) : list (string * JsVal) :=
  if Nat.ltb 0 (List.length customFieldNames)
  then [ ("customFieldKeys", strings customFieldNames) ] else [].

(** [if (customFieldKeys.length > 0) { payload.CustomFieldKeys = customFieldKeys }] *)
Definition withCustomFieldKeys (customFieldKeys : list string) (payload : IDataObject)
    : IDataObject :=
  if Nat.ltb 0 (List.length customFieldKeys)
  then <["CustomFieldKeys" := strings customFieldKeys]> payload else payload.

(** [if (documentType && documentType.trim() !== '')
       { payload.documentType = documentType.trim() }] *)
Definition withDocumentType (documentType : string) (payload : IDataObject)
    : IDataObject :=
  if negb (isBlank documentType)
  then <["documentType" := VStr (Js.trim documentType)]> payload else payload.

(** [if (verifyAuthenticity) { payload.VerifyAuthenticity = verifyAuthenticity }] *)
Definition withVerifyAuthenticity (verifyAuthenticity : bool) (payload : IDataObject)
    : IDataObject :=
  if verifyAuthenticity
  then <["VerifyAuthenticity" := VBool verifyAuthenticity]> payload else payload.

(** *** The request and its error handlers *)

(** [try { result = await pdf4meAsyncRequest.call(this, path, payload) }
     catch (error) { throw handler(error) }] *)
Definition tryRequest (path : string) (payload : IDataObject)
    (handler : ErrorObject → JsError) : M JsVal :=
  let! outcome := network (AsyncRequest path payload)
                    (Normal (pdf4meAsyncRequest this path payload)) in
  match outcome with
  | inr result => ret result
  | inl error => throw (handler error)
  end.

Definition debugContext (docContent docName : string) : string :=
  "Debug: docLength=" +:+ pretty (String.length docContent) +:+ ", docName=" +:+ docName.

Definition connectionErrorMessage (error : ErrorObject) (docContent docName : string)
    : string :=
  "Connection error: " +:+ orElse (message error) "Unknown connection issue"
  +:+ " | " +:+ debugContext docContent docName
  +:+ ", errorCode=" +:+ interpolate (code error).

(** The handler of the actions that raise plain errors (lines 232-251 of
    [aiInvoiceParser.ts]). *)
Definition describeRequestError (error : ErrorObject) (docContent docName : string)
    : string :=
  if bool_decide (code error = Some "ECONNRESET") then
    "Connection was reset. " +:+ debugContext docContent docName
  else if bool_decide (statusCode error = Some 500%Z) then
    "PDF4Me server error (500): "
    +:+ orElse (message error) "The service was not able to process your request."
    +:+ " | " +:+ debugContext docContent docName
  else if bool_decide (statusCode error = Some 404%Z) then
    "API endpoint not found. " +:+ debugContext docContent docName
  else if bool_decide (statusCode error = Some 401%Z) then
    "Authentication failed. " +:+ debugContext docContent docName
  else if bool_decide (statusCode error = Some 403%Z) then
    "Access denied. " +:+ debugContext docContent docName
  else if bool_decide (statusCode error = Some 429%Z) then
    "Rate limit exceeded. " +:+ debugContext docContent docName
  else if hasStatusCode error then
    "PDF4Me API error (" +:+ pretty (default 0%Z (statusCode error)) +:+ "): "
    +:+ orElse (message error) "Unknown error"
    +:+ " | " +:+ debugContext docContent docName
  else connectionErrorMessage error docContent docName.

Definition plainRequestError (docContent docName : string) (error : ErrorObject) : JsError :=
  Error (describeRequestError error docContent docName).

(** The handler of the actions that raise node errors (lines 176-183 of
    [aiProcessContract.ts]). *)
Definition nodeRequestError (docContent docName : string) (error : ErrorObject) : JsError :=
  if hasStatusCode error then NodeApiError error
  else NodeOperationError (connectionErrorMessage error docContent docName).

(** *** The response

    [try { processedData = typeof result === 'string' ? JSON.parse(result) : result }
     catch (error) { throw raise(`Failed to parse API response: ${error.message}`) }] *)
Definition parseResult (raise : string → JsError) (result : JsVal) : M JsVal :=
  match result with
  | VStr s =>
      match JSON_parse this s with
      | inr processedData => ret processedData
      | inl syntaxError => throw (raise ("Failed to parse API response: " +:+ syntaxError))
      end
  | _ => ret result
  end.

(** The five entries every [_metadata] object starts with. *)
Definition metadataEntries (msg docName operation : string) : list (string * JsVal) :=
  [ ("success", VBool true);
    ("message", VStr msg);
    ("processingTimestamp", VStr (Date_toISOString this));
    ("sourceFileName", VStr docName);
    ("operation", VStr operation) ].

(** [customFieldsUsed] and [customFieldsCount], added when keys were sent. *)
Definition customFieldsEntries (customFieldKeys : list string) : list (string * JsVal) :=
  if Nat.ltb 0 (List.length customFieldKeys)
  then [ ("customFieldsUsed", strings customFieldKeys);
         ("customFieldsCount", VNum (numberOfNat (List.length customFieldKeys))) ]
  else [].

(** The same two entries in the invoice action, which looks at the rows of
    the parameter and not at the names it collected from them. *)
Definition invoiceCustomFieldsEntries (customFieldsList : list (gmap string string))
    : list (string * JsVal) :=
  if Nat.ltb 0 (List.length customFieldsList)
  then [ ("customFieldsUsed", namesOf customFieldsList);
         ("customFieldsCount", VNum (numberOfNat (List.length customFieldsList))) ]
  else [].

(** [if (documentType && documentType.trim() !== '')
       { metadata.documentType = documentType }] *)
Definition documentTypeEntry (documentType : string) : list (string * JsVal) :=
  if negb (isBlank documentType) then [ ("documentType", VStr documentType) ] else [].

(** [if (verifyAuthenticity) { metadata.verifyAuthenticity = verifyAuthenticity }] *)
Definition verifyAuthenticityEntry (verifyAuthenticity : bool) : list (string * JsVal) :=
  if verifyAuthenticity then [ ("verifyAuthenticity", VBool verifyAuthenticity) ] else [].

(** [{ json: { ...processedData, _metadata: metadata } }], with
    [pairedItem: { item: index }] where the action sets it. *)
Definition resultItem (processedData : JsVal) (metadata : IDataObject)
    (paired : option nat) : INodeExecutionData :=
  {| json := <["_metadata" := VObj metadata]> (spread processedData);
     binary := None;
     error := None;
     pairedItem := paired |}.

(** *** [actions/aiInvoiceParser.ts] *)
Definition aiInvoiceParser (index : nat) : M (list INodeExecutionData) :=
  let! inputDataType := parameter "inputDataType" index None in
  let! docName := parameter "docName" index None in
  let! docContent := readDocContent Error "invoiceUrl" inputDataType index in
  if isBlank docContent then throw (Error "Invoice content is required")
  else if negb (Js.startsWith docContent "JVBERi0x") then
    throw (Error (invalidPdfMessage docContent))
  else
    let! customFieldsData := host (getNodeParameterCustomFields this index) in
    let customFieldsList := default [] (field customFieldsData) in
    let customFieldNames := collect "name" customFieldsList in
    let payload := object (
      [ ("docName", VStr docName); ("docContent", VStr docContent) ]
      ++ customFieldKeysEntry customFieldNames
      ++ [ ("IsAsync", VBool true) ]) in
    let! result := tryRequest "/api/v2/ProcessInvoice" payload
                     (plainRequestError docContent docName) in
    if truthy result then
      let! processedData := parseResult Error result in
      let metadata := object (
        metadataEntries "Invoice processed successfully using AI" docName "aiInvoiceParser"
        ++ invoiceCustomFieldsEntries customFieldsList) in
      ret [ resultItem processedData metadata None ]
    else
      throw (Error "No response data received from PDF4ME AI Invoice Processing API").

(** *** [actions/aiProcessHealthCard.ts] *)
Definition aiProcessHealthCard (index : nat) : M (list INodeExecutionData) :=
  let! inputDataType := parameter "inputDataType" index None in
  let! docName := parameter "docName" index None in
  let! docContent := readDocContent Error "healthCardUrl" inputDataType index in
  if isBlank docContent then throw (Error "Health card content is required")
  else
    let payload := object
      [ ("docContent", VStr docContent); ("docName", VStr docName);
        ("IsAsync", VBool true) ] in
    let! result := tryRequest "/api/v2/ProcessHealthCard" payload
                     (plainRequestError docContent docName) in
    if truthy result then
      let! processedData := parseResult Error result in
      let metadata := object (
        metadataEntries "Health card processed successfully using AI" docName
          "aiProcessHealthCard") in
      ret [ resultItem processedData metadata None ]
    else
      throw (Error "No response data received from PDF4ME AI Health Card Processing API").

(** *** [actions/aiProcessContract.ts] *)
Definition aiProcessContract (index : nat) : M (list INodeExecutionData) :=
  let! inputDataType := parameter "inputDataType" index None in
  let! docName := parameter "docName" index None in
  let! docContent := readDocContent NodeOperationError "contractUrl" inputDataType index in
  if isBlank docContent then throw (NodeOperationError "Contract content is required")
  else if negb (Js.startsWith docContent "JVBERi0x") then
    throw (NodeOperationError (invalidPdfMessage docContent))
  else
    let payload := object
      [ ("docContent", VStr docContent); ("docName", VStr docName);
        ("IsAsync", VBool true) ] in
    let! result := tryRequest "/api/v2/ProcessContract" payload
                     (nodeRequestError docContent docName) in
    if truthy result then
      let! processedData := parseResult NodeOperationError result in
      let metadata := object (
        metadataEntries "Contract processed successfully using AI" docName
          "aiProcessContract") in
      ret [ resultItem processedData metadata (Some index) ]
    else
      throw (NodeOperationError
               "No response data received from PDF4ME AI Contract Processing API").

(** *** The second copy of the contract action among the sources

    It differs from [actions/aiProcessContract.ts] in raising plain errors
    and in leaving [pairedItem] out. *)
Definition aiProcessContractPlain (index : nat) : M (list INodeExecutionData) :=
  let! inputDataType := parameter "inputDataType" index None in
  let! docName := parameter "docName" index None in
  let! docContent := readDocContent Error "contractUrl" inputDataType index in
  if isBlank docContent then throw (Error "Contract content is required")
  else if negb (Js.startsWith docContent "JVBERi0x") then
    throw (Error (invalidPdfMessage docContent))
  else
    let payload := object
      [ ("docContent", VStr docContent); ("docName", VStr docName);
        ("IsAsync", VBool true) ] in
    let! result := tryRequest "/api/v2/ProcessContract" payload
                     (plainRequestError docContent docName) in
    if truthy result then
      let! processedData := parseResult Error result in
      let metadata := object (
        metadataEntries "Contract processed successfully using AI" docName
          "aiProcessContract") in
      ret [ resultItem processedData metadata None ]
    else
      throw (Error "No response data received from PDF4ME AI Contract Processing API").

(** *** [actions/aiProcessMortgageDocument.ts] *)
Definition aiProcessMortgageDocument (index : nat) : M (list INodeExecutionData) :=
  let! inputDataType := parameter "inputDataType" index None in
  let! docName := parameter "docName" index None in
  let! documentType := parameter "documentType" index (Some EmptyString) in
  let! customFieldsData := host (getNodeParameterCustomFields this index) in
  let! docContent := readDocContent Error "mortgageDocumentUrl" inputDataType index in
  if isBlank docContent then throw (Error "Mortgage document content is required")
  else if negb (Js.startsWith docContent "JVBERi0x") then
    throw (Error (invalidPdfMessage docContent))
  else
    let customFieldsList := default [] (field customFieldsData) in
    let customFieldKeys := collect "key" customFieldsList in
    let payload := object
      [ ("docName", VStr docName); ("docContent", VStr docContent);
        ("IsAsync", VBool true) ] in
    let payload := withDocumentType documentType payload in
    let payload := withCustomFieldKeys customFieldKeys payload in
    let! result := tryRequest "/api/v2/ProcessMortgageDocument" payload
                     (plainRequestError docContent docName) in
    if truthy result then
      let! processedData := parseResult Error result in
      let metadata := object (
        metadataEntries "Mortgage document processed successfully using AI" docName
          "aiProcessMortgageDocument"
        ++ documentTypeEntry documentType
        ++ customFieldsEntries customFieldKeys) in
      ret [ resultItem processedData metadata None ]
    else
      throw (Error
        "No response data received from PDF4ME AI Mortgage Document Processing API").

(** *** [actions/aiProcessBankCheque.ts] *)
Definition aiProcessBankCheque (index : nat) : M (list INodeExecutionData) :=
  let! inputDataType := parameter "inputDataType" index None in
  let! docName := parameter "docName" index None in
  let! customFieldsData := host (getNodeParameterCustomFields this index) in
  let! docContent := readDocContent NodeOperationError "bankChequeUrl" inputDataType index in
  if isBlank docContent then throw (NodeOperationError "Bank cheque content is required")
  else if negb (Js.startsWith docContent "JVBERi0x") then
    throw (NodeOperationError (invalidPdfMessage docContent))
  else
    let customFieldsList := default [] (field customFieldsData) in
    let customFieldKeys := collect "key" customFieldsList in
    let payload := object
      [ ("docName", VStr docName); ("docContent", VStr docContent);
        ("IsAsync", VBool true) ] in
    let payload := withCustomFieldKeys customFieldKeys payload in
    let! result := tryRequest "/api/v2/ProcessBankCheque" payload
                     (nodeRequestError docContent docName) in
    if truthy result then
      let! processedData := parseResult NodeOperationError result in
      let metadata := object (
        metadataEntries "Bank cheque processed successfully using AI" docName
          "aiProcessBankCheque"
        ++ customFieldsEntries customFieldKeys) in
      ret [ resultItem processedData metadata (Some index) ]
    else
      throw (NodeOperationError
               "No response data received from PDF4ME AI Bank Cheque Processing API").

(** *** [actions/aiProcessCreditCard.ts] *)
Definition aiProcessCreditCard (index : nat) : M (list INodeExecutionData) :=
  let! inputDataType := parameter "inputDataType" index None in
  let! docName := parameter "docName" index None in
  let! customFieldsData := host (getNodeParameterCustomFields this index) in
  let! docContent := readDocContent Error "creditCardUrl" inputDataType index in
  if isBlank docContent then throw (Error "Credit card content is required")
  else
    let customFieldsList := default [] (field customFieldsData) in
    let customFieldKeys := collect "key" customFieldsList in
    let payload := object
      [ ("docName", VStr docName); ("docContent", VStr docContent);
        ("IsAsync", VBool true) ] in
    let payload := withCustomFieldKeys customFieldKeys payload in
    let! result := tryRequest "/api/v2/ProcessCreditCard" payload
                     (plainRequestError docContent docName) in
    if truthy result then
      let! processedData := parseResult Error result in
      let metadata := object (
        metadataEntries "Credit card processed successfully using AI" docName
          "aiProcessCreditCard"
        ++ customFieldsEntries customFieldKeys) in
      ret [ resultItem processedData metadata None ]
    else
      throw (Error "No response data received from PDF4ME AI Credit Card Processing API").

(** *** [actions/aiProcessPayStub.ts] *)
Definition aiProcessPayStub (index : nat) : M (list INodeExecutionData) :=
  let! inputDataType := parameter "inputDataType" index None in
  let! docName := parameter "docName" index None in
  let! customFieldsData := host (getNodeParameterCustomFields this index) in
  let! docContent := readDocContent NodeOperationError "payStubUrl" inputDataType index in
  if isBlank docContent then throw (NodeOperationError "Pay stub content is required")
  else
    let customFieldsList := default [] (field customFieldsData) in
    let customFieldKeys := collect "key" customFieldsList in
    let payload := object
      [ ("docName", VStr docName); ("docContent", VStr docContent);
        ("IsAsync", VBool true) ] in
    let payload := withCustomFieldKeys customFieldKeys payload in
    let! result := tryRequest "/api/v2/ProcessPayStub" payload
                     (nodeRequestError docContent docName) in
    if truthy result then
      let! processedData := parseResult NodeOperationError result in
      let metadata := object (
        metadataEntries "Pay stub processed successfully using AI" docName
          "aiProcessPayStub"
        ++ customFieldsEntries customFieldKeys) in
      ret [ resultItem processedData metadata (Some index) ]
    else
      throw (NodeOperationError
               "No response data received from PDF4ME AI Pay Stub Processing API").

(** *** [actions/aiProcessMarriageCertificate.ts] *)
Definition aiProcessMarriageCertificate (index : nat) : M (list INodeExecutionData) :=
  let! inputDataType := parameter "inputDataType" index None in
  let! docName := parameter "docName" index None in
  let! verifyAuthenticity := host (getNodeParameterBoolean this "verifyAuthenticity" index false) in
  let! customFieldsData := host (getNodeParameterCustomFields this index) in
  let! docContent := readDocContent Error "marriageCertificateUrl" inputDataType index in
  if isBlank docContent then throw (Error "Marriage certificate content is required")
  else
    let customFieldsList := default [] (field customFieldsData) in
    let customFieldKeys := collect "key" customFieldsList in
    let payload := object
      [ ("docName", VStr docName); ("docContent", VStr docContent);
        ("IsAsync", VBool true) ] in
    let payload := withVerifyAuthenticity verifyAuthenticity payload in
    let payload := withCustomFieldKeys customFieldKeys payload in
    let! result := tryRequest "/api/v2/ProcessMarriageCertificate" payload
                     (plainRequestError docContent docName) in
    if truthy result then
      let! processedData := parseResult Error result in
      let metadata := object (
        metadataEntries "Marriage certificate processed successfully using AI" docName
          "aiProcessMarriageCertificate"
        ++ verifyAuthenticityEntry verifyAuthenticity
        ++ customFieldsEntries customFieldKeys) in
      ret [ resultItem processedData metadata None ]
    else
      throw (Error
        "No response data received from PDF4ME AI Marriage Certificate Processing API").

(** The nine action modules among the sources. *)
Inductive Action :=
| InvoiceParser
| HealthCard
| Contract
| ContractPlain
| MortgageDocument
| BankCheque
| CreditCard
| PayStub
| MarriageCertificate.

Definition executeAction (a : Action) : nat → M (list INodeExecutionData) :=
  match a with
  | InvoiceParser => aiInvoiceParser
  | HealthCard => aiProcessHealthCard
  | Contract => aiProcessContract
  | ContractPlain => aiProcessContractPlain
  | MortgageDocument => aiProcessMortgageDocument
  | BankCheque => aiProcessBankCheque
  | CreditCard => aiProcessCreditCard
  | PayStub => aiProcessPayStub
  | MarriageCertificate => aiProcessMarriageCertificate
  end.

(** ** The node: [Pdf4me.execute]

    The [if] chain of the loop body; an operation that matches none of the
    eight constants falls through it and pushes nothing. *)
Definition dispatch (action : string) (i : nat) : M (list INodeExecutionData) :=
  let constants := ActionConstants this in
  if String.eqb action (AiInvoiceParser constants) then aiInvoiceParser i
  else if String.eqb action (AiProcessHealthCard constants) then aiProcessHealthCard i
  else if String.eqb action (AiProcessContract constants) then aiProcessContract i
  else if String.eqb action (AiProcessMortgageDocument constants) then
    aiProcessMortgageDocument i
  else if String.eqb action (AiProcessBankCheque constants) then aiProcessBankCheque i
  else if String.eqb action (AiProcessCreditCard constants) then aiProcessCreditCard i
  else if String.eqb action (AiProcessPayStub constants) then aiProcessPayStub i
  else if String.eqb action (AiProcessMarriageCertificate constants) then
    aiProcessMarriageCertificate i
  else ret [].

(** [{ json: this.getInputData(i)[0].json, error: err, pairedItem: { item: i } }] *)
Definition errorItem (err : JsError) (i : nat) : M INodeExecutionData :=
  let! input := host (getInputData this (Some i)) in
  let! input0 := first "json" input in
  ret {| json := json input0; binary := None; error := Some err; pairedItem := Some i |}.

(** The [catch] clause of the loop body. *)
Definition onFailure (i : nat) (err : JsError) : M (list INodeExecutionData) :=
  if continueOnFail this then
    let! item := errorItem err i in
    ret [ item ]
  else throw err.

(** One turn of the loop: what it pushes onto [operationResult]. *)
Definition executeItem (i : nat) : M (list INodeExecutionData) :=
  let! action := parameter "operation" i None in
  tryCatch (dispatch action i) (onFailure i).

(** [for (let i = 0; i < items.length; i++)], with [remaining = items.length - i]. *)
Fixpoint executeLoop (remaining i : nat) (operationResult : list INodeExecutionData)
    : M (list INodeExecutionData) :=
  match remaining with
  | O => ret operationResult
  | S remaining' =>
      let! pushed := executeItem i in
      executeLoop remaining' (S i) (operationResult ++ pushed)
  end.

Definition execute : M (list (list INodeExecutionData)) :=
  let! items := host (getInputData this None) in
  let! operationResult := executeLoop (List.length items) 0 [] in
  ret [ operationResult ].

End Actions.

(** ** Validation errors

    The four failures an action raises while it reads and checks its input:
    a missing binary property, an unknown input mode, empty content, and
    content that does not start with the PDF header. *)
Definition contentRequiredMessage (a : Action) : string :=
  match a with
  | InvoiceParser => "Invoice content is required"
  | HealthCard => "Health card content is required"
  | Contract | ContractPlain => "Contract content is required"
  | MortgageDocument => "Mortgage document content is required"
  | BankCheque => "Bank cheque content is required"
  | CreditCard => "Credit card content is required"
  | PayStub => "Pay stub content is required"
  | MarriageCertificate => "Marriage certificate content is required"
  end.

Definition isValidationMessage (a : Action) (msg : string) : bool :=
  Js.startsWith msg "No binary data found in property '"
  || Js.startsWith msg "Unsupported input data type: "
  || String.eqb msg (contentRequiredMessage a)
  || Js.startsWith msg "Invalid PDF content. ".

Definition isValidationError (a : Action) (e : JsError) : bool :=
  match e with
  | Error msg | NodeOperationError msg => isValidationMessage a msg
  | HostError _ | TypeError _ | NodeApiError _ => false
  end.

(** The payloads of the requests among [calls]. *)
Definition payloadsOf (calls : list NetworkCall) : list IDataObject :=
  omap (λ call, match call with
                | AsyncRequest _ payload => Some payload
                | HttpGet _ => None
                end) calls.

(** Plain errors or node errors: which of the two handlers an action has. *)
Definition raisesNodeErrors (a : Action) : bool :=
  match a with
  | Contract | BankCheque | PayStub => true
  | InvoiceParser | HealthCard | ContractPlain | MortgageDocument | CreditCard
  | MarriageCertificate => false
  end.

(** What the caller supplied for the optional fields of an action. *)
Definition suppliedFieldKeys (this : Runtime) (a : Action) (index : nat) : list string :=
  match getNodeParameterCustomFields this index with
  | Normal customFieldsData =>
      collect (match a with InvoiceParser => "name" | _ => "key" end)
        (default [] (field customFieldsData))
  | Throw _ => []
  end.

(** The key under which an action sends custom field keys, if it sends any. *)
Definition customFieldsKey (a : Action) : option string :=
  match a with
  | InvoiceParser => Some "customFieldKeys"
  | MortgageDocument | BankCheque | CreditCard | PayStub | MarriageCertificate =>
      Some "CustomFieldKeys"
  | HealthCard | Contract | ContractPlain => None
  end.

#[global] Instance Action_eq_dec : EqDecision Action.
Proof. solve_decision. Defined.

Definition suppliedDocumentType (this : Runtime) (index : nat) : string :=
  match getNodeParameter this "documentType" index (Some EmptyString) with
  | Normal documentType => documentType
  | Throw _ => EmptyString
  end.

Definition suppliedVerifyAuthenticity (this : Runtime) (index : nat) : bool :=
  match getNodeParameterBoolean this "verifyAuthenticity" index false with
  | Normal verifyAuthenticity => verifyAuthenticity
  | Throw _ => false
  end.

(** What an action sends under a key other than the three it always sends:
    the custom field keys when at least one row has a non-empty key (a
    non-empty name, for the invoice), the trimmed document type of the
    mortgage action when it is not blank, the verification flag of the
    marriage certificate action when it is true, and nothing else. *)
Definition optionalFieldOf (a : Action) (keys : list string) (documentType : string)
    (verifyAuthenticity : bool) (key : string) : option JsVal :=
  if bool_decide (customFieldsKey a = Some key) then
    if Nat.ltb 0 (List.length keys) then Some (strings keys) else None
  else if bool_decide (a = MortgageDocument ∧ key = "documentType") then
    if isBlank documentType then None else Some (VStr (Js.trim documentType))
  else if bool_decide (a = MarriageCertificate ∧ key = "VerifyAuthenticity") then
    if verifyAuthenticity then Some (VBool true) else None
  else None.

Definition optionalField (this : Runtime) (a : Action) (index : nat) (key : string)
    : option JsVal :=
  optionalFieldOf a (suppliedFieldKeys this a index) (suppliedDocumentType this index)
    (suppliedVerifyAuthenticity this index) key.

(** The three keys every payload has, and the closed form of the others. *)
Definition isPayload (a : Action) (docName docContent : string) (keys : list string)
    (documentType : string) (verifyAuthenticity : bool) (payload : IDataObject) : Prop :=
  payload !! "docName" = Some (VStr docName)
  ∧ payload !! "docContent" = Some (VStr docContent)
  ∧ payload !! "IsAsync" = Some (VBool true)
  ∧ ∀ key, key ∉ ["docName"; "docContent"; "IsAsync"] →
           payload !! key = optionalFieldOf a keys documentType verifyAuthenticity key.

(** The class of the errors an action raises itself. *)
Definition raiseOf (a : Action) : string → JsError :=
  if raisesNodeErrors a then NodeOperationError else Error.

(** The message of an action for a response that is not truthy. *)
Definition noResponseMessage (a : Action) : string :=
  "No response data received from PDF4ME AI "
  +:+ match a with
      | InvoiceParser => "Invoice"
      | HealthCard => "Health Card"
      | Contract | ContractPlain => "Contract"
      | MortgageDocument => "Mortgage Document"
      | BankCheque => "Bank Cheque"
      | CreditCard => "Credit Card"
      | PayStub => "Pay Stub"
      | MarriageCertificate => "Marriage Certificate"
      end
  +:+ " Processing API".

(** The [operation] entry of the metadata of an action. *)
Definition operationName (a : Action) : string :=
  match a with
  | InvoiceParser => "aiInvoiceParser"
  | HealthCard => "aiProcessHealthCard"
  | Contract | ContractPlain => "aiProcessContract"
  | MortgageDocument => "aiProcessMortgageDocument"
  | BankCheque => "aiProcessBankCheque"
  | CreditCard => "aiProcessCreditCard"
  | PayStub => "aiProcessPayStub"
  | MarriageCertificate => "aiProcessMarriageCertificate"
  end.

(** The rows of the [customFields] parameter, as the caller supplied them. *)
Definition suppliedRows (this : Runtime) (index : nat) : list (gmap string string) :=
  match getNodeParameterCustomFields this index with
  | Normal customFieldsData => default [] (field customFieldsData)
  | Throw _ => []
  end.

(** What the metadata of an action holds under a key other than the five it
    always holds.  The invoice action records custom fields when the
    parameter has rows, the other actions when keys were collected from the
    rows, that is, when keys were sent. *)
Definition metadataFieldOf (a : Action) (rows : list (gmap string string))
    (keys : list string) (documentType : string) (verifyAuthenticity : bool)
    (key : string) : option JsVal :=
  if bool_decide (key = "customFieldsUsed") then
    match a with
    | InvoiceParser =>
        if Nat.ltb 0 (List.length rows) then Some (namesOf rows) else None
    | HealthCard | Contract | ContractPlain => None
    | MortgageDocument | BankCheque | CreditCard | PayStub | MarriageCertificate =>
        if Nat.ltb 0 (List.length keys) then Some (strings keys) else None
    end
  else if bool_decide (key = "customFieldsCount") then
    match a with
    | InvoiceParser =>
        if Nat.ltb 0 (List.length rows)
        then Some (VNum (numberOfNat (List.length rows))) else None
    | HealthCard | Contract | ContractPlain => None
    | MortgageDocument | BankCheque | CreditCard | PayStub | MarriageCertificate =>
        if Nat.ltb 0 (List.length keys)
        then Some (VNum (numberOfNat (List.length keys))) else None
    end
  else if bool_decide (a = MortgageDocument ∧ key = "documentType") then
    if isBlank documentType then None else Some (VStr documentType)
  else if bool_decide (a = MarriageCertificate ∧ key = "verifyAuthenticity") then
    if verifyAuthenticity then Some (VBool true) else None
  else None.

(** The five entries every metadata object has, and the closed form of the
    others. *)
Definition isMetadata (a : Action) (timestamp docName : string)
    (rows : list (gmap string string)) (keys : list string) (documentType : string)
    (verifyAuthenticity : bool) (metadata : IDataObject) : Prop :=
  metadata !! "success" = Some (VBool true)
  ∧ (∃ msg, metadata !! "message" = Some (VStr msg))
  ∧ metadata !! "processingTimestamp" = Some (VStr timestamp)
  ∧ metadata !! "sourceFileName" = Some (VStr docName)
  ∧ metadata !! "operation" = Some (VStr (operationName a))
  ∧ ∀ key,
      key ∉ ["success"; "message"; "processingTimestamp"; "sourceFileName"; "operation"] →
      metadata !! key
      = metadataFieldOf a rows keys documentType verifyAuthenticity key.

(** ** The dispatcher: what it recognizes and what it emits *)

Definition isRecognized (constants : ActionConstantsTable) (action : string) : bool :=
  String.eqb action (AiInvoiceParser constants)
  || String.eqb action (AiProcessHealthCard constants)
  || String.eqb action (AiProcessContract constants)
  || String.eqb action (AiProcessMortgageDocument constants)
  || String.eqb action (AiProcessBankCheque constants)
  || String.eqb action (AiProcessCreditCard constants)
  || String.eqb action (AiProcessPayStub constants)
  || String.eqb action (AiProcessMarriageCertificate constants).

(** The record of a result: no error, and a [_metadata] object in its JSON. *)
Definition isResultRecord (record : INodeExecutionData) : Prop :=
  error record = None ∧ ∃ metadata, json record !! "_metadata" = Some (VObj metadata).

(** The record of a failure: it carries the error; the host continues on failure. *)
Definition isErrorRecord (this : Runtime) (record : INodeExecutionData) : Prop :=
  continueOnFail this = true ∧ is_Some (error record).

Definition isOutputRecord (this : Runtime) (record : INodeExecutionData) : Prop :=
  isResultRecord record ∨ isErrorRecord this record.

(** The record pushed for item [i] when its action has thrown [err]. *)
Definition errorRecord (input0 : INodeExecutionData) (err : JsError) (i : nat)
    : INodeExecutionData :=
  {| json := json input0; binary := None; error := Some err; pairedItem := Some i |}.

(** ** The asynchronous client

    [GenericFunctions.ts] is not among the sources.  This module models its
    client [pdf4meAsyncRequest] from section 4.1 of the specification, with
    the clock and the HTTP transport as explicit dependencies. *)

Module AsyncClient.

(** Modelled from the spec: a response of the transport ([GenericFunctions.ts]
    is not among the sources): the status code, the body, the polling
    location a 202 names, and the time the request took. *)
Record Response := {
  status : nat;
  body : JsVal;
  location : option string;
  took : nat;
}.

(** Modelled from the spec: the HTTP transport ([GenericFunctions.ts] is not
    among the sources): a response, or the code of a connection failure.  A
    poll is asked with the time on the clock, so that the remote side may
    answer differently as time passes. *)
Record Transport := {
  post : string → IDataObject → string + Response;
  get : string → nat → string + Response;
}.

(** Modelled from the spec: the three failures of the client
    ([GenericFunctions.ts] is not among the sources): an API error with the
    status code and the body, a timeout, a transport error with its code. *)
Inductive Failure :=
| ApiError (status : nat) (body : JsVal)
| TimeoutError
| TransportError (code : string).

Inductive FailureKind := ApiKind | TimeoutKind | TransportKind.

Definition kindOf (f : Failure) : FailureKind :=
  match f with
  | ApiError _ _ => ApiKind
  | TimeoutError => TimeoutKind
  | TransportError _ => TransportKind
  end.

Inductive Request :=
| Post (path : string) (payload : IDataObject)
| Get (location : string).

Definition isPoll (r : Request) : bool :=
  match r with
  | Get _ => true
  | Post _ _ => false
  end.

Definition polls (requests : list Request) : nat :=
  List.length (List.filter isPoll requests).

(** [ceil(D / I)] *)
Definition ceilDiv (D I : nat) : nat := (D + I - 1) / I.

Definition isSuccess (status : nat) : bool :=
  Nat.leb 200 status && Nat.ltb status 300.

Section Client.

Variable transport : Transport.
Variable deadline : nat.
Variable interval : nat.

(** Modelled from the spec: the poll phase of [pdf4meAsyncRequest]
    ([GenericFunctions.ts] is not among the sources).  "Repeatedly issue a
    GET against the polling location on a fixed interval, with an overall
    deadline": a terminal success body ends polling and is returned, a
    repeated 202 makes the loop wait for the interval and retry, any other
    status ends the operation with an API error, and once the deadline has
    elapsed the operation fails with a timeout error.  [elapsed] is the time
    on the clock since polling began; [fuel] bounds the turns of the loop,
    and [None] stands for a loop that has not ended within it. *)
Fixpoint pollUntilDone (fuel : nat) (location : string) (elapsed : nat)
    (requests : list Request) : option (Failure + JsVal) * list Request :=
  match fuel with
  | O => (None, requests)
  | S fuel' =>
      if Nat.leb deadline elapsed then (Some (inl TimeoutError), requests)
      else
        let requests' := requests ++ [Get location] in
        match get transport location elapsed with
        | inl code => (Some (inl (TransportError code)), requests')
        | inr response =>
            if Nat.eqb (status response) 202 then
              pollUntilDone fuel' location (elapsed + took response + interval) requests'
            else if isSuccess (status response) then
              (Some (inr (body response)), requests')
            else
              (Some (inl (ApiError (status response) (body response))), requests')
        end
  end.

(** Modelled from the spec: [pdf4meAsyncRequest] ([GenericFunctions.ts] is
    not among the sources).  Submit phase: POST the payload to the path; an
    immediate 2xx with a body is the final result, a 202 leads to the poll
    phase at the location the response names, any other status is an API
    error that carries the status and the body.  A 202 that names no
    location cannot be polled and is reported as an API error as well.  The
    loop is given more turns than a positive interval lets it take. *)
Definition pdf4meAsyncRequest (path : string) (payload : IDataObject)
    : option (Failure + JsVal) * list Request :=
  let requests := [Post path payload] in
  match post transport path payload with
  | inl code => (Some (inl (TransportError code)), requests)
  | inr response =>
      if Nat.eqb (status response) 202 then
        match location response with
        | Some location => pollUntilDone (S deadline) location 0 requests
        | None => (Some (inl (ApiError (status response) (body response))), requests)
        end
      else if isSuccess (status response) then (Some (inr (body response)), requests)
      else (Some (inl (ApiError (status response) (body response))), requests)
  end.

(** The remote side never reaches a terminal state: the submission is
    accepted and every poll is answered with 202. *)
Definition neverTerminal (path : string) (payload : IDataObject) (target : string) : Prop :=
  (∃ response, post transport path payload = inr response
               ∧ status response = 202 ∧ location response = Some target)
  ∧ ∀ elapsed, ∃ response, get transport target elapsed = inr response
                            ∧ status response = 202.

End Client.

End AsyncClient.

(** ** Example runtimes

    Concrete runtimes on which the properties below are exercised. *)

Module Example.

Definition constants : ActionConstantsTable := {|
  AiInvoiceParser := "aiInvoiceParser";
  AiProcessHealthCard := "aiProcessHealthCard";
  AiProcessContract := "aiProcessContract";
  AiProcessMortgageDocument := "aiProcessMortgageDocument";
  AiProcessBankCheque := "aiProcessBankCheque";
  AiProcessCreditCard := "aiProcessCreditCard";
  AiProcessPayStub := "aiProcessPayStub";
  AiProcessMarriageCertificate := "aiProcessMarriageCertificate";
|}.

(** [JSON.parse] on the few texts the examples use; every other text of the
    examples is not JSON. *)
Definition parse (text : string) : string + JsVal :=
  if String.eqb text "{}" then inr (VObj ∅)
  else if String.eqb text "null" then inr VNull
  else if String.eqb text "[]" then inr (VArr [])
  else inl "Unexpected token in JSON".

(** What the user configured, what the previous node delivered and how the
    outside world answers. *)
Record Scenario := {
  operation : string;
  inputDataType : string;
  docName : string;
  base64Content : string;
  download : Completion Buffer;
  documentType : string;
  verifyAuthenticity : bool;
  customFields : CustomFieldsData;
  items : list INodeExecutionData;
  continue : bool;
  response : ErrorObject + JsVal;
}.

Definition url : string := "https://example.com/document.pdf".

Definition readParameter (sc : Scenario) (name : string) (fallback : option string)
    : string :=
  if String.eqb name "operation" then operation sc
  else if String.eqb name "inputDataType" then inputDataType sc
  else if String.eqb name "docName" then docName sc
  else if String.eqb name "base64Content" then base64Content sc
  else if String.eqb name "documentType" then documentType sc
  else default url fallback.

(** A node with one input: input 0 holds the items, no other input exists. *)
Definition runtime (sc : Scenario) : Runtime := {|
  getInputData inputIndex :=
    match inputIndex with
    | None | Some O => Normal (items sc)
    | Some (S _) => Normal []
    end;
  getNodeParameter name index fallback := Normal (readParameter sc name fallback);
  getNodeParameterBoolean name index fallback := Normal (verifyAuthenticity sc);
  getNodeParameterCustomFields index := Normal (customFields sc);
  continueOnFail := continue sc;
  getBinaryDataBuffer index name := Normal (bytesOf "%PDF-1.4");
  httpRequestWithAuthentication target := download sc;
  pdf4meAsyncRequest path payload := response sc;
  ActionConstants := constants;
  JSON_parse := parse;
  Date_toISOString := "2025-01-01T00:00:00.000Z";
|}.

Definition item : INodeExecutionData :=
  {| json := {[ "id" := VStr "first" ]}; binary := None; error := None;
     pairedItem := None |}.

Definition failureWithStatus (statusCode : Z) : ErrorObject :=
  {| message := None; code := None; statusCode := Some statusCode |}.

(** An invoice given as a base64 string, answered with an empty object. *)
Definition invoice : Scenario := {|
  operation := "aiInvoiceParser";
  inputDataType := "base64";
  docName := "invoice.pdf";
  base64Content := "JVBERi0xLjQK";
  download := Normal [];
  documentType := EmptyString;
  verifyAuthenticity := false;
  customFields := {| field := None |};
  items := [item];
  continue := false;
  response := inr (VObj ∅);
|}.

(** The same invoice with base64 content that is not a PDF. *)
Definition notPdf : Scenario := {|
  operation := "aiInvoiceParser";
  inputDataType := "base64";
  docName := "invoice.pdf";
  base64Content := "bm90YXBkZg==";
  download := Normal [];
  documentType := EmptyString;
  verifyAuthenticity := false;
  customFields := {| field := None |};
  items := [item];
  continue := false;
  response := inr (VObj ∅);
|}.

(** An invoice given by URL; the download is not a PDF. *)
Definition notPdfByUrl : Scenario := {|
  operation := "aiInvoiceParser";
  inputDataType := "url";
  docName := "invoice.pdf";
  base64Content := EmptyString;
  download := Normal (bytesOf "notapdf");
  documentType := EmptyString;
  verifyAuthenticity := false;
  customFields := {| field := None |};
  items := [item];
  continue := false;
  response := inr (VObj ∅);
|}.

(** The invoice that is not a PDF, on a host that continues on failure. *)
Definition notPdfContinue : Scenario := {|
  operation := "aiInvoiceParser";
  inputDataType := "base64";
  docName := "invoice.pdf";
  base64Content := "bm90YXBkZg==";
  download := Normal [];
  documentType := EmptyString;
  verifyAuthenticity := false;
  customFields := {| field := None |};
  items := [item];
  continue := true;
  response := inr (VObj ∅);
|}.

(** An item whose operation is none of the eight. *)
Definition unknownOperation : Scenario := {|
  operation := "aiTranslateDocument";
  inputDataType := "base64";
  docName := "invoice.pdf";
  base64Content := "JVBERi0xLjQK";
  download := Normal [];
  documentType := EmptyString;
  verifyAuthenticity := false;
  customFields := {| field := None |};
  items := [item];
  continue := true;
  response := inr (VObj ∅);
|}.

(** A mortgage document whose document type is a single space. *)
Definition blankDocumentType : Scenario := {|
  operation := "aiProcessMortgageDocument";
  inputDataType := "base64";
  docName := "mortgage.pdf";
  base64Content := "JVBERi0xLjQK";
  download := Normal [];
  documentType := " ";
  verifyAuthenticity := false;
  customFields := {| field := None |};
  items := [item];
  continue := false;
  response := inr (VObj ∅);
|}.

(** An invoice with one custom field, whose name was left empty. *)
Definition emptyFieldName : Scenario := {|
  operation := "aiInvoiceParser";
  inputDataType := "base64";
  docName := "invoice.pdf";
  base64Content := "JVBERi0xLjQK";
  download := Normal [];
  documentType := EmptyString;
  verifyAuthenticity := false;
  customFields := {| field := Some [ {[ "name" := EmptyString ]} ] |};
  items := [item];
  continue := false;
  response := inr (VObj ∅);
|}.

(** An invoice whose submission is rejected with status 401. *)
Definition unauthorized : Scenario := {|
  operation := "aiInvoiceParser";
  inputDataType := "base64";
  docName := "invoice.pdf";
  base64Content := "JVBERi0xLjQK";
  download := Normal [];
  documentType := EmptyString;
  verifyAuthenticity := false;
  customFields := {| field := None |};
  items := [item];
  continue := false;
  response := inl (failureWithStatus 401);
|}.

(** The same rejection, met by the contract action. *)
Definition unauthorizedContract : Scenario := {|
  operation := "aiProcessContract";
  inputDataType := "base64";
  docName := "contract.pdf";
  base64Content := "JVBERi0xLjQK";
  download := Normal [];
  documentType := EmptyString;
  verifyAuthenticity := false;
  customFields := {| field := None |};
  items := [item];
  continue := false;
  response := inl (failureWithStatus 401);
|}.

(** An invoice answered with a body that is an empty string. *)
Definition emptyBody : Scenario := {|
  operation := "aiInvoiceParser";
  inputDataType := "base64";
  docName := "invoice.pdf";
  base64Content := "JVBERi0xLjQK";
  download := Normal [];
  documentType := EmptyString;
  verifyAuthenticity := false;
  customFields := {| field := None |};
  items := [item];
  continue := false;
  response := inr (VStr EmptyString);
|}.

(** An invoice answered with a body that is a page of HTML. *)
Definition htmlBody : Scenario := {|
  operation := "aiInvoiceParser";
  inputDataType := "base64";
  docName := "invoice.pdf";
  base64Content := "JVBERi0xLjQK";
  download := Normal [];
  documentType := EmptyString;
  verifyAuthenticity := false;
  customFields := {| field := None |};
  items := [item];
  continue := false;
  response := inr (VStr "<html>Bad Gateway</html>");
|}.

(** A remote side that accepts the submission and never finishes. *)
Definition accepted : AsyncClient.Response :=
  {| AsyncClient.status := 202; AsyncClient.body := VUndefined;
     AsyncClient.location := Some "/jobs/1"; AsyncClient.took := 0 |}.

Definition neverDone : AsyncClient.Transport :=
  {| AsyncClient.post path payload := inr accepted;
     AsyncClient.get location elapsed := inr accepted |}.

End Example.

(** ** What the actions have in common, by action

    The places where the nine actions differ from each other, as tables. *)

(** The path an action posts to. *)
Definition pathOf (a : Action) : string :=
  match a with
  | InvoiceParser => "/api/v2/ProcessInvoice"
  | HealthCard => "/api/v2/ProcessHealthCard"
  | Contract | ContractPlain => "/api/v2/ProcessContract"
  | MortgageDocument => "/api/v2/ProcessMortgageDocument"
  | BankCheque => "/api/v2/ProcessBankCheque"
  | CreditCard => "/api/v2/ProcessCreditCard"
  | PayStub => "/api/v2/ProcessPayStub"
  | MarriageCertificate => "/api/v2/ProcessMarriageCertificate"
  end.

(** The parameter an action reads its URL from. *)
Definition urlParameter (a : Action) : string :=
  match a with
  | InvoiceParser => "invoiceUrl"
  | HealthCard => "healthCardUrl"
  | Contract | ContractPlain => "contractUrl"
  | MortgageDocument => "mortgageDocumentUrl"
  | BankCheque => "bankChequeUrl"
  | CreditCard => "creditCardUrl"
  | PayStub => "payStubUrl"
  | MarriageCertificate => "marriageCertificateUrl"
  end.

(** The actions that check the content for the PDF header. *)
Definition validatesPdf (a : Action) : bool :=
  match a with
  | InvoiceParser | Contract | ContractPlain | MortgageDocument | BankCheque => true
  | HealthCard | CreditCard | PayStub | MarriageCertificate => false
  end.

(** The operation name under which the node runs an action; the second copy
    of the contract action is not the one the node imports. *)
Definition constantOf (constants : ActionConstantsTable) (a : Action) : option string :=
  match a with
  | InvoiceParser => Some (AiInvoiceParser constants)
  | HealthCard => Some (AiProcessHealthCard constants)
  | Contract => Some (AiProcessContract constants)
  | ContractPlain => None
  | MortgageDocument => Some (AiProcessMortgageDocument constants)
  | BankCheque => Some (AiProcessBankCheque constants)
  | CreditCard => Some (AiProcessCreditCard constants)
  | PayStub => Some (AiProcessPayStub constants)
  | MarriageCertificate => Some (AiProcessMarriageCertificate constants)
  end.

(** The eight constants, in the order in which the node tests them. *)
Definition constantsOf (constants : ActionConstantsTable) : list string :=
  [ AiInvoiceParser constants; AiProcessHealthCard constants;
    AiProcessContract constants; AiProcessMortgageDocument constants;
    AiProcessBankCheque constants; AiProcessCreditCard constants;
    AiProcessPayStub constants; AiProcessMarriageCertificate constants ].

(** The host resolves every parameter of item [index]: no read of a
    parameter throws. *)
Definition parametersResolve (this : Runtime) (index : nat) : Prop :=
  (∀ name fallback, ∃ value, getNodeParameter this name index fallback = Normal value)
  ∧ (∀ name fallback, ∃ value,
       getNodeParameterBoolean this name index fallback = Normal value)
  ∧ ∃ value, getNodeParameterCustomFields this index = Normal value.

(** The network calls one run of an action can add: nothing, the download,
    the request, or the download followed by the request. *)
Definition isOwnCalls (a : Action) (own : list NetworkCall) : Prop :=
  own = []
  ∨ (∃ url, own = [HttpGet url])
  ∨ (∃ payload, own = [AsyncRequest (pathOf a) payload])
  ∨ (∃ url payload, own = [HttpGet url; AsyncRequest (pathOf a) payload]).

(** The value a row of custom fields contributes: its property, when the
    row has it and it is not empty. *)
Definition setValue (property : string) (row : gmap string string) : option string :=
  match row !! property with
  | Some v => if Js.truthyStr v then Some v else None
  | None => None
  end.

Fixpoint allWhiteSpace (s : string) : bool :=
  match s with
  | EmptyString => true
  | String a s' => Js.isWhiteSpace a && allWhiteSpace s'
  end.

(** What an action does with a response, once it has one: the parsed data,
    or the error it raises. *)
Definition processed (this : Runtime) (a : Action) (result : JsVal) : Completion JsVal :=
  if truthy result then
    match result with
    | VStr s =>
        match JSON_parse this s with
        | inr processedData => Normal processedData
        | inl syntaxError =>
            Throw (raiseOf a ("Failed to parse API response: " +:+ syntaxError))
        end
    | _ => Normal result
    end
  else Throw (raiseOf a (noResponseMessage a)).

(** The error an action raises when the request fails. *)
Definition requestErrorOf (a : Action) (docContent docName : string)
    : ErrorObject → JsError :=
  if raisesNodeErrors a then nodeRequestError docContent docName
  else plainRequestError docContent docName.

(** The [pairedItem] of a result: the actions that raise node errors set it
    to the index of the item, the others leave it out. *)
Definition pairedOf (a : Action) (index : nat) : option nat :=
  if raisesNodeErrors a then Some index else None.

(** What an action returns once its request is out. *)
Definition answered (this : Runtime) (a : Action) (index : nat)
    (docContent docName : string) (payload metadata : IDataObject)
    : Completion (list INodeExecutionData) :=
  match pdf4meAsyncRequest this (pathOf a) payload with
  | inl error => Throw (requestErrorOf a docContent docName error)
  | inr result =>
      match processed this a result with
      | Normal processedData =>
          Normal [ resultItem processedData metadata (pairedOf a index) ]
      | Throw e => Throw e
      end
  end.

(** What an action does with the content it has read: it rejects blank
    content and, where it checks for it, content without the PDF header;
    other content it submits. *)
Definition submitted (this : Runtime) (a : Action) (index : nat)
    (docName : string) (payloadOf : string → IDataObject) (metadata : IDataObject)
    (docContent : string) : M (list INodeExecutionData) :=
  λ calls,
    if isBlank docContent then (Throw (raiseOf a (contentRequiredMessage a)), calls)
    else if validatesPdf a && negb (Js.startsWith docContent "JVBERi0x") then
      (Throw (raiseOf a (invalidPdfMessage docContent)), calls)
    else
      (answered this a index docContent docName (payloadOf docContent) metadata,
       calls ++ [AsyncRequest (pathOf a) (payloadOf docContent)]).

(** ** More example runtimes *)

Module Cases.

Definition scenario (operation inputDataType base64Content : string)
    (download : Completion Buffer) (response : ErrorObject + JsVal) : Example.Scenario :=
  {| Example.operation := operation;
     Example.inputDataType := inputDataType;
     Example.docName := "document.pdf";
     Example.base64Content := base64Content;
     Example.download := download;
     Example.documentType := EmptyString;
     Example.verifyAuthenticity := false;
     Example.customFields := {| field := None |};
     Example.items := [Example.item];
     Example.continue := true;
     Example.response := response |}.

Definition pdf : string := "JVBERi0xLjQK".

(** An input mode the actions do not know. *)
Definition ftp : Example.Scenario :=
  scenario "aiProcessPayStub" "ftp" pdf (Normal []) (inr (VObj ∅)).

(** Binary mode on an item that has no binary data. *)
Definition noBinary : Example.Scenario :=
  scenario "aiProcessBankCheque" "binaryData" pdf (Normal []) (inr (VObj ∅)).

(** A data URL with nothing after its comma. *)
Definition emptyDataUrl : Example.Scenario :=
  scenario "aiProcessHealthCard" "base64" "data:image/png;base64," (Normal [])
    (inr (VObj ∅)).

(** A PNG, given as a data URL to the credit card action. *)
Definition png : Example.Scenario :=
  scenario "aiProcessCreditCard" "base64" "data:image/png;base64,iVBORw0KGgo="
    (Normal []) (inr (VObj ∅)).

(** A PDF behind a URL. *)
Definition byUrl : Example.Scenario :=
  scenario "aiProcessContract" "url" EmptyString (Normal (bytesOf "%PDF-1.7 contract"))
    (inr (VObj ∅)).

(** A URL whose download fails. *)
Definition notFound : ErrorObject :=
  {| message := Some "Not Found"; code := None; statusCode := Some 404%Z |}.

Definition brokenUrl : Example.Scenario :=
  scenario "aiProcessContract" "url" EmptyString (Throw (HostError notFound))
    (inr (VObj ∅)).

(** Responses: [null], an object, the text of an object. *)
Definition nullResponse : Example.Scenario :=
  scenario "aiProcessMortgageDocument" "base64" pdf (Normal []) (inr VNull).

Definition amount : IDataObject := {[ "amount" := VStr "100.00" ]}.

Definition objectResponse : Example.Scenario :=
  scenario "aiInvoiceParser" "base64" pdf (Normal []) (inr (VObj amount)).

Definition textResponse : Example.Scenario :=
  scenario "aiProcessPayStub" "base64" pdf (Normal []) (inr (VStr "{}")).

(** Failures of the request: a reset connection that also carries a status,
    a bad gateway, and a failure without a status. *)
Definition reset : ErrorObject :=
  {| message := Some "socket hang up"; code := Some "ECONNRESET";
     statusCode := Some 500%Z |}.

Definition badGateway : ErrorObject :=
  {| message := Some "Bad Gateway"; code := None; statusCode := Some 502%Z |}.

Definition dnsFailure : ErrorObject :=
  {| message := None; code := Some "ENOTFOUND"; statusCode := None |}.

Definition resetResponse : Example.Scenario :=
  scenario "aiInvoiceParser" "base64" pdf (Normal []) (inl reset).

Definition badGatewayResponse : Example.Scenario :=
  scenario "aiInvoiceParser" "base64" pdf (Normal []) (inl badGateway).

Definition badGatewayContract : Example.Scenario :=
  scenario "aiProcessContract" "base64" pdf (Normal []) (inl badGateway).

Definition dnsFailureResponse : Example.Scenario :=
  scenario "aiInvoiceParser" "base64" pdf (Normal []) (inl dnsFailure).

(** A host on which the operation of an item cannot be read, and which
    continues on failure. *)
Definition expressionError : JsError :=
  HostError {| message := Some "Could not get parameter"; code := None;
               statusCode := None |}.

Definition unreadableOperation : Runtime :=
  let base := Example.runtime (scenario "aiInvoiceParser" "base64" pdf (Normal [])
                                 (inr (VObj ∅))) in
  {| getInputData := getInputData base;
     getNodeParameter name index fallback :=
       if String.eqb name "operation" then Throw expressionError
       else getNodeParameter base name index fallback;
     getNodeParameterBoolean := getNodeParameterBoolean base;
     getNodeParameterCustomFields := getNodeParameterCustomFields base;
     continueOnFail := true;
     getBinaryDataBuffer := getBinaryDataBuffer base;
     httpRequestWithAuthentication := httpRequestWithAuthentication base;
     pdf4meAsyncRequest := pdf4meAsyncRequest base;
     ActionConstants := ActionConstants base;
     JSON_parse := JSON_parse base;
     Date_toISOString := Date_toISOString base |}.

(** An item that carries a file in its binary property [data]. *)
Definition attachment : INodeExecutionData :=
  {| json := {[ "id" := VStr "first" ]};
     binary := Some {[ "data" := {| data := "JVBERi0xLjQ=";
                                    mimeType := "application/pdf" |} ]};
     error := None;
     pairedItem := None |}.

Definition attached : Example.Scenario :=
  {| Example.operation := "aiProcessBankCheque";
     Example.inputDataType := "binaryData";
     Example.docName := "document.pdf";
     Example.base64Content := EmptyString;
     Example.download := Normal [];
     Example.documentType := EmptyString;
     Example.verifyAuthenticity := false;
     Example.customFields := {| field := None |};
     Example.items := [attachment];
     Example.continue := true;
     Example.response := inr (VObj ∅) |}.

(** Two items, each with a file. *)
Definition attachedTwice : Example.Scenario :=
  {| Example.operation := "aiProcessBankCheque";
     Example.inputDataType := "binaryData";
     Example.docName := "document.pdf";
     Example.base64Content := EmptyString;
     Example.download := Normal [];
     Example.documentType := EmptyString;
     Example.verifyAuthenticity := false;
     Example.customFields := {| field := None |};
     Example.items := [attachment; attachment];
     Example.continue := true;
     Example.response := inr (VObj ∅) |}.

(** Two items whose content is not a PDF, on a host that continues on
    failure. *)
Definition second : INodeExecutionData :=
  {| json := {[ "id" := VStr "second" ]}; binary := None; error := None;
     pairedItem := None |}.

Definition twoRejected : Example.Scenario :=
  {| Example.operation := "aiInvoiceParser";
     Example.inputDataType := "base64";
     Example.docName := "invoice.pdf";
     Example.base64Content := "bm90YXBkZg==";
     Example.download := Normal [];
     Example.documentType := EmptyString;
     Example.verifyAuthenticity := false;
     Example.customFields := {| field := None |};
     Example.items := [Example.item; second];
     Example.continue := true;
     Example.response := inr (VObj ∅) |}.

(** The same item on a host whose binary data is an empty file. *)
Definition emptyAttachment : Runtime :=
  let base := Example.runtime attached in
  {| getInputData := getInputData base;
     getNodeParameter := getNodeParameter base;
     getNodeParameterBoolean := getNodeParameterBoolean base;
     getNodeParameterCustomFields := getNodeParameterCustomFields base;
     continueOnFail := continueOnFail base;
     getBinaryDataBuffer index name := Normal [];
     httpRequestWithAuthentication := httpRequestWithAuthentication base;
     pdf4meAsyncRequest := pdf4meAsyncRequest base;
     ActionConstants := ActionConstants base;
     JSON_parse := JSON_parse base;
     Date_toISOString := Date_toISOString base |}.

(** Rows of custom fields, of which some have no key or an empty one. *)
Definition rows : list (gmap string string) :=
  [ {[ "key" := "loan_amount" ]}; {[ "key" := EmptyString ]};
    {[ "name" := "ignored" ]}; {[ "key" := "interest_rate" ]} ].

End Cases.

(** * Properties *)

#[local] Arguments String.append !s1 s2 : simpl nomatch.
#[local] Set Warnings "-clear-no-such-hyp".

(** *** Facts about [split] and [includes] *)

Lemma split_head (s : string) :
  ∃ pieces, Js.split s "," = untilComma s :: pieces.
Proof.
  induction s as [|a s [pieces IH]]; simpl.
  - by exists [].
  - destruct (Ascii.eqb a ","); [by eexists|].
    rewrite IH. by eexists.
Qed.

Lemma split_first_comma (pre rest : string) :
  Js.includes pre "," = false →
  Js.split (pre +:+ String "," rest) "," = pre :: Js.split rest ",".
Proof.
  induction pre as [|a pre IH]; simpl; [done|].
  destruct (Ascii.eqb a ",") eqn:E; [done|].
  intros H. by rewrite (IH H).
Qed.

Lemma includes_app_comma (pre rest : string) :
  Js.includes (pre +:+ String "," rest) "," = true.
Proof.
  induction pre as [|a pre IH]; simpl; [done|].
  by destruct (Ascii.eqb a ",").
Qed.

Lemma includes_decompose (s : string) :
  Js.includes s "," = true →
  ∃ pre rest, s = pre +:+ String "," rest ∧ Js.includes pre "," = false.
Proof.
  induction s as [|a s IH]; simpl; [done|].
  destruct (Ascii.eqb a ",") eqn:E.
  - apply Ascii.eqb_eq in E as ->. intros _. by exists EmptyString, s.
  - intros H. destruct (IH H) as (pre & rest & -> & Hpre).
    exists (String a pre), rest. simpl. by rewrite E.
Qed.

Lemma untilComma_no_comma (s : string) : Js.includes (untilComma s) "," = false.
Proof.
  induction s as [|a s IH]; simpl; [done|].
  destruct (Ascii.eqb a ",") eqn:E; simpl; [done|]. by rewrite E.
Qed.

Lemma untilComma_id (s : string) : Js.includes s "," = false → untilComma s = s.
Proof.
  induction s as [|a s IH]; simpl; [done|].
  destruct (Ascii.eqb a ","); [done|]. intros H. by rewrite IH.
Qed.

Lemma isBase64_no_comma (s : string) : isBase64 s = true → Js.includes s "," = false.
Proof.
  induction s as [|a s IH]; simpl; [done|].
  intros [Ha Hs]%andb_prop.
  destruct (Ascii.eqb a ",") eqn:E; [|by apply IH].
  apply Ascii.eqb_eq in E as ->. discriminate Ha.
Qed.

(** In the branch that indexes the pieces, index 1 exists. *)
Lemma split_second_defined (s : string) :
  Js.includes s "," = true → is_Some (Js.split s "," !! 1%nat).
Proof.
  intros (pre & rest & -> & Hpre)%includes_decompose.
  rewrite split_first_comma by done.
  destruct (split_head rest) as [pieces ->]. by eexists.
Qed.

(** What [stripDataUrlPrefix] computes, in closed form. *)
Lemma stripDataUrlPrefix_comma (pre rest : string) :
  Js.includes pre "," = false →
  stripDataUrlPrefix (pre +:+ String "," rest) = untilComma rest.
Proof.
  intros Hpre. unfold stripDataUrlPrefix.
  rewrite includes_app_comma, split_first_comma by done.
  by destruct (split_head rest) as [pieces ->].
Qed.

Lemma stripDataUrlPrefix_no_comma (s : string) :
  Js.includes s "," = false → stripDataUrlPrefix s = s.
Proof. intros H. unfold stripDataUrlPrefix. by rewrite H. Qed.

Lemma stripDataUrlPrefix_result_no_comma (s : string) :
  Js.includes (stripDataUrlPrefix s) "," = false.
Proof.
  destruct (Js.includes s ",") eqn:E.
  - apply includes_decompose in E as (pre & rest & -> & Hpre).
    rewrite stripDataUrlPrefix_comma by done. apply untilComma_no_comma.
  - by rewrite stripDataUrlPrefix_no_comma.
Qed.

Lemma includes_app (a b : string) :
  Js.includes (a +:+ b) "," = Js.includes a "," || Js.includes b ",".
Proof.
  induction a as [|c a IH]; simpl; [done|].
  by destruct (Ascii.eqb c ",").
Qed.

Lemma append_assoc (a b c : string) : (a +:+ b) +:+ c = a +:+ (b +:+ c).
Proof. induction a as [|x a IH]; simpl; [done|]. by rewrite IH. Qed.

(** The text before the first comma, and what follows it. *)
Lemma untilComma_split (s : string) :
  ∃ tail, s = untilComma s +:+ tail
          ∧ (tail = EmptyString ∨ ∃ tail', tail = String "," tail').
Proof.
  induction s as [|a s (tail & IH & Htail)]; simpl.
  - exists EmptyString. by split; [|left].
  - destruct (Ascii.eqb a ",") eqn:E.
    + apply Ascii.eqb_eq in E as ->. exists (String "," s). split; [done|]. right. by eexists.
    + exists tail. simpl. split; [by rewrite <- IH | done].
Qed.

(** *** The platform functions on the texts of the specification *)

Example toBase64_pdf_header : toBase64 (bytesOf "%PDF-1") = "JVBERi0x".
Proof. reflexivity. Qed.

Example toBase64_not_a_pdf : toBase64 (bytesOf "notapdf") = "bm90YXBkZg==".
Proof. reflexivity. Qed.

Example split_three_pieces : Js.split "a,b,c" "," = ["a"; "b"; "c"].
Proof. reflexivity. Qed.

Example split_no_separator : Js.split "abc" "," = ["abc"].
Proof. reflexivity. Qed.

Example trim_both_ends : Js.trim "  loan agreement " = "loan agreement".
Proof. reflexivity. Qed.

Example stripDataUrlPrefix_second_comma : stripDataUrlPrefix "a,b,c" = "b".
Proof. reflexivity. Qed.

(** C10. In base64 mode the normalization keys off the first comma: when
    the input has a comma, the input is [pre], the comma, [rest] with no
    comma in [pre], and nothing of [pre] or of the comma is kept: the result
    is the start of [rest], up to its next comma (all of [rest] when it has
    none), whether or not [pre] looks like a data-URL prefix.  When the
    input has no comma it is passed through unchanged. *)
Theorem stripDataUrlPrefix_keys_off_first_comma (s : string) :
  if Js.includes s "," then
    ∃ pre rest tail,
      s = pre +:+ String "," rest
      ∧ Js.includes pre "," = false
      ∧ rest = stripDataUrlPrefix s +:+ tail
      ∧ (tail = EmptyString ∨ ∃ tail', tail = String "," tail')
  else stripDataUrlPrefix s = s.
Proof.
  destruct (Js.includes s ",") eqn:E.
  - apply includes_decompose in E as (pre & rest & -> & Hpre).
    destruct (untilComma_split rest) as (tail & Hrest & Htail).
    exists pre, rest, tail. by rewrite stripDataUrlPrefix_comma.
  - by apply stripDataUrlPrefix_no_comma.
Qed.

(** C7. With or without a [data:<mime>;base64,] prefix a base64 string
    yields the same [docContent], namely the string itself, and normalizing
    a normalized value changes nothing. *)
Theorem stripDataUrlPrefix_idempotent (mime b : string) :
  isBase64 b = true →
  Js.includes mime "," = false →
  stripDataUrlPrefix ("data:" +:+ mime +:+ ";base64," +:+ b) = stripDataUrlPrefix b
  ∧ stripDataUrlPrefix b = b
  ∧ ∀ s, stripDataUrlPrefix (stripDataUrlPrefix s) = stripDataUrlPrefix s.
Proof.
  intros Hb%isBase64_no_comma Hmime.
  assert (Hbare : stripDataUrlPrefix b = b) by by apply stripDataUrlPrefix_no_comma.
  split; [|split; [done|]].
  - rewrite Hbare.
    change ("data:" +:+ mime +:+ ";base64," +:+ b)
      with ("data:" +:+ (mime +:+ (";base64" +:+ String "," b))).
    rewrite <- !append_assoc.
    rewrite stripDataUrlPrefix_comma; [by apply untilComma_id|].
    by rewrite !includes_app, Hmime.
  - intros s. apply stripDataUrlPrefix_no_comma, stripDataUrlPrefix_result_no_comma.
Qed.

Lemma stripDataUrlPrefix_idempotent_witness :
  stripDataUrlPrefix "data:application/pdf;base64,JVBERi0xLjQK" = "JVBERi0xLjQK"
  ∧ stripDataUrlPrefix "JVBERi0xLjQK" = "JVBERi0xLjQK".
Proof.
  destruct (stripDataUrlPrefix_idempotent "application/pdf" "JVBERi0xLjQK")
    as (Hprefixed & Hbare & _); [reflexivity | reflexivity |].
  split; [|exact Hbare].
  etransitivity; [exact Hprefixed | exact Hbare].
Defined.

(** ** The asynchronous client *)

Section AsyncClientFacts.

Import AsyncClient.

Variable transport : Transport.
Variable deadline interval : nat.
Hypothesis interval_positive : 0 < interval.

Lemma polls_snoc (requests : list Request) (location : string) :
  polls (requests ++ [Get location]) = S (polls requests).
Proof. unfold polls. rewrite List.filter_app, length_app. simpl. lia. Qed.

Lemma ceilDiv_le (D : nat) : ceilDiv D interval ≤ D.
Proof.
  unfold ceilDiv. destruct D as [|D].
  - rewrite Nat.div_small; lia.
  - apply Nat.Div0.div_le_upper_bound. nia.
Qed.

(** One wait brings the clock at least one interval closer to the deadline. *)
Lemma ceilDiv_wait (elapsed took : nat) :
  elapsed < deadline →
  S (ceilDiv (deadline - (elapsed + took + interval)) interval)
  ≤ ceilDiv (deadline - elapsed) interval.
Proof.
  intros Hlt. unfold ceilDiv.
  destruct (decide (deadline - elapsed ≤ interval)) as [Hle|Hgt].
  - replace (deadline - (elapsed + took + interval)) with 0 by lia.
    rewrite (Nat.div_small (0 + interval - 1)) by lia.
    apply Nat.div_le_lower_bound; lia.
  - transitivity ((deadline - (elapsed + took + interval) + interval - 1 + 1 * interval)
                  / interval).
    + rewrite Nat.div_add by lia. lia.
    + apply Nat.Div0.div_le_mono. lia.
Qed.

(** With enough fuel the poll loop always ends. *)
Lemma pollUntilDone_total (fuel : nat) (location : string) (elapsed : nat)
    (requests : list Request) :
  ceilDiv (deadline - elapsed) interval < fuel →
  (pollUntilDone transport deadline interval fuel location elapsed requests).1 ≠ None.
Proof.
  revert elapsed requests.
  induction fuel as [|fuel IH]; intros elapsed requests Hfuel; [lia|].
  simpl. destruct (Nat.leb_spec deadline elapsed) as [Hle|Hlt]; [done|].
  destruct (get transport location elapsed) as [code|response]; [done|].
  destruct (Nat.eqb (status response) 202); [|by destruct (isSuccess _)].
  apply IH. pose proof (ceilDiv_wait elapsed (took response) Hlt). lia.
Qed.

(** The client always resolves to a result or to one of the three failures. *)
Lemma pdf4meAsyncRequest_total (path : string) (payload : IDataObject) :
  (pdf4meAsyncRequest transport deadline interval path payload).1 ≠ None.
Proof.
  unfold pdf4meAsyncRequest.
  destruct (post transport path payload) as [code|response]; [done|].
  destruct (Nat.eqb (status response) 202); [|by destruct (isSuccess _)].
  destruct (location response) as [target|]; [|done].
  apply pollUntilDone_total. pose proof (ceilDiv_le (deadline - 0)). lia.
Qed.

(** A remote side that answers every poll with 202 is polled until the
    deadline, and no longer. *)
Lemma pollUntilDone_never_terminal (fuel : nat) (location : string) (elapsed : nat)
    (requests : list Request) :
  (∀ t, ∃ response, get transport location t = inr response ∧ status response = 202) →
  ceilDiv (deadline - elapsed) interval < fuel →
  ∃ requests',
    pollUntilDone transport deadline interval fuel location elapsed requests
    = (Some (inl TimeoutError), requests')
    ∧ polls requests' ≤ polls requests + ceilDiv (deadline - elapsed) interval.
Proof.
  intros Hget. revert elapsed requests.
  induction fuel as [|fuel IH]; intros elapsed requests Hfuel; [lia|].
  simpl. destruct (Nat.leb_spec deadline elapsed) as [Hle|Hlt].
  - exists requests. split; [done | lia].
  - destruct (Hget elapsed) as (response & -> & Hstatus).
    rewrite Hstatus. simpl.
    pose proof (ceilDiv_wait elapsed (took response) Hlt) as Hwait.
    destruct (IH (elapsed + took response + interval) (requests ++ [Get location]))
      as (requests' & -> & Hpolls); [lia|].
    exists requests'. split; [done|].
    rewrite polls_snoc in Hpolls. lia.
Qed.

End AsyncClientFacts.

(** C2. For a deadline D and a positive poll interval I, when the remote
    side never returns a terminal response, the client issues at most
    ceil(D/I) polls and then fails with a timeout error, whose kind differs
    from that of every API error. *)
Theorem pdf4meAsyncRequest_times_out (transport : AsyncClient.Transport)
    (deadline interval : nat) (path : string) (payload : IDataObject) (target : string) :
  0 < interval →
  AsyncClient.neverTerminal transport path payload target →
  ∃ requests,
    AsyncClient.pdf4meAsyncRequest transport deadline interval path payload
    = (Some (inl AsyncClient.TimeoutError), requests)
    ∧ AsyncClient.polls requests ≤ AsyncClient.ceilDiv deadline interval
    ∧ ∀ status body,
        AsyncClient.kindOf AsyncClient.TimeoutError
        ≠ AsyncClient.kindOf (AsyncClient.ApiError status body).
Proof.
  intros Hinterval [(response & Hpost & Hstatus & Hlocation) Hget].
  unfold AsyncClient.pdf4meAsyncRequest. rewrite Hpost, Hstatus, Hlocation. simpl.
  destruct (pollUntilDone_never_terminal transport deadline interval Hinterval
              (S deadline) target 0 [AsyncClient.Post path payload] Hget)
    as (requests & Hrun & Hpolls).
  { pose proof (ceilDiv_le interval Hinterval (deadline - 0)). lia. }
  exists requests. split; [exact Hrun|]. split; [|done].
  simpl in Hpolls. by rewrite Nat.sub_0_r in Hpolls.
Qed.

Lemma pdf4meAsyncRequest_times_out_witness :
  ∃ requests,
    AsyncClient.pdf4meAsyncRequest Example.neverDone 10 3 "/api/v2/ProcessInvoice" ∅
    = (Some (inl AsyncClient.TimeoutError), requests)
    ∧ AsyncClient.polls requests ≤ AsyncClient.ceilDiv 10 3
    ∧ ∀ status body,
        AsyncClient.kindOf AsyncClient.TimeoutError
        ≠ AsyncClient.kindOf (AsyncClient.ApiError status body).
Proof.
  apply (pdf4meAsyncRequest_times_out Example.neverDone 10 3
           "/api/v2/ProcessInvoice" ∅ "/jobs/1").
  - lia.
  - split.
    + exists Example.accepted. repeat split; reflexivity.
    + intros elapsed. exists Example.accepted. split; reflexivity.
Defined.

(** With a deadline of 10 and an interval of 3 the polls go out at times 0,
    3, 6 and 9: four of them, which is ceil(10/3). *)
Example pdf4meAsyncRequest_four_polls :
  AsyncClient.pdf4meAsyncRequest Example.neverDone 10 3 "/api/v2/ProcessInvoice" ∅
  = (Some (inl AsyncClient.TimeoutError),
     [AsyncClient.Post "/api/v2/ProcessInvoice" ∅; AsyncClient.Get "/jobs/1";
      AsyncClient.Get "/jobs/1"; AsyncClient.Get "/jobs/1"; AsyncClient.Get "/jobs/1"]).
Proof. reflexivity. Qed.

(** ** The actions *)

Section ActionFacts.

Variable this : Runtime.

(** The request makes one network call and maps a failure through the handler. *)
Lemma tryRequest_inv (path : string) (payload : IDataObject)
    (handler : ErrorObject → JsError) (calls calls' : list NetworkCall)
    (r : Completion JsVal) :
  tryRequest this path payload handler calls = (r, calls') →
  calls' = calls ++ [AsyncRequest path payload]
  ∧ r = match pdf4meAsyncRequest this path payload with
        | inr result => Normal result
        | inl error => Throw (handler error)
        end.
Proof.
  unfold tryRequest, bind, network, ret, throw.
  destruct (pdf4meAsyncRequest this path payload); by intros [= <- <-].
Qed.

(** Parsing makes no network call. *)
Lemma parseResult_inv (raise : string → JsError) (result : JsVal)
    (calls calls' : list NetworkCall) (r : Completion JsVal) :
  parseResult this raise result calls = (r, calls') →
  calls' = calls
  ∧ r = match result with
        | VStr s =>
            match JSON_parse this s with
            | inr processedData => Normal processedData
            | inl syntaxError =>
                Throw (raise ("Failed to parse API response: " +:+ syntaxError))
            end
        | _ => Normal result
        end.
Proof.
  unfold parseResult, ret, throw.
  destruct result; try (by intros [= <- <-]).
  destruct (JSON_parse this s); by intros [= <- <-].
Qed.

Lemma connectionErrorMessage_not_validation (a : Action) (error : ErrorObject)
    (docContent docName : string) :
  isValidationMessage a (connectionErrorMessage error docContent docName) = false.
Proof. by destruct a. Qed.

Lemma describeRequestError_not_validation (a : Action) (error : ErrorObject)
    (docContent docName : string) :
  isValidationMessage a (describeRequestError error docContent docName) = false.
Proof.
  unfold describeRequestError.
  repeat case_bool_decide; try (by destruct a).
  destruct (hasStatusCode error); [by destruct a|].
  apply connectionErrorMessage_not_validation.
Qed.

Lemma plainRequestError_not_validation (a : Action) (error : ErrorObject)
    (docContent docName : string) :
  isValidationError a (plainRequestError docContent docName error) = false.
Proof. apply describeRequestError_not_validation. Qed.

Lemma nodeRequestError_not_validation (a : Action) (error : ErrorObject)
    (docContent docName : string) :
  isValidationError a (nodeRequestError docContent docName error) = false.
Proof.
  unfold nodeRequestError. destruct (hasStatusCode error); [done|].
  apply connectionErrorMessage_not_validation.
Qed.

(** In base64 mode the document content is the parameter, normalized by
    [stripDataUrlPrefix], and nothing goes out on the network. *)
Lemma readDocContent_base64 (raise : string → JsError) (urlParameter : string)
    (index : nat) (calls : list NetworkCall) :
  readDocContent this raise urlParameter "base64" index calls
  = match getNodeParameter this "base64Content" index None with
    | Normal base64Content => (Normal (stripDataUrlPrefix base64Content), calls)
    | Throw e => (Throw e, calls)
    end.
Proof.
  unfold readDocContent, parameter, bind, host, ret. simpl.
  by destruct (getNodeParameter this "base64Content" index None).
Qed.

Lemma payloadsOf_app (l1 l2 : list NetworkCall) :
  payloadsOf (l1 ++ l2) = payloadsOf l1 ++ payloadsOf l2.
Proof. apply omap_app. Qed.

End ActionFacts.

(** Unfolding an action down to its host calls, its request and the
    parsing of the response. *)
Ltac unfold_actions :=
  unfold executeAction, aiInvoiceParser, aiProcessHealthCard, aiProcessContract,
    aiProcessContractPlain, aiProcessMortgageDocument, aiProcessBankCheque,
    aiProcessCreditCard, aiProcessPayStub, aiProcessMarriageCertificate,
    readDocContent, parameter, first, bind, ret, throw, host, network in *.

(** One case split on the scrutinee of a stuck [match] of [H]. *)
Ltac split_run H :=
  cbn beta iota zeta in H;
  match type of H with
  | context [match ?x with _ => _ end] =>
      lazymatch x with
      | context [match _ with _ => _ end] => fail
      | _ => destruct x eqn:?
      end
  end.

(** All the runs of an action: one goal per path through it, with what is
    known of the request and of the parsing on that path. *)
Ltac runs H :=
  unfold_actions; repeat split_run H;
  cbn beta iota zeta in H; simplify_eq;
  repeat match goal with
         | E : String.eqb _ _ = true |- _ => apply String.eqb_eq in E; subst
         | E : tryRequest _ _ _ _ _ = _ |- _ => apply tryRequest_inv in E as [-> E]
         | E : parseResult _ _ _ _ = _ |- _ => apply parseResult_inv in E as [-> E]
         end.

(** C1, as the code has it.  When an action raises a validation error, no
    request has been sent to the document API.  In binary and base64 mode no
    network call at all has been made; in URL mode the one call made is the
    GET that downloads the document, which the action validates afterwards. *)
Theorem validation_error_before_api_request (this : Runtime) (a : Action)
    (index : nat) (e : JsError) (calls : list NetworkCall) :
  executeAction this a index [] = (Throw e, calls) →
  isValidationError a e = true →
  payloadsOf calls = []
  ∧ (calls = []
     ∨ getNodeParameter this "inputDataType" index None = Normal "url"
       ∧ ∃ url, calls = [HttpGet url]).
Proof.
  intros Hrun Hvalid.
  destruct a; runs Hrun;
    try (split; [reflexivity | by left]);
    try (split; [reflexivity | right; split; [done | by eexists]]);
    exfalso;
    repeat match goal with
           | E : Throw _ = match ?x with _ => _ end |- _ => destruct x; simplify_eq
           end;
    revert Hvalid;
    rewrite ?plainRequestError_not_validation, ?nodeRequestError_not_validation;
    discriminate.
Qed.

Lemma validation_error_before_api_request_witness :
  payloadsOf [] = []
  ∧ (@nil NetworkCall = []
     ∨ getNodeParameter (Example.runtime Example.notPdf) "inputDataType" 0 None
       = Normal "url"
       ∧ ∃ url, [] = [HttpGet url]).
Proof.
  apply (validation_error_before_api_request (Example.runtime Example.notPdf)
           InvoiceParser 0 (Error (invalidPdfMessage "bm90YXBkZg==")) []).
  - vm_compute. reflexivity.
  - vm_compute. reflexivity.
Defined.

(** C1, as stated, fails in URL mode: the invoice action downloads the
    document with a GET, finds that it is not a PDF, and only then raises
    the validation error. *)
Lemma validation_error_after_download :
  ¬ (∀ (this : Runtime) (a : Action) (index : nat) (e : JsError)
       (calls : list NetworkCall),
        executeAction this a index [] = (Throw e, calls) →
        isValidationError a e = true →
        calls = []).
Proof.
  intros Hclaim.
  specialize (Hclaim (Example.runtime Example.notPdfByUrl) InvoiceParser 0
                (Error (invalidPdfMessage "bm90YXBkZg==")) [HttpGet Example.url]).
  discriminate Hclaim; vm_compute; reflexivity.
Qed.

(** ** The dispatcher *)

Section DispatcherFacts.

Variable this : Runtime.

(** An action that returns, returns one record: the result and its metadata. *)
Lemma action_returns_one_record (a : Action) (index : nat)
    (calls calls' : list NetworkCall) (records : list INodeExecutionData) :
  executeAction this a index calls = (Normal records, calls') →
  ∃ record, records = [record] ∧ isResultRecord record.
Proof.
  intros Hrun.
  destruct a; runs Hrun;
    (eexists; split; [reflexivity|]; split; [reflexivity|];
     eexists; apply lookup_insert_eq).
Qed.

(** The [if] chain selects one of the eight actions, or nothing at all. *)
Lemma dispatch_cases (action : string) (i : nat) :
  (∃ a, dispatch this action i = executeAction this a i
        ∧ isRecognized (ActionConstants this) action = true)
  ∨ (dispatch this action i = ret []
     ∧ isRecognized (ActionConstants this) action = false).
Proof.
  unfold dispatch, isRecognized.
  repeat match goal with
         | |- context [if String.eqb ?x ?y then _ else _] =>
             destruct (String.eqb x y) eqn:?
         end;
    first [ by right
          | by (left; exists InvoiceParser)
          | by (left; exists HealthCard)
          | by (left; exists Contract)
          | by (left; exists MortgageDocument)
          | by (left; exists BankCheque)
          | by (left; exists CreditCard)
          | by (left; exists PayStub)
          | by (left; exists MarriageCertificate) ].
Qed.

(** An operation that is none of the eight pushes nothing and raises nothing. *)
Lemma executeItem_unrecognized (i : nat) (action : string) (calls : list NetworkCall) :
  getNodeParameter this "operation" i None = Normal action →
  isRecognized (ActionConstants this) action = false →
  executeItem this i calls = (Normal [], calls).
Proof.
  intros Hop Hnot. unfold executeItem, parameter, bind, host, tryCatch.
  rewrite Hop. cbn beta iota.
  destruct (dispatch_cases action i) as [(a & _ & Hyes)|[-> _]]; [congruence|done].
Qed.

Lemma executeItem_recognized (i : nat) (action : string)
    (calls calls' : list NetworkCall) (pushed : list INodeExecutionData) :
  getNodeParameter this "operation" i None = Normal action →
  isRecognized (ActionConstants this) action = true →
  executeItem this i calls = (Normal pushed, calls') →
  ∃ record, pushed = [record] ∧ isOutputRecord this record.
Proof.
  intros Hop Hyes. unfold executeItem, parameter, bind, host, tryCatch.
  rewrite Hop. cbn beta iota.
  destruct (dispatch_cases action i) as [(a & -> & _)|[_ Hnot]]; [|congruence].
  destruct (executeAction this a i calls) as [[records|err] calls1] eqn:Hrun.
  - intros [= <- <-].
    destruct (action_returns_one_record a i calls calls1 records Hrun)
      as (record & -> & Hrecord).
    exists record. split; [done | by left].
  - unfold onFailure, errorItem, bind, host, first, ret, throw.
    destruct (continueOnFail this) eqn:Hcontinue; [|done].
    destruct (getInputData this (Some i)) as [[|input0 rest]|e]; [done| |done].
    intros [= <- <-]. eexists. split; [reflexivity|].
    right. split; [done | by eexists].
Qed.

Lemma executeLoop_one_record_each (remaining : nat) :
  ∀ (i : nat) (operationResult out : list INodeExecutionData)
    (calls calls' : list NetworkCall),
    (∀ j action, i ≤ j < i + remaining →
       getNodeParameter this "operation" j None = Normal action →
       isRecognized (ActionConstants this) action = true) →
    executeLoop this remaining i operationResult calls = (Normal out, calls') →
    ∃ pushed, out = operationResult ++ pushed
              ∧ List.length pushed = remaining
              ∧ Forall (isOutputRecord this) pushed.
Proof.
  induction remaining as [|remaining IH];
    intros i operationResult out calls calls' Hknown; simpl.
  - intros [= <- <-]. exists []. by rewrite app_nil_r.
  - unfold bind at 1.
    destruct (executeItem this i calls) as [[pushed|err] calls1] eqn:Hitem; [|done].
    intros Hloop.
    assert (∃ record, pushed = [record] ∧ isOutputRecord this record)
      as (record & -> & Hrecord).
    { unfold executeItem, parameter, bind, host in Hitem.
      destruct (getNodeParameter this "operation" i None) as [action|e] eqn:Hop;
        [|done].
      apply (executeItem_recognized i action calls calls1); [done| |].
      - apply (Hknown i); [lia | done].
      - unfold executeItem, parameter, bind, host. by rewrite Hop. }
    apply IH in Hloop as (rest & -> & Hlength & Hrest).
    + exists (record :: rest). rewrite <- app_assoc. simpl.
      split; [done|]. split; [lia | by constructor].
    + intros j action Hj. apply Hknown. lia.
Qed.

End DispatcherFacts.

(** C3, as the code has it.  When the dispatch loop runs to its end and
    the operation of every item is one of the eight recognized actions, it
    has emitted exactly one output record per input item: a result with its
    [_metadata] object or, on a host that continues on failure, an error
    record. *)
Theorem execute_one_record_per_recognized_item (this : Runtime)
    (items : list INodeExecutionData) (calls calls' : list NetworkCall)
    (out : list (list INodeExecutionData)) :
  getInputData this None = Normal items →
  (∀ i action, i < List.length items →
     getNodeParameter this "operation" i None = Normal action →
     isRecognized (ActionConstants this) action = true) →
  execute this calls = (Normal out, calls') →
  ∃ records, out = [records]
             ∧ List.length records = List.length items
             ∧ Forall (isOutputRecord this) records.
Proof.
  intros Hitems Hknown. unfold execute, bind, host, ret. rewrite Hitems.
  destruct (executeLoop this (List.length items) 0 [] calls)
    as [[records|err] calls1] eqn:Hloop; [|done].
  intros [= <- <-].
  apply executeLoop_one_record_each in Hloop as (pushed & -> & Hlength & Hall).
  - by exists pushed.
  - intros j action Hj. apply Hknown. lia.
Qed.

Lemma execute_one_record_per_recognized_item_witness :
  ∃ records,
    [[resultItem (VObj ∅)
        (object (metadataEntries (Example.runtime Example.invoice)
                   "Invoice processed successfully using AI" "invoice.pdf"
                   "aiInvoiceParser")) None]] = [records]
    ∧ List.length records = List.length [Example.item]
    ∧ Forall (isOutputRecord (Example.runtime Example.invoice)) records.
Proof.
  apply (execute_one_record_per_recognized_item (Example.runtime Example.invoice)
           [Example.item] [] (snd (execute (Example.runtime Example.invoice) []))).
  - reflexivity.
  - intros i action Hi [= <-]. reflexivity.
  - vm_compute. reflexivity.
Defined.

(** C3, as stated, fails: an item whose operation is none of the eight
    recognized actions leaves no record behind, neither a result nor an
    error record, although the host continues on failure. *)
Lemma execute_unrecognized_operation_drops_item :
  ¬ (∀ (this : Runtime) (items : list INodeExecutionData)
       (calls calls' : list NetworkCall) (records : list INodeExecutionData),
        getInputData this None = Normal items →
        execute this calls = (Normal [records], calls') →
        List.length records = List.length items).
Proof.
  intros Hclaim.
  specialize (Hclaim (Example.runtime Example.unknownOperation) [Example.item] [] [] []).
  discriminate Hclaim; vm_compute; reflexivity.
Qed.

Section ContinueOnFail.

Variable this : Runtime.

(** The loop over [k + m] items is the loop over the first [k] followed by
    the loop over the other [m]. *)
Lemma executeLoop_split (k m : nat) :
  ∀ (i : nat) (operationResult : list INodeExecutionData) (calls : list NetworkCall),
    executeLoop this (k + m) i operationResult calls
    = match executeLoop this k i operationResult calls with
      | (Normal operationResult', calls') =>
          executeLoop this m (i + k) operationResult' calls'
      | (Throw e, calls') => (Throw e, calls')
      end.
Proof.
  induction k as [|k IH]; intros i operationResult calls; simpl.
  - unfold ret. by rewrite Nat.add_0_r.
  - unfold bind.
    destruct (executeItem this i calls) as [[pushed|e] calls1]; [|done].
    rewrite IH. by replace (S i + k) with (i + S k) by lia.
Qed.

(** What one turn of the loop does when the action of its item throws. *)
Lemma executeItem_failure (i : nat) (action : string) (err : JsError)
    (calls calls1 : list NetworkCall) :
  getNodeParameter this "operation" i None = Normal action →
  dispatch this action i calls = (Throw err, calls1) →
  executeItem this i calls = onFailure this i err calls1.
Proof.
  intros Hop Hthrow. unfold executeItem, parameter, bind, host, tryCatch.
  by rewrite Hop, Hthrow.
Qed.

End ContinueOnFail.

(** One turn of the loop whose action throws.  Item [i] is reached with
    [operationResult] collected so far, and its action throws [err].  On a
    host that continues on failure the handler asks the host for input number
    [i]: when that input has items, the loop pushes a record with the JSON of
    the first of them, the error and [pairedItem: { item: i }], and goes on
    with item [i + 1]; when it has none, or cannot be read, the failure of the
    handler ends the batch.  On a host that does not continue, [err] itself
    is rethrown and ends the batch. *)
Theorem continue_on_fail_decides (this : Runtime) (items : list INodeExecutionData)
    (i : nat) (action : string) (err : JsError)
    (calls0 calls calls1 : list NetworkCall) (operationResult : list INodeExecutionData) :
  getInputData this None = Normal items →
  i < List.length items →
  executeLoop this i 0 [] calls0 = (Normal operationResult, calls) →
  getNodeParameter this "operation" i None = Normal action →
  dispatch this action i calls = (Throw err, calls1) →
  if continueOnFail this then
    match getInputData this (Some i) with
    | Normal (input0 :: _) =>
        executeItem this i calls = (Normal [errorRecord input0 err i], calls1)
        ∧ execute this calls0
          = (let! operationResult' :=
               executeLoop this (List.length items - S i) (S i)
                 (operationResult ++ [errorRecord input0 err i]) in
             ret [operationResult']) calls1
    | Normal [] =>
        execute this calls0
        = (Throw (TypeError "Cannot read properties of undefined (reading 'json')"),
           calls1)
    | Throw e => execute this calls0 = (Throw e, calls1)
    end
  else execute this calls0 = (Throw err, calls1).
Proof.
  intros Hitems Hi Hbefore Hop Hthrow.
  pose proof (executeItem_failure this i action err calls calls1 Hop Hthrow) as Hitem.
  assert (Hexecute : execute this calls0
                     = match executeItem this i calls with
                       | (Normal pushed, calls') =>
                           (let! operationResult' :=
                              executeLoop this (List.length items - S i) (S i)
                                (operationResult ++ pushed) in
                            ret [operationResult']) calls'
                       | (Throw e, calls') => (Throw e, calls')
                       end).
  { unfold execute, bind, host. rewrite Hitems.
    replace (List.length items) with (i + S (List.length items - S i)) at 1 by lia.
    rewrite executeLoop_split, Hbefore. simpl. unfold bind.
    by destruct (executeItem this i calls) as [[pushed|e] calls']. }
  rewrite Hexecute, Hitem.
  unfold onFailure, errorItem, bind, host, first, ret, throw.
  destruct (continueOnFail this); [|done].
  by destruct (getInputData this (Some i)) as [[|input0 rest]|e].
Qed.

Lemma continue_on_fail_decides_witness :
  let err := Error (invalidPdfMessage "bm90YXBkZg==") in
  (executeItem (Example.runtime Example.notPdfContinue) 0 []
   = (Normal [errorRecord Example.item err 0], [])
   ∧ execute (Example.runtime Example.notPdfContinue) []
     = (Normal [[errorRecord Example.item err 0]], []))
  ∧ execute (Example.runtime Example.notPdf) [] = (Throw err, []).
Proof.
  intros err. split.
  - apply (continue_on_fail_decides (Example.runtime Example.notPdfContinue)
             [Example.item] 0 "aiInvoiceParser" err [] [] [] []).
    + reflexivity.
    + simpl. lia.
    + reflexivity.
    + reflexivity.
    + vm_compute. reflexivity.
  - apply (continue_on_fail_decides (Example.runtime Example.notPdf)
             [Example.item] 0 "aiInvoiceParser" err [] [] [] []).
    + reflexivity.
    + simpl. lia.
    + reflexivity.
    + reflexivity.
    + vm_compute. reflexivity.
Defined.

(** C4 fails for every item after the first.  The handler of the loop
    reads [this.getInputData(i)[0].json]: it passes the index of the item
    where the host expects the number of an input, and the node has one
    input.  Two items are given, the content of both is not a PDF, and the
    host continues on failure.  The failure of item 0 is recorded, with the
    JSON of item 0.  The failure of item 1 is not: the handler finds no input
    number 1, its [TypeError] ends the batch, and the record of item 0 is
    lost with it. *)
Theorem continue_on_fail_aborts_after_first_item :
  let host := Example.runtime Cases.twoRejected in
  let err := Error (invalidPdfMessage "bm90YXBkZg==") in
  let failure := TypeError "Cannot read properties of undefined (reading 'json')" in
  continueOnFail host = true
  ∧ getInputData host None = Normal [Example.item; Cases.second]
  ∧ dispatch host "aiInvoiceParser" 0 [] = (Throw err, [])
  ∧ dispatch host "aiInvoiceParser" 1 [] = (Throw err, [])
  ∧ executeItem host 0 [] = (Normal [errorRecord Example.item err 0], [])
  ∧ executeItem host 1 [] = (Throw failure, [])
  ∧ execute host [] = (Throw failure, []).
Proof.
  repeat split; vm_compute; reflexivity.
Qed.

(** ** The request payload *)

(** From [key ∉ [k1; ...; kn]] to the n facts [key ≠ ki]. *)
Ltac distinct_keys Hkey :=
  repeat (apply not_elem_of_cons in Hkey as [? Hkey]); clear Hkey.

(** A lookup in a tower of inserts: skip the keys known to differ, and
    split on the others. *)
Ltac lookup_key :=
  repeat first
    [ rewrite lookup_insert_ne by congruence
    | rewrite lookup_empty
    | rewrite lookup_insert; case_decide; simplify_eq ].



Section PayloadFacts.

Variables (docName docContent documentType : string) (keys : list string)
  (verifyAuthenticity : bool).

#[local] Abbreviation isPayload a :=
  (isPayload a docName docContent keys documentType verifyAuthenticity).

Ltac payload_keys :=
  unfold isPayload, optionalFieldOf, customFieldsKey, object, withCustomFieldKeys,
    withDocumentType, withVerifyAuthenticity, customFieldKeysEntry;
  repeat match goal with
         | |- context [if negb ?b then _ else _] => destruct b eqn:?; cbn [negb]
         | |- context [if ?b then _ else _] =>
             lazymatch b with
             | bool_decide _ => fail
             | _ => destruct b eqn:?
             end
         end;
  simpl; (split; [by simplify_map_eq|]); (split; [by simplify_map_eq|]);
  (split; [by simplify_map_eq|]);
  intros key Hkey; distinct_keys Hkey; lookup_key;
  repeat (case_bool_decide; simplify_eq; try tauto);
  try done; try (exfalso; intuition congruence).

Lemma plain_payload (a : Action) :
  a ∈ [HealthCard; Contract; ContractPlain] →
  isPayload a (object [ ("docContent", VStr docContent); ("docName", VStr docName);
                        ("IsAsync", VBool true) ]).
Proof.
  intros Ha.
  assert (a = HealthCard ∨ a = Contract ∨ a = ContractPlain) as [->|[->| ->]]
    by set_solver.
  all: payload_keys.
Qed.

Lemma invoice_payload :
  isPayload InvoiceParser
    (object ([ ("docName", VStr docName); ("docContent", VStr docContent) ]
             ++ customFieldKeysEntry keys ++ [ ("IsAsync", VBool true) ])).
Proof. payload_keys. Qed.

Lemma keyed_payload (a : Action) :
  a ∈ [BankCheque; CreditCard; PayStub] →
  isPayload a
    (withCustomFieldKeys keys
       (object [ ("docName", VStr docName); ("docContent", VStr docContent);
                 ("IsAsync", VBool true) ])).
Proof.
  intros Ha.
  assert (a = BankCheque ∨ a = CreditCard ∨ a = PayStub) as [->|[->| ->]]
    by set_solver.
  all: payload_keys.
Qed.

Lemma mortgage_payload :
  isPayload MortgageDocument
    (withCustomFieldKeys keys
       (withDocumentType documentType
          (object [ ("docName", VStr docName); ("docContent", VStr docContent);
                    ("IsAsync", VBool true) ]))).
Proof. payload_keys. Qed.

Lemma marriage_payload :
  isPayload MarriageCertificate
    (withCustomFieldKeys keys
       (withVerifyAuthenticity verifyAuthenticity
          (object [ ("docName", VStr docName); ("docContent", VStr docContent);
                    ("IsAsync", VBool true) ]))).
Proof. payload_keys. Qed.

End PayloadFacts.

(** C5, as the code has it.  Every payload an action submits holds
    [docName] (the document name the caller supplied), [docContent] (content
    that is not blank) and [IsAsync: true].  Beyond these three it holds an
    optional key exactly in these cases: the custom field keys, when at least
    one custom field has a non-empty key (name, for the invoice); the
    document type of the mortgage action, trimmed, when it is not blank; the
    verification flag of the marriage certificate action, when it is true. *)
Theorem request_payload (this : Runtime) (a : Action) (index : nat)
    (r : Completion (list INodeExecutionData)) (calls : list NetworkCall)
    (payload : IDataObject) :
  executeAction this a index [] = (r, calls) →
  payload ∈ payloadsOf calls →
  ∃ docName docContent,
    getNodeParameter this "docName" index None = Normal docName
    ∧ isBlank docContent = false
    ∧ payload !! "docName" = Some (VStr docName)
    ∧ payload !! "docContent" = Some (VStr docContent)
    ∧ payload !! "IsAsync" = Some (VBool true)
    ∧ ∀ key, key ∉ ["docName"; "docContent"; "IsAsync"] →
             payload !! key = optionalField this a index key.
Proof.
  intros Hrun Hin.
  cut (∃ docName docContent,
         getNodeParameter this "docName" index None = Normal docName
         ∧ isBlank docContent = false
         ∧ isPayload a docName docContent (suppliedFieldKeys this a index)
             (suppliedDocumentType this index) (suppliedVerifyAuthenticity this index)
             payload).
  { intros (docName & docContent & Hname & Hcontent & Hpayload).
    by exists docName, docContent. }
  unfold suppliedFieldKeys, suppliedDocumentType, suppliedVerifyAuthenticity.
  destruct a; runs Hrun; rewrite ?payloadsOf_app in Hin;
    change (payloadsOf []) with (@nil IDataObject) in Hin;
    try change (payloadsOf [HttpGet ?u]) with (@nil IDataObject) in Hin;
    try match type of Hin with
        | context [payloadsOf [AsyncRequest ?p ?pl]] =>
            change (payloadsOf [AsyncRequest p pl]) with [pl] in Hin
        end;
    rewrite ?app_nil_l in Hin;
    try (by apply elem_of_nil in Hin);
    apply list_elem_of_singleton in Hin as ->;
    (eexists _, _; split; [reflexivity|]; split; [eassumption|]);
    lazymatch goal with
    | |- isPayload InvoiceParser _ _ _ _ _ _ => apply invoice_payload
    | |- isPayload MortgageDocument _ _ _ _ _ _ => apply mortgage_payload
    | |- isPayload MarriageCertificate _ _ _ _ _ _ => apply marriage_payload
    | |- isPayload HealthCard _ _ _ _ _ _ => apply plain_payload; set_solver
    | |- isPayload Contract _ _ _ _ _ _ => apply plain_payload; set_solver
    | |- isPayload ContractPlain _ _ _ _ _ _ => apply plain_payload; set_solver
    | |- _ => apply keyed_payload; set_solver
    end.
Qed.

Lemma request_payload_witness :
  let payload : IDataObject :=
    object [ ("docName", VStr "invoice.pdf"); ("docContent", VStr "JVBERi0xLjQK");
             ("IsAsync", VBool true) ] in
  ∃ docName docContent,
    getNodeParameter (Example.runtime Example.invoice) "docName" 0 None = Normal docName
    ∧ isBlank docContent = false
    ∧ payload !! "docName" = Some (VStr docName)
    ∧ payload !! "docContent" = Some (VStr docContent)
    ∧ payload !! "IsAsync" = Some (VBool true)
    ∧ ∀ key, key ∉ ["docName"; "docContent"; "IsAsync"] →
             payload !! key = optionalField (Example.runtime Example.invoice)
                                InvoiceParser 0 key.
Proof.
  intros payload.
  apply (request_payload (Example.runtime Example.invoice) InvoiceParser 0
           (fst (aiInvoiceParser (Example.runtime Example.invoice) 0 []))
           [AsyncRequest "/api/v2/ProcessInvoice" payload]).
  - vm_compute. reflexivity.
  - vm_compute. constructor.
Defined.

(** C5, as stated, fails for the document type of the mortgage action: a
    document type of one space is not empty, and yet the payload has no
    [documentType] key. *)
Lemma blank_document_type_is_not_sent :
  ¬ (∀ (this : Runtime) (index : nat) (r : Completion (list INodeExecutionData))
       (calls : list NetworkCall) (payload : IDataObject) (documentType : string),
        executeAction this MortgageDocument index [] = (r, calls) →
        payload ∈ payloadsOf calls →
        getNodeParameter this "documentType" index (Some EmptyString)
        = Normal documentType →
        (is_Some (payload !! "documentType") ↔ documentType ≠ EmptyString)).
Proof.
  intros Hclaim.
  pose (payload := object [ ("docName", VStr "mortgage.pdf");
                            ("docContent", VStr "JVBERi0xLjQK");
                            ("IsAsync", VBool true) ] : IDataObject).
  destruct (Hclaim (Example.runtime Example.blankDocumentType) 0
              (fst (aiProcessMortgageDocument
                      (Example.runtime Example.blankDocumentType) 0 []))
              [AsyncRequest "/api/v2/ProcessMortgageDocument" payload]
              payload " ") as [_ Hsent].
  - vm_compute. reflexivity.
  - vm_compute. constructor.
  - reflexivity.
  - destruct Hsent as [v Hv]; [discriminate|]. vm_compute in Hv. discriminate Hv.
Qed.

(** ** Failures of the request and of the parsing *)

Section RequestFailures.

Variables (error : ErrorObject) (docContent docName : string).
Hypothesis unauthorized : statusCode error = Some 401%Z.

Lemma describeRequestError_401 :
  code error ≠ Some "ECONNRESET" →
  describeRequestError error docContent docName
  = "Authentication failed. " +:+ debugContext docContent docName.
Proof.
  intros Hcode. unfold describeRequestError.
  rewrite bool_decide_false by done. by rewrite unauthorized.
Qed.

Lemma nodeRequestError_401 :
  nodeRequestError docContent docName error = NodeApiError error.
Proof. unfold nodeRequestError, hasStatusCode. by rewrite unauthorized. Qed.

End RequestFailures.

(** The network calls of a run that got as far as the request. *)
Ltac reached_request Hreached :=
  try (exfalso; apply Hreached; reflexivity).

(** C8, as the code has it.  The request fails with status 401 (and not
    with a reset connection).  The actions that raise node errors wrap the
    failure in a [NodeApiError], in which the status 401 can still be read.
    The actions that raise plain errors replace it by a new [Error] whose
    message starts with "Authentication failed." and which carries no
    status. *)
Theorem unauthorized_request (this : Runtime) (a : Action) (index : nat)
    (r : Completion (list INodeExecutionData)) (calls : list NetworkCall)
    (error : ErrorObject) :
  executeAction this a index [] = (r, calls) →
  payloadsOf calls ≠ [] →
  (∀ path payload, pdf4meAsyncRequest this path payload = inl error) →
  statusCode error = Some 401%Z →
  code error ≠ Some "ECONNRESET" →
  ∃ e, r = Throw e
       ∧ if raisesNodeErrors a
         then e = NodeApiError error ∧ statusCodeOf e = Some 401%Z
         else (∃ docContent docName,
                 e = Error ("Authentication failed. "
                            +:+ debugContext docContent docName))
              ∧ statusCodeOf e = None.
Proof.
  intros Hrun Hreached Hfails Hstatus Hcode.
  destruct a; runs Hrun; reached_request Hreached;
    repeat match goal with
           | E : context [pdf4meAsyncRequest this ?p ?pl] |- _ =>
               rewrite (Hfails p pl) in E
           end;
    simplify_eq;
    eexists; (split; [reflexivity|]); simpl;
    rewrite ?nodeRequestError_401 by done;
    unfold plainRequestError; rewrite ?describeRequestError_401 by done;
    (split; [|done]); eauto.
Qed.

Lemma unauthorized_request_witness :
  (∃ e, @Throw (list INodeExecutionData)
          (Error ("Authentication failed. "
                  +:+ debugContext "JVBERi0xLjQK" "invoice.pdf")) = Throw e
        ∧ (∃ docContent docName,
             e = Error ("Authentication failed. " +:+ debugContext docContent docName))
          ∧ statusCodeOf e = None)
  ∧ (∃ e, @Throw (list INodeExecutionData)
            (NodeApiError (Example.failureWithStatus 401)) = Throw e
          ∧ e = NodeApiError (Example.failureWithStatus 401)
          ∧ statusCodeOf e = Some 401%Z).
Proof.
  split.
  - apply (unauthorized_request (Example.runtime Example.unauthorized) InvoiceParser 0
             (Throw (Error ("Authentication failed. "
                            +:+ debugContext "JVBERi0xLjQK" "invoice.pdf")))
             (snd (aiInvoiceParser (Example.runtime Example.unauthorized) 0 []))
             (Example.failureWithStatus 401)).
    + vm_compute. reflexivity.
    + vm_compute. discriminate.
    + reflexivity.
    + reflexivity.
    + discriminate.
  - apply (unauthorized_request (Example.runtime Example.unauthorizedContract) Contract 0
             (Throw (NodeApiError (Example.failureWithStatus 401)))
             (snd (aiProcessContract (Example.runtime Example.unauthorizedContract) 0 []))
             (Example.failureWithStatus 401)).
    + vm_compute. reflexivity.
    + vm_compute. discriminate.
    + reflexivity.
    + reflexivity.
    + discriminate.
Defined.

(** C8, as stated, fails for the invoice action: the error it raises for a
    request that failed with status 401 carries no status code. *)
Lemma unauthorized_status_is_dropped :
  ¬ (∀ (this : Runtime) (a : Action) (index : nat) (e : JsError)
       (calls : list NetworkCall) (error : ErrorObject),
        executeAction this a index [] = (Throw e, calls) →
        (∀ path payload, pdf4meAsyncRequest this path payload = inl error) →
        statusCode error = Some 401%Z →
        payloadsOf calls ≠ [] →
        statusCodeOf e = Some 401%Z).
Proof.
  intros Hclaim.
  specialize (Hclaim (Example.runtime Example.unauthorized) InvoiceParser 0
                (Error ("Authentication failed. "
                        +:+ debugContext "JVBERi0xLjQK" "invoice.pdf"))
                (snd (aiInvoiceParser (Example.runtime Example.unauthorized) 0 []))
                (Example.failureWithStatus 401)).
  discriminate Hclaim; try reflexivity; vm_compute; (reflexivity || discriminate).
Qed.

(** C9, as the code has it.  The response is a string that is not valid
    JSON.  When the string is not empty the action raises the parse failure
    "Failed to parse API response: ..." with the message of the parser; the
    empty string is reported as a missing response instead.  In neither
    case does the action return. *)
Theorem unparsable_response (this : Runtime) (a : Action) (index : nat)
    (r : Completion (list INodeExecutionData)) (calls : list NetworkCall)
    (body syntaxError : string) :
  executeAction this a index [] = (r, calls) →
  payloadsOf calls ≠ [] →
  (∀ path payload, pdf4meAsyncRequest this path payload = inr (VStr body)) →
  JSON_parse this body = inl syntaxError →
  r = Throw (raiseOf a (if Js.truthyStr body
                        then "Failed to parse API response: " +:+ syntaxError
                        else noResponseMessage a)).
Proof.
  intros Hrun Hreached Hbody Hparse.
  destruct a; runs Hrun; reached_request Hreached;
    repeat match goal with
           | E : context [pdf4meAsyncRequest this ?p ?pl] |- _ =>
               rewrite (Hbody p pl) in E
           end;
    simplify_eq;
    repeat match goal with
           | E : _ = match JSON_parse this body with _ => _ end |- _ =>
               rewrite Hparse in E
           | E : truthy (VStr body) = _ |- _ =>
               change (truthy (VStr body)) with (Js.truthyStr body) in E;
               rewrite E; clear E
           end;
    by simplify_eq.
Qed.

Lemma unparsable_response_witness :
  @Throw (list INodeExecutionData)
    (Error "Failed to parse API response: Unexpected token in JSON")
  = Throw (raiseOf InvoiceParser
             (if Js.truthyStr "<html>Bad Gateway</html>"
              then "Failed to parse API response: " +:+ "Unexpected token in JSON"
              else noResponseMessage InvoiceParser)).
Proof.
  apply (unparsable_response (Example.runtime Example.htmlBody) InvoiceParser 0
           (Throw (Error "Failed to parse API response: Unexpected token in JSON"))
           (snd (aiInvoiceParser (Example.runtime Example.htmlBody) 0 []))
           "<html>Bad Gateway</html>" "Unexpected token in JSON").
  - vm_compute. reflexivity.
  - vm_compute. discriminate.
  - reflexivity.
  - reflexivity.
Defined.

(** C9, as stated, fails for the empty string: it is not valid JSON, and
    the invoice action reports it as a missing response, not as a parse
    failure. *)
Lemma empty_response_is_not_a_parse_failure :
  ¬ (∀ (this : Runtime) (a : Action) (index : nat)
       (r : Completion (list INodeExecutionData)) (calls : list NetworkCall)
       (body syntaxError : string),
        executeAction this a index [] = (r, calls) →
        payloadsOf calls ≠ [] →
        (∀ path payload, pdf4meAsyncRequest this path payload = inr (VStr body)) →
        JSON_parse this body = inl syntaxError →
        r = Throw (raiseOf a ("Failed to parse API response: " +:+ syntaxError))).
Proof.
  intros Hclaim.
  specialize (Hclaim (Example.runtime Example.emptyBody) InvoiceParser 0
                (Throw (Error (noResponseMessage InvoiceParser)))
                (snd (aiInvoiceParser (Example.runtime Example.emptyBody) 0 []))
                EmptyString "Unexpected token in JSON").
  discriminate Hclaim; try reflexivity; vm_compute; (reflexivity || discriminate).
Qed.

(** ** The metadata envelope *)

Section MetadataFacts.

Variable this : Runtime.
Variables (docName documentType : string) (rows : list (gmap string string))
  (keys : list string) (verifyAuthenticity : bool).

#[local] Abbreviation isMetadata a :=
  (isMetadata a (Date_toISOString this) docName rows keys documentType
     verifyAuthenticity).

Ltac metadata_keys :=
  unfold isMetadata, metadataFieldOf, object, metadataEntries, customFieldsEntries,
    invoiceCustomFieldsEntries, documentTypeEntry, verifyAuthenticityEntry;
  repeat match goal with
         | |- context [if negb ?b then _ else _] => destruct b eqn:?; cbn [negb]
         | |- context [if ?b then _ else _] =>
             lazymatch b with
             | bool_decide _ => fail
             | _ => destruct b eqn:?
             end
         end;
  simpl;
  (split; [by simplify_map_eq|]); (split; [eexists; by simplify_map_eq|]);
  (split; [by simplify_map_eq|]); (split; [by simplify_map_eq|]);
  (split; [by simplify_map_eq|]);
  intros key Hkey; distinct_keys Hkey; lookup_key;
  repeat (case_bool_decide; simplify_eq; try tauto);
  try done; try (exfalso; intuition congruence).

Lemma plain_metadata (a : Action) (msg : string) :
  a ∈ [HealthCard; Contract; ContractPlain] →
  isMetadata a (object (metadataEntries this msg docName (operationName a))).
Proof.
  intros Ha.
  assert (a = HealthCard ∨ a = Contract ∨ a = ContractPlain) as [->|[->| ->]]
    by set_solver.
  all: metadata_keys.
Qed.

Lemma invoice_metadata (msg : string) :
  isMetadata InvoiceParser
    (object (metadataEntries this msg docName "aiInvoiceParser"
             ++ invoiceCustomFieldsEntries rows)).
Proof. metadata_keys. Qed.

Lemma keyed_metadata (a : Action) (msg : string) :
  a ∈ [BankCheque; CreditCard; PayStub] →
  isMetadata a
    (object (metadataEntries this msg docName (operationName a)
             ++ customFieldsEntries keys)).
Proof.
  intros Ha.
  assert (a = BankCheque ∨ a = CreditCard ∨ a = PayStub) as [->|[->| ->]]
    by set_solver.
  all: metadata_keys.
Qed.

Lemma mortgage_metadata (msg : string) :
  isMetadata MortgageDocument
    (object (metadataEntries this msg docName "aiProcessMortgageDocument"
             ++ documentTypeEntry documentType ++ customFieldsEntries keys)).
Proof. metadata_keys. Qed.

Lemma marriage_metadata (msg : string) :
  isMetadata MarriageCertificate
    (object (metadataEntries this msg docName "aiProcessMarriageCertificate"
             ++ verifyAuthenticityEntry verifyAuthenticity
             ++ customFieldsEntries keys)).
Proof. metadata_keys. Qed.

End MetadataFacts.

(** X26. The metadata envelope, as the code builds it.  The record of a result holds,
    whatever the response was, a [_metadata] object with [success: true], a
    message, the timestamp, [sourceFileName] equal to the document name the
    caller supplied, and the operation.  Beyond these five it records a
    document type that is not blank, a verification flag that is true, and
    custom fields: for every action but the invoice exactly when keys were
    sent, for the invoice whenever the parameter has rows. *)
Lemma result_metadata (this : Runtime) (a : Action) (index : nat)
    (calls calls' : list NetworkCall) (records : list INodeExecutionData) :
  executeAction this a index calls = (Normal records, calls') →
  ∃ record metadata docName,
    records = [record]
    ∧ getNodeParameter this "docName" index None = Normal docName
    ∧ json record !! "_metadata" = Some (VObj metadata)
    ∧ isMetadata a (Date_toISOString this) docName (suppliedRows this index)
        (suppliedFieldKeys this a index) (suppliedDocumentType this index)
        (suppliedVerifyAuthenticity this index) metadata.
Proof.
  intros Hrun.
  unfold suppliedRows, suppliedFieldKeys, suppliedDocumentType,
    suppliedVerifyAuthenticity.
  destruct a; runs Hrun;
    (eexists _, _, _; split; [reflexivity|]; split; [reflexivity|];
     split; [apply lookup_insert_eq|]);
    lazymatch goal with
    | |- isMetadata InvoiceParser _ _ _ _ _ _ _ => apply invoice_metadata
    | |- isMetadata MortgageDocument _ _ _ _ _ _ _ => apply mortgage_metadata
    | |- isMetadata MarriageCertificate _ _ _ _ _ _ _ => apply marriage_metadata
    | |- isMetadata HealthCard _ _ _ _ _ _ _ =>
        apply (plain_metadata this _ _ _ _ _ HealthCard); set_solver
    | |- isMetadata Contract _ _ _ _ _ _ _ =>
        apply (plain_metadata this _ _ _ _ _ Contract); set_solver
    | |- isMetadata ContractPlain _ _ _ _ _ _ _ =>
        apply (plain_metadata this _ _ _ _ _ ContractPlain); set_solver
    | |- isMetadata BankCheque _ _ _ _ _ _ _ =>
        apply (keyed_metadata this _ _ _ _ _ BankCheque); set_solver
    | |- isMetadata CreditCard _ _ _ _ _ _ _ =>
        apply (keyed_metadata this _ _ _ _ _ CreditCard); set_solver
    | |- isMetadata PayStub _ _ _ _ _ _ _ =>
        apply (keyed_metadata this _ _ _ _ _ PayStub); set_solver
    end.
Qed.

(** C6 fails in the invoice action.  The caller adds one custom field and
    leaves its name empty: no custom field key is sent, so no optional field
    is used, and yet the metadata of the result records custom fields, one
    field with an empty name. *)
Theorem invoice_metadata_records_fields_not_sent :
  ∃ record payload metadata,
    aiInvoiceParser (Example.runtime Example.emptyFieldName) 0 []
    = (Normal [record], [AsyncRequest "/api/v2/ProcessInvoice" payload])
    ∧ payload !! "customFieldKeys" = None
    ∧ json record !! "_metadata" = Some (VObj metadata)
    ∧ metadata !! "customFieldsUsed" = Some (VArr [VStr EmptyString])
    ∧ metadata !! "customFieldsCount" = Some (VNum (Finite 1 0)).
Proof.
  eexists _, _, _. split; [vm_compute; reflexivity|].
  repeat split; vm_compute; reflexivity.
Qed.

(** * Further properties of the code *)

(** ** Custom field keys *)

Lemma fold_pushIfSet (property : string) (rows : list (gmap string string)) :
  ∀ keys, fold_left (pushIfSet property) rows keys = keys ++ omap (setValue property) rows.
Proof.
  induction rows as [|row rows IH]; intros keys; simpl.
  - by rewrite app_nil_r.
  - rewrite IH. unfold pushIfSet, setValue.
    destruct (row !! property) as [v|]; [|done].
    destruct (Js.truthyStr v); [|done]. by rewrite <- app_assoc.
Qed.

(** X1. The keys collected from the rows of the custom fields are the values of
    the property in the rows that have it set to a non-empty string, in the
    order of the rows: rows without the property, or with an empty one, are
    skipped, and nothing is reordered or removed as a duplicate. *)
Theorem collect_keeps_set_values_in_order (property : string)
    (rows : list (gmap string string)) :
  collect property rows = omap (setValue property) rows.
Proof.
  unfold collect. destruct rows as [|row rows]; [done|].
  change (Nat.ltb 0 (List.length (row :: rows))) with true. cbn beta iota.
  apply fold_pushIfSet.
Qed.

Example collect_rows :
  collect "key" Cases.rows = ["loan_amount"; "interest_rate"].
Proof. reflexivity. Qed.

(** ** Blank content *)

Lemma trimEnd_starts (a : ascii) (s : string) :
  Js.isWhiteSpace a = false → Js.trimEnd (String a s) ≠ EmptyString.
Proof.
  intros Ha. simpl. destruct (Js.trimEnd s); [by rewrite Ha | done].
Qed.

Lemma trim_empty (s : string) : Js.trim s = EmptyString ↔ allWhiteSpace s = true.
Proof.
  unfold Js.trim. induction s as [|a s IH]; [done|].
  cbn [Js.trimStart allWhiteSpace].
  destruct (Js.isWhiteSpace a) eqn:Ha; [exact IH|].
  split; [|done]. intros H. by apply trimEnd_starts in H.
Qed.

(** X2. Content is rejected as missing exactly when it consists of white space
    only (the empty string included): spaces, tabs and line breaks around
    other characters do not make it blank. *)
Theorem isBlank_iff_white_space (docContent : string) :
  isBlank docContent = true ↔ allWhiteSpace docContent = true.
Proof.
  unfold isBlank. rewrite orb_true_iff, String.eqb_eq, trim_empty.
  split; [|by right].
  intros [H|H]; [|done]. by destruct docContent.
Qed.
(** ** The common shape of the nine actions *)

Section Pipeline.

Variables (this : Runtime) (index : nat).
Hypothesis Hres : parametersResolve this index.

(** On a host that resolves every parameter, an action reads the input
    mode and the document name, reads the content as its mode says, and
    hands the content on with a payload and a metadata object that have the
    shape of the action. *)
Lemma action_pipeline (a : Action) (calls : list NetworkCall) :
  ∃ mode docName (payloadOf : string → IDataObject) (metadata : IDataObject),
    getNodeParameter this "inputDataType" index None = Normal mode
    ∧ getNodeParameter this "docName" index None = Normal docName
    ∧ (∀ docContent,
         isPayload a docName docContent (suppliedFieldKeys this a index)
           (suppliedDocumentType this index) (suppliedVerifyAuthenticity this index)
           (payloadOf docContent))
    ∧ isMetadata a (Date_toISOString this) docName (suppliedRows this index)
        (suppliedFieldKeys this a index) (suppliedDocumentType this index)
        (suppliedVerifyAuthenticity this index) metadata
    ∧ executeAction this a index calls
      = bind (readDocContent this (raiseOf a) (urlParameter a) mode index)
          (submitted this a index docName payloadOf metadata) calls.
Proof.
  destruct Hres as (Hs & Hb & [customFieldsData HcustomFields]).
  destruct (Hs "inputDataType" None) as [mode Hmode].
  destruct (Hs "docName" None) as [docName HdocName].
  destruct (Hs "documentType" (Some EmptyString)) as [documentType HdocumentType].
  destruct (Hb "verifyAuthenticity" false) as [verifyAuthenticity Hverify].
  exists mode, docName.
  unfold suppliedFieldKeys, suppliedDocumentType, suppliedVerifyAuthenticity,
    suppliedRows.
  rewrite HcustomFields, HdocumentType, Hverify.
  destruct a.
  all: eexists (λ docContent, _), _.
  all: split; [done|]; split; [done|].
  all: match goal with
       | |- ?P ∧ ?Q ∧ ?R => cut R; [intros Hrun; split; [|split; [|exact Hrun]]|]
       end.
  all: try (lazymatch goal with |- @eq _ _ _ => idtac end;
    unfold executeAction, aiInvoiceParser, aiProcessHealthCard, aiProcessContract,
      aiProcessContractPlain, aiProcessMortgageDocument, aiProcessBankCheque,
      aiProcessCreditCard, aiProcessPayStub, aiProcessMarriageCertificate,
      tryRequest, parseResult, submitted, answered, processed, raiseOf,
      requestErrorOf, pairedOf;
    unfold parameter, bind, host, network, ret, throw;
    rewrite ?Hmode, ?HdocName, ?HcustomFields, ?HdocumentType, ?Hverify;
    cbn [raisesNodeErrors validatesPdf pathOf urlParameter andb contentRequiredMessage];
    match goal with
    | |- context [readDocContent ?t ?r ?u ?m ?i ?c] =>
        destruct (readDocContent t r u m i c) as [[docContent|e] calls1]
    end; [|reflexivity];
    destruct (isBlank docContent); [reflexivity|];
    try (destruct (Js.startsWith docContent "JVBERi0x"); cbn [negb]; [|reflexivity]);
    cbn beta iota zeta;
    match goal with
    | |- context [pdf4meAsyncRequest this ?path ?payload] =>
        match goal with
        | |- _ = (_, _ ++ [AsyncRequest _ ?p]) => unify p payload
        end;
        destruct (pdf4meAsyncRequest this path payload) as [error|result]
    end; [reflexivity|];
    cbn beta iota zeta;
    destruct (truthy result); [|reflexivity];
    destruct result; try reflexivity;
    match goal with
    | |- context [JSON_parse this ?s] => destruct (JSON_parse this s); reflexivity
    end).
  all: try intros docContent.
  all: lazymatch goal with
       | |- isPayload InvoiceParser _ _ _ _ _ _ => apply invoice_payload
       | |- isPayload MortgageDocument _ _ _ _ _ _ => apply mortgage_payload
       | |- isPayload MarriageCertificate _ _ _ _ _ _ => apply marriage_payload
       | |- isPayload HealthCard _ _ _ _ _ _ => apply plain_payload; set_solver
       | |- isPayload Contract _ _ _ _ _ _ => apply plain_payload; set_solver
       | |- isPayload ContractPlain _ _ _ _ _ _ => apply plain_payload; set_solver
       | |- isPayload _ _ _ _ _ _ _ => apply keyed_payload; set_solver
       | |- isMetadata InvoiceParser _ _ _ _ _ _ _ => apply invoice_metadata
       | |- isMetadata MortgageDocument _ _ _ _ _ _ _ => apply mortgage_metadata
       | |- isMetadata MarriageCertificate _ _ _ _ _ _ _ => apply marriage_metadata
       | |- isMetadata HealthCard _ _ _ _ _ _ _ =>
           apply (plain_metadata this _ _ _ _ _ HealthCard); set_solver
       | |- isMetadata Contract _ _ _ _ _ _ _ =>
           apply (plain_metadata this _ _ _ _ _ Contract); set_solver
       | |- isMetadata ContractPlain _ _ _ _ _ _ _ =>
           apply (plain_metadata this _ _ _ _ _ ContractPlain); set_solver
       | |- isMetadata BankCheque _ _ _ _ _ _ _ =>
           apply (keyed_metadata this _ _ _ _ _ BankCheque); set_solver
       | |- isMetadata CreditCard _ _ _ _ _ _ _ =>
           apply (keyed_metadata this _ _ _ _ _ CreditCard); set_solver
       | |- isMetadata PayStub _ _ _ _ _ _ _ =>
           apply (keyed_metadata this _ _ _ _ _ PayStub); set_solver
       end.
Qed.

End Pipeline.

Section Outcome.

Variables (this : Runtime) (index : nat).

(** Every run of an action ends in one of two ways.  Either it throws
    before its request, having made at most the download.  Or it makes its
    request, after at most the download, with content that passed its
    checks, and what it returns is decided by the answer to the request. *)
Lemma action_outcome (a : Action) (calls calls' : list NetworkCall)
    (r : Completion (list INodeExecutionData)) :
  executeAction this a index calls = (r, calls') →
  (∃ e, r = Throw e ∧ (calls' = calls ∨ ∃ url, calls' = calls ++ [HttpGet url]))
  ∨ (∃ docName docContent payload metadata own,
       getNodeParameter this "docName" index None = Normal docName
       ∧ isBlank docContent = false
       ∧ (validatesPdf a = true → Js.startsWith docContent "JVBERi0x" = true)
       ∧ calls' = calls ++ own ++ [AsyncRequest (pathOf a) payload]
       ∧ (own = [] ∨ ∃ url, own = [HttpGet url])
       ∧ r = answered this a index docContent docName payload metadata
       ∧ isPayload a docName docContent (suppliedFieldKeys this a index)
           (suppliedDocumentType this index) (suppliedVerifyAuthenticity this index)
           payload
       ∧ isMetadata a (Date_toISOString this) docName (suppliedRows this index)
           (suppliedFieldKeys this a index) (suppliedDocumentType this index)
           (suppliedVerifyAuthenticity this index) metadata).
Proof.
  intros Hrun.
  unfold suppliedRows, suppliedFieldKeys, suppliedDocumentType,
    suppliedVerifyAuthenticity.
  destruct a.
  all: unfold_actions; repeat split_run Hrun; cbn beta iota zeta in Hrun; simplify_eq.
  all: repeat match goal with
         | E : String.eqb _ _ = true |- _ => apply String.eqb_eq in E; subst
         end.
  all: try (left; eexists; split; [reflexivity|]; by eauto).
  all: right.
  all: repeat match goal with
         | E : tryRequest _ _ _ _ _ = _ |- _ => apply tryRequest_inv in E as [-> E]
         | E : parseResult _ _ _ _ = _ |- _ => apply parseResult_inv in E as [-> E]
         end.
  all: eexists _, _, _, _, _.
  all: split; [reflexivity|]; split; [eassumption|].
  all: split; [first [ discriminate | by intros _; apply negb_false_iff ]|].
  all: split;
         [lazymatch goal with
          | |- (_ ++ [HttpGet _]) ++ _ = _ => by rewrite <- app_assoc
          | |- ?c ++ _ = _ => exact (eq_refl (c ++ [] ++ [AsyncRequest _ _]))
          end|].
  all: split; [by eauto|].
  all: split;
         [unfold answered, processed, requestErrorOf, pairedOf, raiseOf;
          cbn [pathOf raisesNodeErrors];
          match goal with
          | |- context [pdf4meAsyncRequest this ?path ?payload] =>
              destruct (pdf4meAsyncRequest this path payload)
          end; simplify_eq; try reflexivity;
          match goal with
          | E : truthy _ = _ |- _ => rewrite E
          end; try reflexivity;
          match goal with
          | E : _ = match _ with _ => _ end |- _ => rewrite <- E
          end; reflexivity|].
  all: split.
  all: lazymatch goal with
       | |- isPayload InvoiceParser _ _ _ _ _ _ => apply invoice_payload
       | |- isPayload MortgageDocument _ _ _ _ _ _ => apply mortgage_payload
       | |- isPayload MarriageCertificate _ _ _ _ _ _ => apply marriage_payload
       | |- isPayload HealthCard _ _ _ _ _ _ => apply plain_payload; set_solver
       | |- isPayload Contract _ _ _ _ _ _ => apply plain_payload; set_solver
       | |- isPayload ContractPlain _ _ _ _ _ _ => apply plain_payload; set_solver
       | |- isPayload _ _ _ _ _ _ _ => apply keyed_payload; set_solver
       | |- isMetadata InvoiceParser _ _ _ _ _ _ _ => apply invoice_metadata
       | |- isMetadata MortgageDocument _ _ _ _ _ _ _ => apply mortgage_metadata
       | |- isMetadata MarriageCertificate _ _ _ _ _ _ _ => apply marriage_metadata
       | |- isMetadata HealthCard _ _ _ _ _ _ _ =>
           apply (plain_metadata this _ _ _ _ _ HealthCard); set_solver
       | |- isMetadata Contract _ _ _ _ _ _ _ =>
           apply (plain_metadata this _ _ _ _ _ Contract); set_solver
       | |- isMetadata ContractPlain _ _ _ _ _ _ _ =>
           apply (plain_metadata this _ _ _ _ _ ContractPlain); set_solver
       | |- isMetadata BankCheque _ _ _ _ _ _ _ =>
           apply (keyed_metadata this _ _ _ _ _ BankCheque); set_solver
       | |- isMetadata CreditCard _ _ _ _ _ _ _ =>
           apply (keyed_metadata this _ _ _ _ _ CreditCard); set_solver
       | |- isMetadata PayStub _ _ _ _ _ _ _ =>
           apply (keyed_metadata this _ _ _ _ _ PayStub); set_solver
       end.
  Unshelve. all: exact EmptyString.
Qed.
End Outcome.

(** A run that has made a request: what went out and what comes back. *)
Lemma action_request (this : Runtime) (a : Action) (index : nat)
    (calls own : list NetworkCall) (r : Completion (list INodeExecutionData))
    (payload : IDataObject) :
  executeAction this a index calls = (r, calls ++ own) →
  payload ∈ payloadsOf own →
  ∃ docName docContent metadata,
    getNodeParameter this "docName" index None = Normal docName
    ∧ isBlank docContent = false
    ∧ (validatesPdf a = true → Js.startsWith docContent "JVBERi0x" = true)
    ∧ r = answered this a index docContent docName payload metadata
    ∧ isPayload a docName docContent (suppliedFieldKeys this a index)
        (suppliedDocumentType this index) (suppliedVerifyAuthenticity this index)
        payload
    ∧ isMetadata a (Date_toISOString this) docName (suppliedRows this index)
        (suppliedFieldKeys this a index) (suppliedDocumentType this index)
        (suppliedVerifyAuthenticity this index) metadata.
Proof.
  intros Hrun Hin.
  destruct (action_outcome this index a calls (calls ++ own) r Hrun)
    as [(e & _ & [Hcalls|[url Hcalls]])
       |(docName & docContent & payload' & metadata & own' & HdocName & Hblank
         & Hheader & Hcalls & Hown & Hr & Hpayload & Hmetadata)].
  - rewrite <- (app_nil_r calls) in Hcalls at 2.
    apply app_inv_head in Hcalls as ->. by apply elem_of_nil in Hin.
  - apply app_inv_head in Hcalls as ->. by apply elem_of_nil in Hin.
  - apply app_inv_head in Hcalls as ->.
    rewrite payloadsOf_app in Hin.
    assert (payloadsOf own' = []) as Hnone by (by destruct Hown as [->|[url ->]]).
    rewrite Hnone in Hin. apply list_elem_of_singleton in Hin as ->.
    by exists docName, docContent, metadata.
Qed.
(** ** The three input modes *)

Section InputModes.

Variables (this : Runtime) (raise : string → JsError) (urlParameter : string)
  (index : nat) (calls : list NetworkCall).

Lemma readDocContent_unsupported (mode : string) :
  mode ∉ ["binaryData"; "base64"; "url"] →
  readDocContent this raise urlParameter mode index calls
  = (Throw (raise ("Unsupported input data type: " +:+ mode)), calls).
Proof.
  intros Hnot. distinct_keys Hnot. unfold readDocContent.
  by rewrite !(proj2 (String.eqb_neq _ _)) by done.
Qed.

Lemma readDocContent_binary (name : string) (item : INodeExecutionData)
    (rest : list INodeExecutionData) :
  getNodeParameter this "binaryPropertyName" index (Some "data") = Normal name →
  getInputData this (Some index) = Normal (item :: rest) →
  readDocContent this raise urlParameter "binaryData" index calls
  = if lacksBinary item name then
      (Throw (raise ("No binary data found in property '" +:+ name +:+ "'")), calls)
    else
      match getBinaryDataBuffer this index name with
      | Normal buffer => (Normal (toBase64 buffer), calls)
      | Throw e => (Throw e, calls)
      end.
Proof.
  intros Hname Hitem.
  unfold readDocContent, parameter, bind, host, first, ret, throw. simpl.
  rewrite Hname, Hitem.
  destruct (lacksBinary item name); [done|].
  by destruct (getBinaryDataBuffer this index name).
Qed.

Lemma readDocContent_no_input :
  (∃ name, getNodeParameter this "binaryPropertyName" index (Some "data") = Normal name) →
  getInputData this (Some index) = Normal [] →
  readDocContent this raise urlParameter "binaryData" index calls
  = (Throw (TypeError "Cannot read properties of undefined (reading 'binary')"), calls).
Proof.
  intros [name Hname] Hinput.
  unfold readDocContent, parameter, bind, host, first, ret, throw. simpl.
  by rewrite Hname, Hinput.
Qed.

Lemma readDocContent_url (url : string) :
  getNodeParameter this urlParameter index None = Normal url →
  readDocContent this raise urlParameter "url" index calls
  = match httpRequestWithAuthentication this url with
    | Normal buffer => (Normal (toBase64 buffer), calls ++ [HttpGet url])
    | Throw e => (Throw e, calls ++ [HttpGet url])
    end.
Proof.
  intros Hurl.
  unfold readDocContent, parameter, bind, host, network, ret. simpl.
  rewrite Hurl.
  by destruct (httpRequestWithAuthentication this url).
Qed.

End InputModes.

(** *** Files *)

Lemma base64Digit_not_white_space (n : N) :
  Js.isWhiteSpace (base64Digit n) = false.
Proof.
  unfold base64Digit. generalize (N.to_nat n). intros k.
  do 64 (destruct k as [|k]; [reflexivity|]). reflexivity.
Qed.

(** The base64 text of a file that is not empty is not blank. *)
Lemma toBase64_not_blank (buffer : Buffer) :
  buffer ≠ [] → isBlank (toBase64 buffer) = false.
Proof.
  intros Hbuffer.
  assert (∃ n rest, toBase64 buffer = String (base64Digit n) rest) as (n & rest & ->).
  { destruct buffer as [|a [|b [|c buffer]]]; [done|..]; simpl; eauto. }
  unfold isBlank. cbn [Js.truthyStr negb orb].
  apply not_true_is_false. intros Hblank.
  apply String.eqb_eq, trim_empty in Hblank. cbn [allWhiteSpace] in Hblank.
  by rewrite base64Digit_not_white_space in Hblank.
Qed.

(** The base64 text of a file that starts with the bytes [%PDF-1] starts
    with [JVBERi0x]. *)
Lemma toBase64_pdf (rest : Buffer) :
  toBase64 (bytesOf "%PDF-1" ++ rest) = "JVBERi0x" +:+ toBase64 rest.
Proof. reflexivity. Qed.

Lemma startsWith_app (p s : string) : Js.startsWith (p +:+ s) p = true.
Proof.
  induction p as [|a p IH]; cbn.
  - by destruct s.
  - by rewrite Ascii.eqb_refl.
Qed.

Lemma pdf_file_header (buffer : Buffer) :
  (∃ rest, buffer = bytesOf "%PDF-1" ++ rest) →
  Js.startsWith (toBase64 buffer) "JVBERi0x" = true.
Proof. intros [rest ->]. rewrite toBase64_pdf. apply startsWith_app. Qed.

(** The run of an action on a host that resolves every parameter and gives
    [mode] as the input mode: the content is read, then handed on. *)
Ltac pipeline Hres Hmode :=
  match type of Hres with
  | parametersResolve ?this ?index =>
      match goal with
      | |- context [executeAction this ?a index ?calls] =>
          let mode' := fresh "mode" in
          let Hmode' := fresh "Hmode" in
          destruct (action_pipeline this index Hres a calls)
            as (mode' & docName & payloadOf & metadata & Hmode' & HdocName
                & Hpayload & Hmetadata & ->);
          rewrite Hmode in Hmode'; injection Hmode' as <-; unfold bind
      end
  end.

(** A file that has passed the checks of an action goes out as the content
    of its request. *)
Ltac file_submitted Hbuffer Hpdf Hpayload :=
  unfold submitted;
  rewrite toBase64_not_blank by exact Hbuffer;
  match goal with
  | |- context [validatesPdf ?a] =>
      destruct (validatesPdf a); cbn [andb];
      [rewrite pdf_file_header by (by apply Hpdf); cbn [negb]|]
  end;
  (eexists; split; [by rewrite <- ?app_assoc | apply Hpayload]).

(** X3. An input mode other than the three the actions know makes every action
    raise "Unsupported input data type: <mode>", in its own error class,
    before any network call. *)
Theorem unsupported_input_mode (this : Runtime) (a : Action) (index : nat)
    (calls : list NetworkCall) (mode : string) :
  parametersResolve this index →
  getNodeParameter this "inputDataType" index None = Normal mode →
  mode ∉ ["binaryData"; "base64"; "url"] →
  executeAction this a index calls
  = (Throw (raiseOf a ("Unsupported input data type: " +:+ mode)), calls).
Proof.
  intros Hres Hmode Hnot. pipeline Hres Hmode.
  by rewrite readDocContent_unsupported.
Qed.

Lemma unsupported_input_mode_witness :
  executeAction (Example.runtime Cases.ftp) PayStub 0 []
  = (Throw (NodeOperationError "Unsupported input data type: ftp"), []).
Proof.
  apply (unsupported_input_mode (Example.runtime Cases.ftp) PayStub 0 [] "ftp").
  - repeat split; intros; eexists; reflexivity.
  - reflexivity.
  - apply (bool_decide_unpack (_ ∉ _)). vm_compute. exact I.
Defined.

(** X4. In binary mode an action passes the index of its item to
    [getInputData] and looks at the first item of the input with that
    number.  When the host delivers items for that input and the first of
    them has no binary property of the given name, its own or inherited,
    every action raises "No binary data found in property '<name>'", in its
    own error class, before the binary data is read and before any network
    call.  On the one input of the node this is the case of item 0. *)
Theorem missing_binary_property (this : Runtime) (a : Action) (index : nat)
    (calls : list NetworkCall) (name : string) (input0 : INodeExecutionData)
    (rest : list INodeExecutionData) :
  parametersResolve this index →
  getNodeParameter this "inputDataType" index None = Normal "binaryData" →
  getNodeParameter this "binaryPropertyName" index (Some "data") = Normal name →
  getInputData this (Some index) = Normal (input0 :: rest) →
  lacksBinary input0 name = true →
  executeAction this a index calls
  = (Throw (raiseOf a ("No binary data found in property '" +:+ name +:+ "'")), calls).
Proof.
  intros Hres Hmode Hname Hitem Hlacks. pipeline Hres Hmode.
  by rewrite (readDocContent_binary _ _ _ _ _ name input0 rest Hname Hitem), Hlacks.
Qed.

Lemma missing_binary_property_witness :
  executeAction (Example.runtime Cases.noBinary) BankCheque 0 []
  = (Throw (NodeOperationError "No binary data found in property 'data'"), []).
Proof.
  apply (missing_binary_property (Example.runtime Cases.noBinary) BankCheque 0 []
           "data" Example.item []).
  - repeat split; intros; eexists; reflexivity.
  - reflexivity.
  - reflexivity.
  - reflexivity.
  - reflexivity.
Defined.

(** X5. In binary mode an action passes the index of its item to
    [getInputData].  When the host delivers items for the input with that
    number, the first of them has the named binary property, and the file
    the host reads for the item is not empty and starts with [%PDF-1] where
    the action checks for the PDF header, the file is submitted whole: the
    one network call of the action is the request to its own path, with the
    base64 text of the file as [docContent].  On the one input of the node
    this is the case of item 0. *)
Theorem binary_file_is_submitted (this : Runtime) (a : Action) (index : nat)
    (calls : list NetworkCall) (name : string) (input0 : INodeExecutionData)
    (rest : list INodeExecutionData) (buffer : Buffer) :
  parametersResolve this index →
  getNodeParameter this "inputDataType" index None = Normal "binaryData" →
  getNodeParameter this "binaryPropertyName" index (Some "data") = Normal name →
  getInputData this (Some index) = Normal (input0 :: rest) →
  lacksBinary input0 name = false →
  getBinaryDataBuffer this index name = Normal buffer →
  buffer ≠ [] →
  (validatesPdf a = true → ∃ tail, buffer = bytesOf "%PDF-1" ++ tail) →
  ∃ payload,
    (executeAction this a index calls).2 = calls ++ [AsyncRequest (pathOf a) payload]
    ∧ payload !! "docContent" = Some (VStr (toBase64 buffer)).
Proof.
  intros Hres Hmode Hname Hitem Hhas Hread Hbuffer Hpdf. pipeline Hres Hmode.
  rewrite (readDocContent_binary _ _ _ _ _ name input0 rest Hname Hitem), Hhas, Hread.
  file_submitted Hbuffer Hpdf Hpayload.
Qed.

Lemma binary_file_is_submitted_witness :
  ∃ payload,
    (executeAction (Example.runtime Cases.attached) BankCheque 0 []).2
    = [] ++ [AsyncRequest "/api/v2/ProcessBankCheque" payload]
    ∧ payload !! "docContent" = Some (VStr (toBase64 (bytesOf "%PDF-1.4"))).
Proof.
  apply (binary_file_is_submitted (Example.runtime Cases.attached) BankCheque 0 []
           "data" Cases.attachment [] (bytesOf "%PDF-1.4")).
  - repeat split; intros; eexists; reflexivity.
  - reflexivity.
  - reflexivity.
  - reflexivity.
  - reflexivity.
  - reflexivity.
  - discriminate.
  - intros _. exists (bytesOf ".4"). reflexivity.
Defined.

(** X6. In binary mode, when the host delivers items for the input whose
    number is the index of the item, the first of them has the named binary
    property, and the file the host reads for the item is empty, every
    action raises its "... content is required" error, before any network
    call.  On the one input of the node this is the case of item 0. *)
Theorem empty_file_rejected (this : Runtime) (a : Action) (index : nat)
    (calls : list NetworkCall) (name : string) (input0 : INodeExecutionData)
    (rest : list INodeExecutionData) :
  parametersResolve this index →
  getNodeParameter this "inputDataType" index None = Normal "binaryData" →
  getNodeParameter this "binaryPropertyName" index (Some "data") = Normal name →
  getInputData this (Some index) = Normal (input0 :: rest) →
  lacksBinary input0 name = false →
  getBinaryDataBuffer this index name = Normal [] →
  executeAction this a index calls
  = (Throw (raiseOf a (contentRequiredMessage a)), calls).
Proof.
  intros Hres Hmode Hname Hitem Hhas Hread. pipeline Hres Hmode.
  by rewrite (readDocContent_binary _ _ _ _ _ name input0 rest Hname Hitem), Hhas, Hread.
Qed.

Lemma empty_file_rejected_witness :
  executeAction Cases.emptyAttachment BankCheque 0 []
  = (Throw (NodeOperationError "Bank cheque content is required"), []).
Proof.
  apply (empty_file_rejected Cases.emptyAttachment BankCheque 0 [] "data"
           Cases.attachment []).
  - repeat split; intros; eexists; reflexivity.
  - reflexivity.
  - reflexivity.
  - reflexivity.
  - reflexivity.
  - reflexivity.
Defined.

(** X27. In binary mode an item for whose index the host has no input ends
    every action in a [TypeError], before any network call: the action reads
    [this.getInputData(index)[0].binary], and there is no first item.  On
    the one input of the node this is the case of every item after the
    first, whatever it carries. *)
Theorem binary_item_without_input_fails (this : Runtime) (a : Action) (index : nat)
    (calls : list NetworkCall) :
  parametersResolve this index →
  getNodeParameter this "inputDataType" index None = Normal "binaryData" →
  getInputData this (Some index) = Normal [] →
  executeAction this a index calls
  = (Throw (TypeError "Cannot read properties of undefined (reading 'binary')"),
     calls).
Proof.
  intros Hres Hmode Hinput. pose proof Hres as (Hname & _). pipeline Hres Hmode.
  by rewrite readDocContent_no_input by done.
Qed.

Lemma binary_item_without_input_fails_witness :
  executeAction (Example.runtime Cases.attachedTwice) BankCheque 1 []
  = (Throw (TypeError "Cannot read properties of undefined (reading 'binary')"), []).
Proof.
  apply (binary_item_without_input_fails (Example.runtime Cases.attachedTwice)
           BankCheque 1 []).
  - repeat split; intros; eexists; reflexivity.
  - reflexivity.
  - reflexivity.
Defined.

(** X7. In base64 mode content that is blank once its data-URL prefix is gone
    (an empty parameter, white space, a data URL with nothing after the
    comma) makes every action raise its "... content is required" error,
    before any network call. *)
Theorem blank_content_rejected (this : Runtime) (a : Action) (index : nat)
    (calls : list NetworkCall) (base64Content : string) :
  parametersResolve this index →
  getNodeParameter this "inputDataType" index None = Normal "base64" →
  getNodeParameter this "base64Content" index None = Normal base64Content →
  isBlank (stripDataUrlPrefix base64Content) = true →
  executeAction this a index calls
  = (Throw (raiseOf a (contentRequiredMessage a)), calls).
Proof.
  intros Hres Hmode Hcontent Hblank. pipeline Hres Hmode.
  rewrite readDocContent_base64, Hcontent. unfold submitted. by rewrite Hblank.
Qed.

Lemma blank_content_rejected_witness :
  executeAction (Example.runtime Cases.emptyDataUrl) HealthCard 0 []
  = (Throw (Error "Health card content is required"), []).
Proof.
  apply (blank_content_rejected (Example.runtime Cases.emptyDataUrl) HealthCard 0 []
           "data:image/png;base64,").
  - repeat split; intros; eexists; reflexivity.
  - reflexivity.
  - reflexivity.
  - reflexivity.
Defined.

(** X8. The invoice, contract, mortgage and bank cheque actions reject base64
    content that does not start with [JVBERi0x]: they raise "Invalid PDF
    content ..." with the first 20 characters of the content, before any
    network call. *)
Theorem content_without_pdf_header_rejected (this : Runtime) (a : Action) (index : nat)
    (calls : list NetworkCall) (base64Content : string) :
  parametersResolve this index →
  getNodeParameter this "inputDataType" index None = Normal "base64" →
  getNodeParameter this "base64Content" index None = Normal base64Content →
  validatesPdf a = true →
  isBlank (stripDataUrlPrefix base64Content) = false →
  Js.startsWith (stripDataUrlPrefix base64Content) "JVBERi0x" = false →
  executeAction this a index calls
  = (Throw (raiseOf a (invalidPdfMessage (stripDataUrlPrefix base64Content))), calls).
Proof.
  intros Hres Hmode Hcontent Hpdf Hblank Hheader. pipeline Hres Hmode.
  rewrite readDocContent_base64, Hcontent. unfold submitted.
  by rewrite Hblank, Hpdf, Hheader.
Qed.

Lemma content_without_pdf_header_rejected_witness :
  executeAction (Example.runtime Example.notPdf) InvoiceParser 0 []
  = (Throw (Error (invalidPdfMessage "bm90YXBkZg==")), []).
Proof.
  apply (content_without_pdf_header_rejected (Example.runtime Example.notPdf)
           InvoiceParser 0 [] "bm90YXBkZg==").
  - repeat split; intros; eexists; reflexivity.
  - reflexivity.
  - reflexivity.
  - reflexivity.
  - reflexivity.
  - reflexivity.
Defined.

(** X9. In base64 mode content that is not blank, and that starts with
    [JVBERi0x] where the action checks for it, is submitted as it is once
    the data-URL prefix is gone: the one network call of the action is the
    request to its own path, with that content as [docContent].  The health
    card, credit card, pay stub and marriage certificate actions submit
    content that is no PDF, an image for instance. *)
Theorem base64_content_is_submitted (this : Runtime) (a : Action) (index : nat)
    (calls : list NetworkCall) (base64Content : string) :
  parametersResolve this index →
  getNodeParameter this "inputDataType" index None = Normal "base64" →
  getNodeParameter this "base64Content" index None = Normal base64Content →
  isBlank (stripDataUrlPrefix base64Content) = false →
  (validatesPdf a = true →
   Js.startsWith (stripDataUrlPrefix base64Content) "JVBERi0x" = true) →
  ∃ payload,
    (executeAction this a index calls).2 = calls ++ [AsyncRequest (pathOf a) payload]
    ∧ payload !! "docContent" = Some (VStr (stripDataUrlPrefix base64Content)).
Proof.
  intros Hres Hmode Hcontent Hblank Hheader. pipeline Hres Hmode.
  rewrite readDocContent_base64, Hcontent. unfold submitted. rewrite Hblank.
  destruct (validatesPdf a); cbn [andb]; [rewrite Hheader by done; cbn [negb]|];
    (eexists; split; [reflexivity | apply Hpayload]).
Qed.

Lemma base64_content_is_submitted_witness :
  ∃ payload,
    (executeAction (Example.runtime Cases.png) CreditCard 0 []).2
    = [] ++ [AsyncRequest "/api/v2/ProcessCreditCard" payload]
    ∧ payload !! "docContent" = Some (VStr "iVBORw0KGgo=").
Proof.
  apply (base64_content_is_submitted (Example.runtime Cases.png) CreditCard 0 []
           "data:image/png;base64,iVBORw0KGgo=").
  - repeat split; intros; eexists; reflexivity.
  - reflexivity.
  - reflexivity.
  - reflexivity.
  - discriminate.
Defined.

(** X10. In URL mode a download that fails ends the action with the error of
    the download, as the host threw it: the action has made the download and
    no request. *)
Theorem download_failure_propagates (this : Runtime) (a : Action) (index : nat)
    (calls : list NetworkCall) (url : string) (e : JsError) :
  parametersResolve this index →
  getNodeParameter this "inputDataType" index None = Normal "url" →
  getNodeParameter this (urlParameter a) index None = Normal url →
  httpRequestWithAuthentication this url = Throw e →
  executeAction this a index calls = (Throw e, calls ++ [HttpGet url]).
Proof.
  intros Hres Hmode Hurl Hdownload. pipeline Hres Hmode.
  by rewrite (readDocContent_url _ _ _ _ _ url Hurl), Hdownload.
Qed.

Lemma download_failure_propagates_witness :
  executeAction (Example.runtime Cases.brokenUrl) Contract 0 []
  = (Throw (HostError Cases.notFound), [] ++ [HttpGet Example.url]).
Proof.
  apply (download_failure_propagates (Example.runtime Cases.brokenUrl) Contract 0 []
           Example.url (HostError Cases.notFound)).
  - repeat split; intros; eexists; reflexivity.
  - reflexivity.
  - reflexivity.
  - reflexivity.
Defined.

(** X11. In URL mode a downloaded file that is not empty, and that starts with
    [%PDF-1] where the action checks for the PDF header, is submitted whole:
    the action makes the download, then the request to its own path with
    the base64 text of the file as [docContent]. *)
Theorem downloaded_file_is_submitted (this : Runtime) (a : Action) (index : nat)
    (calls : list NetworkCall) (url : string) (buffer : Buffer) :
  parametersResolve this index →
  getNodeParameter this "inputDataType" index None = Normal "url" →
  getNodeParameter this (urlParameter a) index None = Normal url →
  httpRequestWithAuthentication this url = Normal buffer →
  buffer ≠ [] →
  (validatesPdf a = true → ∃ tail, buffer = bytesOf "%PDF-1" ++ tail) →
  ∃ payload,
    (executeAction this a index calls).2
    = calls ++ [HttpGet url] ++ [AsyncRequest (pathOf a) payload]
    ∧ payload !! "docContent" = Some (VStr (toBase64 buffer)).
Proof.
  intros Hres Hmode Hurl Hdownload Hbuffer Hpdf. pipeline Hres Hmode.
  rewrite (readDocContent_url _ _ _ _ _ url Hurl), Hdownload.
  file_submitted Hbuffer Hpdf Hpayload.
Qed.

Lemma downloaded_file_is_submitted_witness :
  ∃ payload,
    (executeAction (Example.runtime Cases.byUrl) Contract 0 []).2
    = [] ++ [HttpGet Example.url] ++ [AsyncRequest "/api/v2/ProcessContract" payload]
    ∧ payload !! "docContent"
      = Some (VStr (toBase64 (bytesOf "%PDF-1.7 contract"))).
Proof.
  apply (downloaded_file_is_submitted (Example.runtime Cases.byUrl) Contract 0 []
           Example.url (bytesOf "%PDF-1.7 contract")).
  - repeat split; intros; eexists; reflexivity.
  - reflexivity.
  - reflexivity.
  - reflexivity.
  - discriminate.
  - intros _. exists (bytesOf ".7 contract"). reflexivity.
Defined.
(** ** Network calls *)

(** X12. Whatever happens, one run of an action adds to the network calls made
    before it at most one download followed by at most one request, and the
    request goes to the path of the action.  A run that returns a result
    has made the request. *)
Theorem action_network_calls (this : Runtime) (a : Action) (index : nat)
    (calls calls' : list NetworkCall) (r : Completion (list INodeExecutionData)) :
  executeAction this a index calls = (r, calls') →
  ∃ own,
    calls' = calls ++ own
    ∧ isOwnCalls a own
    ∧ ∀ records, r = Normal records →
                 ∃ payload, last own = Some (AsyncRequest (pathOf a) payload).
Proof.
  intros Hrun.
  destruct (action_outcome this index a calls calls' r Hrun)
    as [(e & -> & [->|[url ->]])
       |(docName & docContent & payload & metadata & own & _ & _ & _ & -> & Hown & _)].
  - exists []. rewrite app_nil_r. split; [done|]. split; [by left | done].
  - exists [HttpGet url]. split; [done|]. split; [right; left; by exists url | done].
  - exists (own ++ [AsyncRequest (pathOf a) payload]). split; [done|]. split.
    + destruct Hown as [->|[url ->]].
      * right; right; left. by exists payload.
      * right; right; right. by exists url, payload.
    + intros records _. exists payload. apply last_snoc.
Qed.

Lemma action_network_calls_witness :
  ∃ own,
    (executeAction (Example.runtime Cases.byUrl) Contract 0 []).2 = [] ++ own
    ∧ isOwnCalls Contract own
    ∧ ∀ records,
        (executeAction (Example.runtime Cases.byUrl) Contract 0 []).1 = Normal records →
        ∃ payload, last own = Some (AsyncRequest (pathOf Contract) payload).
Proof.
  apply (action_network_calls (Example.runtime Cases.byUrl) Contract 0 []).
  reflexivity.
Defined.

(** X13. The actions that check for the PDF header never submit content without
    it, in whichever mode the content was read: the [docContent] of every
    request they make starts with [JVBERi0x]. *)
Theorem submitted_content_has_pdf_header (this : Runtime) (a : Action) (index : nat)
    (calls own : list NetworkCall) (r : Completion (list INodeExecutionData))
    (payload : IDataObject) :
  executeAction this a index calls = (r, calls ++ own) →
  payload ∈ payloadsOf own →
  validatesPdf a = true →
  ∃ docContent,
    payload !! "docContent" = Some (VStr docContent)
    ∧ Js.startsWith docContent "JVBERi0x" = true.
Proof.
  intros Hrun Hin Hpdf.
  destruct (action_request this a index calls own r payload Hrun Hin)
    as (docName & docContent & metadata & _ & _ & Hheader & _ & Hpayload & _).
  exists docContent. split; [apply Hpayload | by apply Hheader].
Qed.

Lemma submitted_content_has_pdf_header_witness :
  ∃ docContent,
    (<["docContent" := VStr (toBase64 (bytesOf "%PDF-1.7 contract"))]>
       (<["docName" := VStr "document.pdf"]> {[ "IsAsync" := VBool true ]})
     : IDataObject) !! "docContent" = Some (VStr docContent)
    ∧ Js.startsWith docContent "JVBERi0x" = true.
Proof.
  apply (submitted_content_has_pdf_header (Example.runtime Cases.byUrl) Contract 0 []
           [HttpGet Example.url;
            AsyncRequest "/api/v2/ProcessContract"
              (<["docContent" := VStr (toBase64 (bytesOf "%PDF-1.7 contract"))]>
                 (<["docName" := VStr "document.pdf"]> {[ "IsAsync" := VBool true ]}))]
           (executeAction (Example.runtime Cases.byUrl) Contract 0 []).1).
  - vm_compute. reflexivity.
  - constructor.
  - reflexivity.
Defined.

(** ** The answer to the request *)

Section Answers.

Variables (this : Runtime) (a : Action) (index : nat) (calls own : list NetworkCall)
  (r : Completion (list INodeExecutionData)) (payload : IDataObject).

Hypothesis Hrun : executeAction this a index calls = (r, calls ++ own).
Hypothesis Hin : payload ∈ payloadsOf own.

(** What the run returns, in terms of the answer, and what the payload and
    the metadata hold. *)
Lemma answer_decides :
  ∃ docName docContent metadata,
    r = answered this a index docContent docName payload metadata
    ∧ payload !! "docName" = Some (VStr docName)
    ∧ payload !! "docContent" = Some (VStr docContent)
    ∧ isMetadata a (Date_toISOString this) docName (suppliedRows this index)
        (suppliedFieldKeys this a index) (suppliedDocumentType this index)
        (suppliedVerifyAuthenticity this index) metadata.
Proof.
  destruct (action_request this a index calls own r payload Hrun Hin)
    as (docName & docContent & metadata & _ & _ & _ & Hr & Hpayload & Hmetadata).
  exists docName, docContent, metadata.
  split; [done|]. split; [apply Hpayload|]. split; [apply Hpayload | done].
Qed.

End Answers.

Ltac answer Hrun Hin Hanswer :=
  match type of Hrun with
  | executeAction ?this ?a ?index ?calls = (?r, ?calls ++ ?own) =>
      match type of Hin with
      | ?payload ∈ _ =>
          destruct (answer_decides this a index calls own r payload Hrun Hin)
            as (docName & docContent & metadata & -> & HdocName & HdocContent
                & Hmetadata);
          unfold answered; rewrite Hanswer
      end
  end.

(** X14. A request answered with nothing (no value, [null], [false], zero, an
    empty string) makes the action raise "No response data received from
    PDF4ME AI ... Processing API", in its own error class. *)
Theorem empty_response_rejected (this : Runtime) (a : Action) (index : nat)
    (calls own : list NetworkCall) (r : Completion (list INodeExecutionData))
    (payload : IDataObject) (result : JsVal) :
  executeAction this a index calls = (r, calls ++ own) →
  payload ∈ payloadsOf own →
  pdf4meAsyncRequest this (pathOf a) payload = inr result →
  truthy result = false →
  r = Throw (raiseOf a (noResponseMessage a)).
Proof.
  intros Hrun Hin Hanswer Hfalsy. answer Hrun Hin Hanswer.
  unfold processed. by rewrite Hfalsy.
Qed.

Lemma empty_response_rejected_witness :
  (executeAction (Example.runtime Cases.nullResponse) MortgageDocument 0 []).1
  = Throw (Error "No response data received from PDF4ME AI Mortgage Document Processing API").
Proof.
  apply (empty_response_rejected (Example.runtime Cases.nullResponse) MortgageDocument
           0 []
           [AsyncRequest "/api/v2/ProcessMortgageDocument"
              (object [ ("docName", VStr "document.pdf");
                        ("docContent", VStr "JVBERi0xLjQK"); ("IsAsync", VBool true) ])]
           _ (object [ ("docName", VStr "document.pdf");
                       ("docContent", VStr "JVBERi0xLjQK"); ("IsAsync", VBool true) ])
           VNull).
  - vm_compute. reflexivity.
  - constructor.
  - reflexivity.
  - reflexivity.
Defined.

(** X15. A request answered with an object makes the action return one record:
    the properties of the object with [_metadata] added, so that a
    [_metadata] of the answer itself is replaced.  The answer is not parsed.
    The record carries no binary data and no error; it is paired with its
    input item by the actions that raise node errors, and by no other. *)
Theorem object_response_is_returned (this : Runtime) (a : Action) (index : nat)
    (calls own : list NetworkCall) (r : Completion (list INodeExecutionData))
    (payload : IDataObject) (props : IDataObject) :
  executeAction this a index calls = (r, calls ++ own) →
  payload ∈ payloadsOf own →
  pdf4meAsyncRequest this (pathOf a) payload = inr (VObj props) →
  ∃ record metadata,
    r = Normal [record]
    ∧ json record = <["_metadata" := VObj metadata]> props
    ∧ binary record = None
    ∧ error record = None
    ∧ pairedItem record = if raisesNodeErrors a then Some index else None.
Proof.
  intros Hrun Hin Hanswer. answer Hrun Hin Hanswer.
  by eexists _, metadata.
Qed.

Lemma object_response_is_returned_witness :
  ∃ record metadata,
    (executeAction (Example.runtime Cases.objectResponse) InvoiceParser 0 []).1
    = Normal [record]
    ∧ json record = <["_metadata" := VObj metadata]> Cases.amount
    ∧ binary record = None
    ∧ error record = None
    ∧ pairedItem record = if raisesNodeErrors InvoiceParser then Some 0 else None.
Proof.
  apply (object_response_is_returned (Example.runtime Cases.objectResponse)
           InvoiceParser 0 []
           [AsyncRequest "/api/v2/ProcessInvoice"
              (object [ ("docName", VStr "document.pdf");
                        ("docContent", VStr "JVBERi0xLjQK"); ("IsAsync", VBool true) ])]
           _ (object [ ("docName", VStr "document.pdf");
                       ("docContent", VStr "JVBERi0xLjQK"); ("IsAsync", VBool true) ])).
  - vm_compute. reflexivity.
  - constructor.
  - reflexivity.
Defined.

(** X16. A request answered with a text that is not empty makes the action parse
    the text as JSON.  When the text parses, the action returns one record:
    what an object spread copies out of the parsed value, with [_metadata]
    added. *)
Theorem text_response_is_parsed (this : Runtime) (a : Action) (index : nat)
    (calls own : list NetworkCall) (r : Completion (list INodeExecutionData))
    (payload : IDataObject) (text : string) (processedData : JsVal) :
  executeAction this a index calls = (r, calls ++ own) →
  payload ∈ payloadsOf own →
  pdf4meAsyncRequest this (pathOf a) payload = inr (VStr text) →
  text ≠ EmptyString →
  JSON_parse this text = inr processedData →
  ∃ record metadata,
    r = Normal [record]
    ∧ json record = <["_metadata" := VObj metadata]> (spread processedData)
    ∧ pairedItem record = if raisesNodeErrors a then Some index else None.
Proof.
  intros Hrun Hin Hanswer Htext Hparse. answer Hrun Hin Hanswer.
  unfold processed. cbn [truthy].
  destruct text as [|c text]; [done|]. cbn [Js.truthyStr]. rewrite Hparse.
  by eexists _, metadata.
Qed.

Lemma text_response_is_parsed_witness :
  ∃ record metadata,
    (executeAction (Example.runtime Cases.textResponse) PayStub 0 []).1
    = Normal [record]
    ∧ json record = <["_metadata" := VObj metadata]> (spread (VObj ∅))
    ∧ pairedItem record = if raisesNodeErrors PayStub then Some 0 else None.
Proof.
  apply (text_response_is_parsed (Example.runtime Cases.textResponse) PayStub 0 []
           [AsyncRequest "/api/v2/ProcessPayStub"
              (object [ ("docName", VStr "document.pdf");
                        ("docContent", VStr "JVBERi0xLjQK"); ("IsAsync", VBool true) ])]
           _ (object [ ("docName", VStr "document.pdf");
                       ("docContent", VStr "JVBERi0xLjQK"); ("IsAsync", VBool true) ])
           "{}").
  - vm_compute. reflexivity.
  - constructor.
  - reflexivity.
  - discriminate.
  - reflexivity.
Defined.

(** ** A request that fails *)

(** X17. The contract, bank cheque and pay stub actions hand a failure of the
    request that carries a status code on to the caller as a [NodeApiError]
    built from the failure itself, and not from a message about it. *)
Theorem failure_with_status_is_kept (this : Runtime) (a : Action) (index : nat)
    (calls own : list NetworkCall) (r : Completion (list INodeExecutionData))
    (payload : IDataObject) (failure : ErrorObject) :
  executeAction this a index calls = (r, calls ++ own) →
  payload ∈ payloadsOf own →
  pdf4meAsyncRequest this (pathOf a) payload = inl failure →
  raisesNodeErrors a = true →
  hasStatusCode failure = true →
  r = Throw (NodeApiError failure).
Proof.
  intros Hrun Hin Hanswer Hnode Hstatus. answer Hrun Hin Hanswer.
  unfold requestErrorOf, nodeRequestError. by rewrite Hnode, Hstatus.
Qed.

Lemma failure_with_status_is_kept_witness :
  (executeAction (Example.runtime Cases.badGatewayContract) Contract 0 []).1
  = Throw (NodeApiError Cases.badGateway).
Proof.
  apply (failure_with_status_is_kept (Example.runtime Cases.badGatewayContract)
           Contract 0 []
           [AsyncRequest "/api/v2/ProcessContract"
              (object [ ("docContent", VStr "JVBERi0xLjQK");
                        ("docName", VStr "document.pdf"); ("IsAsync", VBool true) ])]
           _ (object [ ("docContent", VStr "JVBERi0xLjQK");
                       ("docName", VStr "document.pdf"); ("IsAsync", VBool true) ])).
  - vm_compute. reflexivity.
  - constructor.
  - reflexivity.
  - reflexivity.
  - reflexivity.
Defined.

(** X18. The six actions that raise plain errors report a failure of the
    request that carries no status code (or the status code zero), other
    than a reset connection, as an [Error] with the message "Connection
    error: ...": the message of the failure or "Unknown connection issue",
    the length of the content and the document name that went out, and the
    code of the failure. *)
Theorem failure_without_status_is_connection_error (this : Runtime) (a : Action)
    (index : nat) (calls own : list NetworkCall)
    (r : Completion (list INodeExecutionData)) (payload : IDataObject)
    (failure : ErrorObject) :
  executeAction this a index calls = (r, calls ++ own) →
  payload ∈ payloadsOf own →
  pdf4meAsyncRequest this (pathOf a) payload = inl failure →
  raisesNodeErrors a = false →
  hasStatusCode failure = false →
  code failure ≠ Some "ECONNRESET" →
  ∃ docContent docName,
    payload !! "docContent" = Some (VStr docContent)
    ∧ payload !! "docName" = Some (VStr docName)
    ∧ r = Throw (Error ("Connection error: "
                        +:+ orElse (message failure) "Unknown connection issue"
                        +:+ " | " +:+ debugContext docContent docName
                        +:+ ", errorCode=" +:+ interpolate (code failure))).
Proof.
  intros Hrun Hin Hanswer Hplain Hstatus Hcode. answer Hrun Hin Hanswer.
  exists docContent, docName. split; [done|]. split; [done|].
  unfold requestErrorOf, plainRequestError, describeRequestError. rewrite Hplain.
  rewrite Hstatus. rewrite bool_decide_eq_false_2 by done.
  unfold hasStatusCode in Hstatus.
  destruct (statusCode failure) as [n|]; [|done].
  apply negb_false_iff, Z.eqb_eq in Hstatus as ->.
  by rewrite !bool_decide_eq_false_2 by done.
Qed.

Lemma failure_without_status_is_connection_error_witness :
  ∃ docContent docName,
    (object [ ("docName", VStr "document.pdf"); ("docContent", VStr "JVBERi0xLjQK");
              ("IsAsync", VBool true) ] : IDataObject) !! "docContent"
    = Some (VStr docContent)
    ∧ (object [ ("docName", VStr "document.pdf"); ("docContent", VStr "JVBERi0xLjQK");
                ("IsAsync", VBool true) ] : IDataObject) !! "docName"
      = Some (VStr docName)
    ∧ (executeAction (Example.runtime Cases.dnsFailureResponse) InvoiceParser 0 []).1
      = Throw (Error ("Connection error: "
                      +:+ orElse (message Cases.dnsFailure) "Unknown connection issue"
                      +:+ " | " +:+ debugContext docContent docName
                      +:+ ", errorCode=" +:+ interpolate (code Cases.dnsFailure))).
Proof.
  apply (failure_without_status_is_connection_error
           (Example.runtime Cases.dnsFailureResponse) InvoiceParser 0 []
           [AsyncRequest "/api/v2/ProcessInvoice"
              (object [ ("docName", VStr "document.pdf");
                        ("docContent", VStr "JVBERi0xLjQK"); ("IsAsync", VBool true) ])]).
  - vm_compute. reflexivity.
  - constructor.
  - reflexivity.
  - reflexivity.
  - reflexivity.
  - discriminate.
Defined.

(** X19. The six actions that raise plain errors report a reset connection as
    "Connection was reset. ..." and nothing more: the status code and the
    message of the failure, when it has them, are lost. *)
Theorem reset_connection_hides_failure (this : Runtime) (a : Action) (index : nat)
    (calls own : list NetworkCall) (r : Completion (list INodeExecutionData))
    (payload : IDataObject) (failure : ErrorObject) :
  executeAction this a index calls = (r, calls ++ own) →
  payload ∈ payloadsOf own →
  pdf4meAsyncRequest this (pathOf a) payload = inl failure →
  raisesNodeErrors a = false →
  code failure = Some "ECONNRESET" →
  ∃ docContent docName,
    payload !! "docContent" = Some (VStr docContent)
    ∧ payload !! "docName" = Some (VStr docName)
    ∧ r = Throw (Error ("Connection was reset. " +:+ debugContext docContent docName)).
Proof.
  intros Hrun Hin Hanswer Hplain Hcode. answer Hrun Hin Hanswer.
  exists docContent, docName. split; [done|]. split; [done|].
  unfold requestErrorOf, plainRequestError, describeRequestError.
  by rewrite Hplain, bool_decide_eq_true_2.
Qed.

Lemma reset_connection_hides_failure_witness :
  ∃ docContent docName,
    (object [ ("docName", VStr "document.pdf"); ("docContent", VStr "JVBERi0xLjQK");
              ("IsAsync", VBool true) ] : IDataObject) !! "docContent"
    = Some (VStr docContent)
    ∧ (object [ ("docName", VStr "document.pdf"); ("docContent", VStr "JVBERi0xLjQK");
                ("IsAsync", VBool true) ] : IDataObject) !! "docName"
      = Some (VStr docName)
    ∧ (executeAction (Example.runtime Cases.resetResponse) InvoiceParser 0 []).1
      = Throw (Error ("Connection was reset. " +:+ debugContext docContent docName)).
Proof.
  apply (reset_connection_hides_failure (Example.runtime Cases.resetResponse)
           InvoiceParser 0 []
           [AsyncRequest "/api/v2/ProcessInvoice"
              (object [ ("docName", VStr "document.pdf");
                        ("docContent", VStr "JVBERi0xLjQK"); ("IsAsync", VBool true) ])]
           _ _ Cases.reset).
  - vm_compute. reflexivity.
  - constructor.
  - reflexivity.
  - reflexivity.
  - reflexivity.
Defined.

(** X20. The six actions that raise plain errors answer every failure of the
    request with a new [Error]: the caller gets a message, and can read no
    status code from what is thrown.  For a status other than 500, 404, 401,
    403 and 429 the message is "PDF4Me API error (<status>): ...", with the
    message of the failure or "Unknown error". *)
Theorem failure_status_goes_into_message (this : Runtime) (a : Action) (index : nat)
    (calls own : list NetworkCall) (r : Completion (list INodeExecutionData))
    (payload : IDataObject) (failure : ErrorObject) :
  executeAction this a index calls = (r, calls ++ own) →
  payload ∈ payloadsOf own →
  pdf4meAsyncRequest this (pathOf a) payload = inl failure →
  raisesNodeErrors a = false →
  ∃ msg,
    r = Throw (Error msg)
    ∧ statusCodeOf (Error msg) = None
    ∧ ∀ status,
        code failure ≠ Some "ECONNRESET" →
        statusCode failure = Some status →
        status ∉ [0; 500; 404; 401; 403; 429]%Z →
        ∃ docContent docName,
          payload !! "docContent" = Some (VStr docContent)
          ∧ payload !! "docName" = Some (VStr docName)
          ∧ msg = "PDF4Me API error (" +:+ pretty status +:+ "): "
                  +:+ orElse (message failure) "Unknown error"
                  +:+ " | " +:+ debugContext docContent docName.
Proof.
  intros Hrun Hin Hanswer Hplain. answer Hrun Hin Hanswer.
  unfold requestErrorOf, plainRequestError. rewrite Hplain.
  eexists. split; [reflexivity|]. split; [done|].
  intros status Hcode Hstatus Hnot. distinct_keys Hnot.
  exists docContent, docName. split; [done|]. split; [done|].
  unfold describeRequestError, hasStatusCode. rewrite Hstatus.
  rewrite !bool_decide_eq_false_2 by congruence.
  by rewrite (proj2 (Z.eqb_neq status 0)) by done.
Qed.

Lemma failure_status_goes_into_message_witness :
  ∃ msg,
    (executeAction (Example.runtime Cases.badGatewayResponse) InvoiceParser 0 []).1
    = Throw (Error msg)
    ∧ statusCodeOf (Error msg) = None
    ∧ ∀ status,
        code Cases.badGateway ≠ Some "ECONNRESET" →
        statusCode Cases.badGateway = Some status →
        status ∉ [0; 500; 404; 401; 403; 429]%Z →
        ∃ docContent docName,
          (object [ ("docName", VStr "document.pdf");
                    ("docContent", VStr "JVBERi0xLjQK"); ("IsAsync", VBool true) ]
           : IDataObject) !! "docContent" = Some (VStr docContent)
          ∧ (object [ ("docName", VStr "document.pdf");
                      ("docContent", VStr "JVBERi0xLjQK"); ("IsAsync", VBool true) ]
             : IDataObject) !! "docName" = Some (VStr docName)
          ∧ msg = "PDF4Me API error (" +:+ pretty status +:+ "): "
                  +:+ orElse (message Cases.badGateway) "Unknown error"
                  +:+ " | " +:+ debugContext docContent docName.
Proof.
  apply (failure_status_goes_into_message (Example.runtime Cases.badGatewayResponse)
           InvoiceParser 0 []
           [AsyncRequest "/api/v2/ProcessInvoice"
              (object [ ("docName", VStr "document.pdf");
                        ("docContent", VStr "JVBERi0xLjQK"); ("IsAsync", VBool true) ])]).
  - vm_compute. reflexivity.
  - constructor.
  - reflexivity.
  - reflexivity.
Defined.

(** ** Metadata and payload *)

(** X21. In every action but the invoice action, the custom fields that the
    metadata of a result records are the custom field keys that went out in
    the request: [customFieldsUsed] is there exactly when [CustomFieldKeys]
    was sent, with the same list. *)
Theorem metadata_records_keys_sent (this : Runtime) (a : Action) (index : nat)
    (calls own : list NetworkCall) (records : list INodeExecutionData)
    (payload : IDataObject) :
  executeAction this a index calls = (Normal records, calls ++ own) →
  payload ∈ payloadsOf own →
  a ≠ InvoiceParser →
  ∃ record metadata,
    records = [record]
    ∧ json record !! "_metadata" = Some (VObj metadata)
    ∧ metadata !! "customFieldsUsed" = payload !! "CustomFieldKeys".
Proof.
  intros Hrun Hin Hother.
  destruct (action_request this a index calls own _ payload Hrun Hin)
    as (docName & docContent & metadata & _ & _ & _ & Hr & Hpayload & Hmetadata).
  unfold answered in Hr.
  destruct (pdf4meAsyncRequest this (pathOf a) payload) as [failure|result]; [done|].
  destruct (processed this a result) as [processedData|e]; [|done].
  injection Hr as ->.
  eexists _, metadata. split; [reflexivity|]. split; [apply lookup_insert_eq|].
  destruct Hpayload as (_ & _ & _ & Hsent).
  destruct Hmetadata as (_ & _ & _ & _ & _ & Hrecorded).
  rewrite (Hsent "CustomFieldKeys"), (Hrecorded "customFieldsUsed")
    by (apply (bool_decide_unpack (_ ∉ _)); vm_compute; exact I).
  unfold metadataFieldOf, optionalFieldOf.
  by destruct a.
Qed.

Lemma metadata_records_keys_sent_witness :
  ∃ record metadata,
    [resultItem (VObj ∅)
       (object (metadataEntries (Example.runtime Cases.textResponse)
                  "Pay stub processed successfully using AI" "document.pdf"
                  "aiProcessPayStub"))
       (Some 0)] = [record]
    ∧ json record !! "_metadata" = Some (VObj metadata)
    ∧ metadata !! "customFieldsUsed"
      = (object [ ("docName", VStr "document.pdf");
                  ("docContent", VStr "JVBERi0xLjQK"); ("IsAsync", VBool true) ]
         : IDataObject) !! "CustomFieldKeys".
Proof.
  apply (metadata_records_keys_sent (Example.runtime Cases.textResponse) PayStub 0 []
           [AsyncRequest "/api/v2/ProcessPayStub"
              (object [ ("docName", VStr "document.pdf");
                        ("docContent", VStr "JVBERi0xLjQK"); ("IsAsync", VBool true) ])]).
  - vm_compute. reflexivity.
  - constructor.
  - discriminate.
Defined.
(** ** The node *)

Section Dispatch.

Variable this : Runtime.

(** One turn of the loop pushes at most one record. *)
Lemma executeItem_at_most_one_record (i : nat) (calls calls' : list NetworkCall)
    (pushed : list INodeExecutionData) :
  executeItem this i calls = (Normal pushed, calls') →
  List.length pushed ≤ 1 ∧ Forall (isOutputRecord this) pushed.
Proof.
  intros Hitem.
  destruct (getNodeParameter this "operation" i None) as [action|e] eqn:Hop.
  - destruct (isRecognized (ActionConstants this) action) eqn:Hknown.
    + destruct (executeItem_recognized this i action calls calls' pushed Hop Hknown Hitem)
        as (record & -> & Hrecord).
      split; [done | by constructor].
    + rewrite (executeItem_unrecognized this i action calls Hop Hknown) in Hitem.
      injection Hitem as <- <-. split; [simpl; lia | constructor].
  - unfold executeItem, parameter, bind, host in Hitem. by rewrite Hop in Hitem.
Qed.

Lemma executeLoop_at_most_one_record_each (remaining : nat) :
  ∀ (i : nat) (operationResult out : list INodeExecutionData)
    (calls calls' : list NetworkCall),
    executeLoop this remaining i operationResult calls = (Normal out, calls') →
    ∃ pushed, out = operationResult ++ pushed
              ∧ List.length pushed ≤ remaining
              ∧ Forall (isOutputRecord this) pushed.
Proof.
  induction remaining as [|remaining IH];
    intros i operationResult out calls calls'; simpl.
  - intros [= <- <-]. exists []. rewrite app_nil_r. split; [done|]. split; [done|].
    constructor.
  - unfold bind at 1.
    destruct (executeItem this i calls) as [[pushed|err] calls1] eqn:Hitem; [|done].
    intros Hloop.
    apply executeItem_at_most_one_record in Hitem as [Hlength Hpushed].
    apply IH in Hloop as (rest & -> & Hrest & Hrecords).
    exists (pushed ++ rest). rewrite <- app_assoc. split; [done|].
    split; [rewrite length_app; lia | by apply Forall_app].
Qed.

(** Turns of the loop on items whose operation is none of the eight. *)
Lemma executeLoop_unrecognized (remaining : nat) :
  ∀ (i : nat) (operationResult : list INodeExecutionData) (calls : list NetworkCall),
    (∀ j, i ≤ j < i + remaining →
          ∃ action, getNodeParameter this "operation" j None = Normal action
                    ∧ isRecognized (ActionConstants this) action = false) →
    executeLoop this remaining i operationResult calls = (Normal operationResult, calls).
Proof.
  induction remaining as [|remaining IH]; intros i operationResult calls Hnone; simpl.
  - done.
  - destruct (Hnone i) as (action & Hop & Hunknown); [lia|].
    unfold bind at 1.
    rewrite (executeItem_unrecognized this i action calls Hop Hunknown).
    rewrite app_nil_r. apply IH. intros j Hj. apply Hnone. lia.
Qed.

End Dispatch.

(** X22. Whatever the operations of the items are, a batch that runs to its end
    returns one list with at most one record per input item, each of them a
    result with its [_metadata] or, on a host that continues on failure, an
    error record. *)
Theorem execute_at_most_one_record_per_item (this : Runtime)
    (items : list INodeExecutionData) (out : list (list INodeExecutionData))
    (calls calls' : list NetworkCall) :
  getInputData this None = Normal items →
  execute this calls = (Normal out, calls') →
  ∃ records,
    out = [records]
    ∧ List.length records ≤ List.length items
    ∧ Forall (isOutputRecord this) records.
Proof.
  intros Hitems. unfold execute, bind, host, ret. rewrite Hitems.
  destruct (executeLoop this (List.length items) 0 [] calls)
    as [[operationResult|e] calls1] eqn:Hloop; [|done].
  intros [= <- <-].
  apply executeLoop_at_most_one_record_each in Hloop as (pushed & -> & Hlength & Hrecords).
  by exists pushed.
Qed.

Lemma execute_at_most_one_record_per_item_witness :
  ∃ records,
    [[] : list INodeExecutionData] = [records]
    ∧ List.length records ≤ List.length [Example.item]
    ∧ Forall (isOutputRecord (Example.runtime Example.unknownOperation)) records.
Proof.
  apply (execute_at_most_one_record_per_item (Example.runtime Example.unknownOperation)
           [Example.item] [[]] [] []).
  - reflexivity.
  - reflexivity.
Defined.

(** X23. The operation of an item is read outside the [try] of the loop: when
    the host cannot deliver it for item [i], the batch ends with the error
    of the host, also on a host that continues on failure, and the records
    collected for the items before [i] are not returned. *)
Theorem operation_read_failure_ends_batch (this : Runtime)
    (items : list INodeExecutionData) (i : nat) (e : JsError)
    (calls0 calls : list NetworkCall) (operationResult : list INodeExecutionData) :
  getInputData this None = Normal items →
  i < List.length items →
  executeLoop this i 0 [] calls0 = (Normal operationResult, calls) →
  getNodeParameter this "operation" i None = Throw e →
  execute this calls0 = (Throw e, calls).
Proof.
  intros Hitems Hi Hbefore Hop.
  unfold execute, bind, host. rewrite Hitems.
  replace (List.length items) with (i + S (List.length items - S i)) by lia.
  rewrite executeLoop_split, Hbefore. simpl.
  unfold bind, executeItem, parameter, host. by rewrite Hop.
Qed.

Lemma operation_read_failure_ends_batch_witness :
  continueOnFail Cases.unreadableOperation = true
  ∧ execute Cases.unreadableOperation [] = (Throw Cases.expressionError, []).
Proof.
  split; [reflexivity|].
  apply (operation_read_failure_ends_batch Cases.unreadableOperation [Example.item] 0
           Cases.expressionError [] [] []).
  - reflexivity.
  - simpl. lia.
  - reflexivity.
  - reflexivity.
Defined.

(** X24. When the eight operation names of [ActionConstants] are pairwise
    distinct, the [if] chain of the loop runs, for the name of an action,
    that action and no other. *)
Theorem dispatch_selects_action (this : Runtime) (a : Action) (action : string)
    (i : nat) :
  NoDup (constantsOf (ActionConstants this)) →
  constantOf (ActionConstants this) a = Some action →
  dispatch this action i = executeAction this a i.
Proof.
  intros Hdistinct Hname. unfold constantsOf in Hdistinct.
  repeat match type of Hdistinct with
         | NoDup (_ :: _) =>
             let Hnotin := fresh in
             apply NoDup_cons in Hdistinct as [Hnotin Hdistinct];
             distinct_keys Hnotin
         end.
  unfold dispatch.
  destruct a; simplify_eq/=;
    rewrite ?String.eqb_refl;
    repeat match goal with
           | |- context [String.eqb ?x ?y] =>
               rewrite (proj2 (String.eqb_neq x y)) by congruence
           end;
    by rewrite ?String.eqb_refl.
Qed.

Lemma dispatch_selects_action_witness :
  dispatch (Example.runtime Example.invoice) "aiProcessPayStub" 0
  = executeAction (Example.runtime Example.invoice) PayStub 0.
Proof.
  apply (dispatch_selects_action (Example.runtime Example.invoice) PayStub
           "aiProcessPayStub" 0).
  - apply (bool_decide_unpack (NoDup _)). vm_compute. exact I.
  - reflexivity.
Defined.

(** X25. A batch in which no item names one of the eight operations of
    [ActionConstants] returns one empty list: no record, no error, and no
    network call, on any host. *)
Theorem unrecognized_operations_are_dropped (this : Runtime)
    (items : list INodeExecutionData) (calls : list NetworkCall) :
  getInputData this None = Normal items →
  (∀ i, i < List.length items →
        ∃ action, getNodeParameter this "operation" i None = Normal action
                  ∧ isRecognized (ActionConstants this) action = false) →
  execute this calls = (Normal [[]], calls).
Proof.
  intros Hitems Hnone. unfold execute, bind, host, ret. rewrite Hitems.
  by rewrite executeLoop_unrecognized by (intros j Hj; apply Hnone; lia).
Qed.

Lemma unrecognized_operations_are_dropped_witness :
  execute (Example.runtime Example.unknownOperation) [] = (Normal [[]], []).
Proof.
  apply (unrecognized_operations_are_dropped (Example.runtime Example.unknownOperation)
           [Example.item] []).
  - reflexivity.
  - intros i Hi. exists "aiTranslateDocument". split; reflexivity.
Defined.

(** One successful run of the invoice action, with its metadata. *)
Lemma result_metadata_witness :
  ∃ record metadata docName,
    [resultItem (VObj ∅)
       (object (metadataEntries (Example.runtime Example.invoice)
                  "Invoice processed successfully using AI" "invoice.pdf"
                  "aiInvoiceParser"))
       None] = [record]
    ∧ getNodeParameter (Example.runtime Example.invoice) "docName" 0 None
      = Normal docName
    ∧ json record !! "_metadata" = Some (VObj metadata)
    ∧ isMetadata InvoiceParser (Date_toISOString (Example.runtime Example.invoice))
        docName (suppliedRows (Example.runtime Example.invoice) 0)
        (suppliedFieldKeys (Example.runtime Example.invoice) InvoiceParser 0)
        (suppliedDocumentType (Example.runtime Example.invoice) 0)
        (suppliedVerifyAuthenticity (Example.runtime Example.invoice) 0) metadata.
Proof.
  apply (result_metadata (Example.runtime Example.invoice) InvoiceParser 0 []
           [AsyncRequest "/api/v2/ProcessInvoice"
              (object [ ("docName", VStr "invoice.pdf");
                        ("docContent", VStr "JVBERi0xLjQK"); ("IsAsync", VBool true) ])]).
  vm_compute. reflexivity.
Defined.
